(** * dify-api-client: the chat client and the question batch runner

    A shallow embedding of [dify_client.py] and [question_batch.py].

    Python text is a list of Unicode code points, JSON values are an
    inductive type, and the interpreter's dynamic checks ([in], subscripting,
    attribute lookup) are partial operations that raise.  Everything the
    program does not decide itself -- the HTTP server, the wall clock, the
    access rights of the file system, the process environment -- is a field
    of a [world] record.  Statements of the program thread a [state] (files,
    printed lines, posted requests, clock readings) through an exception
    monad of state-passing functions.

    What the model takes from the libraries the program calls:
    - [requests]: [session.post] returns a response or raises a
      [RequestException]; [raise_for_status] raises [HTTPError] for the
      statuses 400 to 599; [response.json()] raises the [JSONDecodeError]
      of [requests], a [RequestException] (version 2.27 and later).
    - [requests] and [json], further: [session.post] and [response.json()]
      can also raise what is no [RequestException] (a [UnicodeEncodeError]
      for a header value outside Latin-1, a [ValueError] or a
      [RecursionError] from decoding); the world says when.
    - files: opening a file for writing either raises, and the file is as
      before, or succeeds, and the file is emptied.  [json.dump] then
      writes the document, or raises part-way (a string that UTF-8 cannot
      encode, as a lone surrogate) and leaves the text written so far;
      [writer.writerow] writes the row, or raises and writes nothing of
      it.  Whether they raise is the world's to say, as is what
      [json.load] makes of a file that holds no document written by
      [json.dump].
    - [str()] of a value that is no string is given by the world.
    - [print]: the standard output takes every text.
    - [json.dumps] with [ensure_ascii=False] and [indent=2] is written out,
      as CPython's encoder does it.
    - [input]: the interactive [main] runs over the sequence of what its
      calls of [input] do (a line, an interrupt, the end of the input); its
      prompts are kept with the printed lines.

    The entry block of [question_batch.py] (the catch-all around [main]
    and the final pause) is not embedded. *)

From Stdlib Require Import ZArith NArith List Ascii String Bool Lia.
From stdpp Require Import base option list gmap.

Local Open Scope N_scope.
Local Set Warnings "-register-all".

(** ** Python text *)

(** A [str] is its sequence of code points. *)
Abbreviation pystr := (list N).

(** String literals of the source are written [lit "..."]: the literal's
    UTF-8 bytes, decoded. *)
Definition bytes_of (s : string) : list N :=
  map N_of_ascii (list_ascii_of_string s).

Fixpoint utf8_decode (bs : list N) : pystr :=
  match bs with
  | [] => []
  | b0 :: r0 =>
      if b0 <? 0x80 then b0 :: utf8_decode r0
      else
        match r0 with
        | [] => []
        | b1 :: r1 =>
            if b0 <? 0xE0 then ((b0 mod 0x20) * 0x40 + b1 mod 0x40) :: utf8_decode r1
            else
              match r1 with
              | [] => []
              | b2 :: r2 =>
                  if b0 <? 0xF0
                  then ((b0 mod 0x10) * 0x1000 + (b1 mod 0x40) * 0x40 + b2 mod 0x40)
                         :: utf8_decode r2
                  else
                    match r2 with
                    | [] => []
                    | b3 :: r3 =>
                        ((b0 mod 0x08) * 0x40000 + (b1 mod 0x40) * 0x1000
                         + (b2 mod 0x40) * 0x40 + b3 mod 0x40) :: utf8_decode r3
                    end
              end
        end
  end.

Definition lit (s : string) : pystr := utf8_decode (bytes_of s).

Definition str_eqb (a b : pystr) : bool := bool_decide (a = b).

(** [str.isspace] of one character: the code points Python counts as
    whitespace. *)
Definition is_space (c : N) : bool :=
  ((0x09 <=? c) && (c <=? 0x0D)) || ((0x1C <=? c) && (c <=? 0x20))
  || (c =? 0x85) || (c =? 0xA0) || (c =? 0x1680)
  || ((0x2000 <=? c) && (c <=? 0x200A))
  || (c =? 0x2028) || (c =? 0x2029) || (c =? 0x202F) || (c =? 0x205F)
  || (c =? 0x3000).

(** [s.lstrip()], and [s.lstrip(chars)] for a one-character [chars]. *)
Fixpoint lstrip_by (p : N -> bool) (s : pystr) : pystr :=
  match s with
  | [] => []
  | c :: r => if p c then lstrip_by p r else s
  end.

Definition rstrip_by (p : N -> bool) (s : pystr) : pystr :=
  rev (lstrip_by p (rev s)).

(** [s.strip()] *)
Definition strip (s : pystr) : pystr := rstrip_by is_space (lstrip_by is_space s).

(** [s.rstrip('/')] *)
Definition slash : N := 0x2F.
Definition rstrip_slash (s : pystr) : pystr := rstrip_by (N.eqb slash) s.

(** [a in b] for two strings: [a] occurs in [b] as a contiguous run. *)
Fixpoint starts_with (a b : pystr) : bool :=
  match a, b with
  | [], _ => true
  | _ :: _, [] => false
  | x :: a', y :: b' => (x =? y) && starts_with a' b'
  end.

Fixpoint occurs_in (a b : pystr) : bool :=
  starts_with a b || match b with [] => false | _ :: b' => occurs_in a b' end.

(** Decimal numerals: [str(n)] of a non-negative [int]. *)
Fixpoint dec_go (fuel : nat) (n : N) (acc : pystr) : pystr :=
  match fuel with
  | O => acc
  | S f =>
      let acc' := (0x30 + n mod 10) :: acc in
      if n / 10 =? 0 then acc' else dec_go f (n / 10) acc'
  end.

Definition dec (n : N) : pystr := dec_go (S (N.to_nat (N.log2 n))) n [].

(** ["%0<w>d" % n] for a non-negative [n]. *)
Definition zero : N := 0x30.
Definition fmt_d (w : nat) (n : N) : pystr :=
  let s := dec n in replicate (w - length s)%nat zero ++ s.

(** ** JSON values

    What [json.load] and [response.json()] return, which is also what the
    program hands around as "a dictionary".  An object keeps its members in
    order; a key is looked up at its first occurrence.  A float is carried
    by the text [repr] gives it: the program never computes with one. *)
Inductive json : Type :=
| JNull
| JBool (b : bool)
| JInt (z : Z)
| JFloat (text : pystr)
| JStr (s : pystr)
| JArr (items : list json)
| JObj (members : list (pystr * json)).

Fixpoint assoc (k : pystr) (m : list (pystr * json)) : option json :=
  match m with
  | [] => None
  | (k', v) :: r => if str_eqb k k' then Some v else assoc k r
  end.

(** [type(v).__name__] *)
Definition type_name (v : json) : pystr :=
  match v with
  | JNull => lit "NoneType"
  | JBool _ => lit "bool"
  | JInt _ => lit "int"
  | JFloat _ => lit "float"
  | JStr _ => lit "str"
  | JArr _ => lit "list"
  | JObj _ => lit "dict"
  end.

(** ** Exceptions *)

Inductive exc_class : Type :=
(* requests.exceptions: the subclasses of RequestException, the last
   standing for those the program's calls seldom meet (InvalidURL,
   MissingSchema, InvalidHeader, ChunkedEncodingError, ...) *)
| Requests_ConnectionError | Requests_Timeout | Requests_TooManyRedirects
| Requests_HTTPError | Requests_JSONDecodeError | Requests_RequestException
(* json *)
| JSONDecodeError
(* builtins *)
| TypeError | KeyError | AttributeError | ValueError | RecursionError
| UnicodeDecodeError | UnicodeEncodeError
| FileNotFoundError | PermissionError | IsADirectoryError | OSError.

(** An exception object: its class and [str(e)]. *)
Record exn : Type := Exn { exn_class : exc_class; exn_str : pystr }.

(** [isinstance(e, requests.exceptions.RequestException)] *)
Definition is_RequestException (e : exn) : bool :=
  match exn_class e with
  | Requests_ConnectionError | Requests_Timeout | Requests_TooManyRedirects
  | Requests_HTTPError | Requests_JSONDecodeError | Requests_RequestException => true
  | _ => false
  end.

(** [isinstance(e, json.JSONDecodeError)]: the decode error of [requests]
    derives from it as well. *)
Definition is_JSONDecodeError (e : exn) : bool :=
  match exn_class e with
  | JSONDecodeError | Requests_JSONDecodeError => true
  | _ => false
  end.

Definition is_FileNotFoundError (e : exn) : bool :=
  match exn_class e with FileNotFoundError => true | _ => false end.

Definition is_PermissionError (e : exn) : bool :=
  match exn_class e with PermissionError => true | _ => false end.

(** [isinstance(e, Exception)]: every class above derives from [Exception]. *)
Definition is_Exception (e : exn) : bool := true.

(** ** Outcomes of the interpreter's dynamic checks *)

Inductive outcome (A : Type) : Type :=
| Return (a : A)
| Raise (e : exn).
Arguments Return {A} a.
Arguments Raise {A} e.

(** [key in v] for a string [key].  A [dict] tests its keys, a [list] its
    elements (with [==]: only an equal [str] is equal to a [str]), a [str]
    its substrings; the other values are no containers.  Message texts of
    the interpreter's own errors are those of CPython 3.12. *)
Definition is_str (key : pystr) (v : json) : bool :=
  match v with JStr s => str_eqb key s | _ => false end.

Definition py_in (key : pystr) (v : json) : outcome bool :=
  match v with
  | JObj m => Return (bool_decide (is_Some (assoc key m)))
  | JArr l => Return (existsb (is_str key) l)
  | JStr s => Return (occurs_in key s)
  | _ => Raise (Exn TypeError
                  (lit "argument of type '" ++ type_name v ++ lit "' is not iterable"))
  end.

(** [repr(key)] of a key without quotes or escapes in it, as [KeyError]
    shows it. *)
Definition quoted (key : pystr) : pystr := lit "'" ++ key ++ lit "'".

(** [v[key]] for a string [key]. *)
Definition py_getitem (v : json) (key : pystr) : outcome json :=
  match v with
  | JObj m =>
      match assoc key m with
      | Some x => Return x
      | None => Raise (Exn KeyError (quoted key))
      end
  | JArr _ => Raise (Exn TypeError (lit "list indices must be integers or slices, not str"))
  | JStr _ => Raise (Exn TypeError (lit "string indices must be integers, not 'str'"))
  | _ => Raise (Exn TypeError (lit "'" ++ type_name v ++ lit "' object is not subscriptable"))
  end.

(** [v.append(x)] *)
Definition py_append (v x : json) : outcome json :=
  match v with
  | JArr l => Return (JArr (l ++ [x]))
  | _ => Raise (Exn AttributeError
                  (lit "'" ++ type_name v ++ lit "' object has no attribute 'append'"))
  end.

(** [x or y] on optional strings: [None] and the empty string are false. *)
Definition py_or (x y : option pystr) : option pystr :=
  match x with
  | Some (_ :: _) => x
  | _ => y
  end.

(** [bool(x)] of an optional string. *)
Definition truthy (x : option pystr) : bool :=
  match x with Some (_ :: _) => true | _ => false end.

(** ** Dates *)

Record datetime : Type := Datetime {
  year : N; month : N; day : N;
  hour : N; minute : N; second : N; microsecond : N
}.

(** [dt.isoformat()] of a naive datetime. *)
Definition isoformat (dt : datetime) : pystr :=
  fmt_d 4 (year dt) ++ lit "-" ++ fmt_d 2 (month dt) ++ lit "-" ++ fmt_d 2 (day dt)
  ++ lit "T" ++ fmt_d 2 (hour dt) ++ lit ":" ++ fmt_d 2 (minute dt)
  ++ lit ":" ++ fmt_d 2 (second dt)
  ++ (if microsecond dt =? 0 then [] else lit "." ++ fmt_d 6 (microsecond dt)).

(** [dt.strftime("%Y%m%d%H%M%S")] (years of four digits). *)
Definition strftime_YmdHMS (dt : datetime) : pystr :=
  fmt_d 4 (year dt) ++ fmt_d 2 (month dt) ++ fmt_d 2 (day dt)
  ++ fmt_d 2 (hour dt) ++ fmt_d 2 (minute dt) ++ fmt_d 2 (second dt).

(** A datetime the calendar has: what [datetime.now()] can return. *)
Definition valid_datetime (dt : datetime) : Prop :=
  1000 <= year dt <= 9999 /\ 1 <= month dt <= 12 /\ 1 <= day dt <= 31
  /\ hour dt <= 23 /\ minute dt <= 59 /\ second dt <= 59 /\ microsecond dt <= 999999.

(** Microseconds on a common scale (months of 31 days): it orders valid
    datetimes as time does. *)
Definition dt_key (dt : datetime) : N :=
  (((((year dt * 12 + (month dt - 1)) * 31 + (day dt - 1)) * 24 + hour dt) * 60
    + minute dt) * 60 + second dt) * 1000000 + microsecond dt.

Definition dt_le (a b : datetime) : Prop := dt_key a <= dt_key b.

(** ** Paths *)

Definition ends_with_slash (a : pystr) : bool :=
  match last a with Some c => c =? slash | None => false end.

(** [os.path.join(a, b)] (POSIX). *)
Definition path_join (a b : pystr) : pystr :=
  if starts_with [slash] b then b
  else if bool_decide (a = []) || ends_with_slash a then a ++ b
  else a ++ [slash] ++ b.

(** ** The world and the state *)

Record request : Type := Request {
  req_url : pystr;
  req_headers : list (pystr * pystr);
  req_json : json
}.

(** What decoding the body of a response as JSON gives: the value of a
    JSON document; or [JSONDecodeError] with its message, for a body that
    is no JSON document; or another exception of [json.loads]
    ([ValueError] for an integer of more digits than [int] converts,
    [RecursionError] for a nesting too deep). *)
Inductive decoding : Type :=
| Decoded (v : json)
| Malformed (msg : pystr)
| Rejected (e : exn).

(** A response received: its status line, the final URL, and the decoding
    of its body. *)
Record response : Type := Response {
  status_code : N;
  reason : pystr;
  url : pystr;
  body : decoding
}.

(** What [session.post] does: it returns a response; or it raises one of
    the [requests] exceptions, for a request that got none; or it raises
    an exception of another kind, as the [UnicodeEncodeError] of a header
    value outside Latin-1, before anything is sent. *)
Inductive transport_failure : Type :=
| ConnectionFailed | TimedOut | TooManyRedirects | OtherFailure.

Inductive http_reply : Type :=
| NoReply (why : transport_failure) (msg : pystr)
| PostRaises (e : exn)
| Reply (r : response).

Definition transport_exn (why : transport_failure) (msg : pystr) : exn :=
  match why with
  | ConnectionFailed => Exn Requests_ConnectionError msg
  | TimedOut => Exn Requests_Timeout msg
  | TooManyRedirects => Exn Requests_TooManyRedirects msg
  | OtherFailure => Exn Requests_RequestException msg
  end.

(** What a file holds.  [JsonDoc v]: the document [json.dump] has written
    of [v], whole; it decodes to [v].  [Truncated v]: what [json.dump] had
    written of [v] when it raised, a part of that document.  [CsvDoc enc
    rows]: the rows a [csv.writer] has written, in order, in a file opened
    with the encoding [enc].  [Garbled text]: any other text (or bytes
    that are no text). *)
Inductive content : Type :=
| JsonDoc (v : json)
| Truncated (v : json)
| CsvDoc (encoding : pystr) (rows : list (list json))
| Garbled (text : pystr).

(** Reading a text file line by line: it cannot be opened, or it yields
    lines and then ends, or it yields lines and then fails. *)
Inductive text_file : Type :=
| CannotOpen (e : exn)
| Opened (lines : list pystr) (broken : option exn).

Record world : Type := World {
  server : nat -> request -> http_reply;  (* the reply to the k-th request *)
  clock : nat -> datetime;                (* the k-th reading of datetime.now() *)
  read_error : pystr -> option exn;       (* open(p, 'r'), or the read, raises *)
  write_error : pystr -> option exn;      (* open(p, 'w') raises *)
  read_text : pystr -> text_file;         (* the text files the program only reads *)
  decode_file : content -> outcome json;  (* json.load of a file json.dump has not written whole *)
  dump_error : json -> option exn;        (* json.dump into a UTF-8 file raises part-way *)
  row_error : list json -> option exn;    (* writer.writerow raises *)
  str_of_value : json -> pystr;           (* str(v) of a value other than a str *)
  environ : pystr -> option pystr;        (* os.environ, after load_dotenv() *)
  client_dir : pystr;                     (* directory of dify_client.py *)
  batch_file : pystr;                     (* os.path.abspath of question_batch.py *)
  batch_dir : pystr;                      (* its directory *)
  cwd : pystr;                            (* os.getcwd() *)
  home_dir : pystr                        (* os.path.expanduser("~") *)
}.

Record state : Type := State {
  files : gmap pystr content;    (* the files the program writes *)
  stdout : list pystr;           (* what print was given, oldest first *)
  posted : list request;         (* the requests posted, oldest first *)
  ticks : nat                    (* readings of the clock taken so far *)
}.

(** ** Statements: state and exceptions *)

Definition py (A : Type) : Type := state -> outcome A * state.

Definition ret {A} (a : A) : py A := fun s => (Return a, s).
Definition raise {A} (e : exn) : py A := fun s => (Raise e, s).
Definition bind {A B} (m : py A) (k : A -> py B) : py B :=
  fun s =>
    match m s with
    | (Return a, s') => k a s'
    | (Raise e, s') => (Raise e, s')
    end.
Definition lift {A} (o : outcome A) : py A := fun s => (o, s).

Declare Scope py_scope.
Delimit Scope py_scope with py.
Notation "'let!' x := m 'in' k" := (bind m (fun x => k))
  (at level 10, x name, m at level 100, k at level 200) : py_scope.
Local Open Scope py_scope.

(** [try: body / except C1 as e: h1 / except C2 as e: h2 ...]: the first
    clause whose class the exception is an instance of handles it; an
    exception raised by a handler is not offered to the later clauses. *)
Fixpoint handle {A} (clauses : list ((exn -> bool) * (exn -> py A))) (e : exn) : py A :=
  match clauses with
  | [] => raise e
  | (c, h) :: rest => if c e then h e else handle rest e
  end.

Definition try_except {A} (body : py A) (clauses : list ((exn -> bool) * (exn -> py A)))
  : py A :=
  fun s =>
    match body s with
    | (Return a, s') => (Return a, s')
    | (Raise e, s') => handle clauses e s'
    end.

(** [print(line)] *)
Definition print (line : pystr) : py unit :=
  fun s => (Return tt, State (files s) (stdout s ++ [line]) (posted s) (ticks s)).

(** [datetime.datetime.now()] *)
Definition now (w : world) : py datetime :=
  fun s => (Return (clock w (ticks s)),
            State (files s) (stdout s) (posted s) (S (ticks s))).

(** [os.path.exists(p)] *)
Definition path_exists (p : pystr) : py bool :=
  fun s => (Return (bool_decide (is_Some (files s !! p))), s).

(** [with open(p, 'r', encoding='utf-8') as f: json.load(f)] *)
Definition json_load (w : world) (p : pystr) : py json :=
  fun s =>
    match read_error w p with
    | Some e => (Raise e, s)
    | None =>
        match files s !! p with
        | Some (JsonDoc v) => (Return v, s)
        | Some c => (decode_file w c, s)
        | None =>
            (Raise (Exn FileNotFoundError
                      (lit "[Errno 2] No such file or directory: " ++ quoted p)), s)
        end
    end.

(** [with open(p, 'w', encoding='utf-8') as f: json.dump(v, f, ...)] *)
Definition json_dump (w : world) (v : json) (p : pystr) : py unit :=
  fun s =>
    match write_error w p with
    | Some e => (Raise e, s)
    | None =>
        match dump_error w v with
        | Some e =>
            (Raise e, State (<[p := Truncated v]> (files s)) (stdout s) (posted s) (ticks s))
        | None =>
            (Return tt, State (<[p := JsonDoc v]> (files s)) (stdout s) (posted s) (ticks s))
        end
    end.

(** [open(p, 'w', newline='', encoding=enc)] followed by [csv.writer(f)]:
    the file is created or emptied. *)
Definition csv_open (w : world) (p enc : pystr) : py unit :=
  fun s =>
    match write_error w p with
    | Some e => (Raise e, s)
    | None =>
        (Return tt, State (<[p := CsvDoc enc []]> (files s)) (stdout s) (posted s) (ticks s))
    end.

(** [writer.writerow(cells)] on the writer of the file at [p]: the row is
    written, or the call raises (a cell the encoding cannot take) and
    nothing of the row is written. *)
Definition writerow (w : world) (p : pystr) (cells : list json) : py unit :=
  fun s =>
    match row_error w cells with
    | Some e => (Raise e, s)
    | None =>
        match files s !! p with
        | Some (CsvDoc enc rows) =>
            (Return tt,
             State (<[p := CsvDoc enc (rows ++ [cells])]> (files s)) (stdout s) (posted s)
               (ticks s))
        | _ => (Return tt, s)
        end
    end.

(** [str(v)], which is also what an f-string puts for [{v}]. *)
Definition py_str (w : world) (v : json) : pystr :=
  match v with
  | JStr s => s
  | _ => str_of_value w v
  end.

Definition newline : pystr := [0x0A].

(** ** More of the interpreter and of [json] *)

(** [len(v)] *)
Definition py_len (v : json) : outcome nat :=
  match v with
  | JArr l => Return (length l)
  | JObj m => Return (length m)
  | JStr s => Return (length s)
  | _ => Raise (Exn TypeError (lit "object of type '" ++ type_name v ++ lit "' has no len()"))
  end.

(** What [for x in v] goes through: the elements of a [list], the keys of
    a [dict], the characters of a [str]. *)
Definition py_iter (v : json) : outcome (list json) :=
  match v with
  | JArr l => Return l
  | JObj m => Return (map (fun kv => JStr (fst kv)) m)
  | JStr s => Return (map (fun c => JStr [c]) s)
  | _ => Raise (Exn TypeError (lit "'" ++ type_name v ++ lit "' object is not iterable"))
  end.

(** [json.dumps(v, ensure_ascii=False, indent=2)], as CPython's encoder
    writes it.  In a string the quote, the backslash and the control
    characters below U+0020 are escaped (the latter as [\b], [\f], [\n],
    [\r], [\t] or four lowercase hexadecimal digits after [\u]), and every
    other character is kept. *)
Definition hex_digit (n : N) : N := if n <? 10 then 0x30 + n else 0x61 + (n - 10).

Definition escape_char (c : N) : pystr :=
  if c =? 0x22 then [0x5C; 0x22]
  else if c =? 0x5C then [0x5C; 0x5C]
  else if c =? 0x0A then [0x5C; 0x6E]
  else if c =? 0x0D then [0x5C; 0x72]
  else if c =? 0x09 then [0x5C; 0x74]
  else if c =? 0x08 then [0x5C; 0x62]
  else if c =? 0x0C then [0x5C; 0x66]
  else if c <? 0x20 then [0x5C; 0x75; 0x30; 0x30; hex_digit (c / 16); hex_digit (c mod 16)]
  else [c].

Definition json_string (s : pystr) : pystr :=
  [0x22] ++ concat (map escape_char s) ++ [0x22].

(** An [int] is written as [str] gives it. *)
Definition json_int (z : Z) : pystr :=
  if (z <? 0)%Z then lit "-" ++ dec (Z.to_N (- z)) else dec (Z.to_N z).

(** A [float] is written as [repr] gives it, but for [nan] and the
    infinities. *)
Definition json_float (text : pystr) : pystr :=
  if str_eqb text (lit "nan") then lit "NaN"
  else if str_eqb text (lit "inf") then lit "Infinity"
  else if str_eqb text (lit "-inf") then lit "-Infinity"
  else text.

(** [sep.join(parts)] *)
Fixpoint join (sep : pystr) (parts : list pystr) : pystr :=
  match parts with
  | [] => []
  | [p] => p
  | p :: rest => p ++ sep ++ join sep rest
  end.

(** The line break and the indentation of a nesting level, two spaces
    for each level. *)
Definition newline_indent (level : nat) : pystr :=
  newline ++ replicate (2 * level) 0x20.

(** The text of [v] at a nesting level.  With an indentation, the items
    of a container are separated by a comma and the line break, a key and
    its value by a colon and a space; a container without items is [[]]
    or [{}]. *)
Fixpoint json_dumps_at (level : nat) (v : json) : pystr :=
  match v with
  | JNull => lit "null"
  | JBool true => lit "true"
  | JBool false => lit "false"
  | JInt z => json_int z
  | JFloat text => json_float text
  | JStr s => json_string s
  | JArr [] => lit "[]"
  | JArr items =>
      lit "[" ++ newline_indent (S level)
      ++ join (lit "," ++ newline_indent (S level)) (map (json_dumps_at (S level)) items)
      ++ newline_indent level ++ lit "]"
  | JObj [] => lit "{}"
  | JObj members =>
      lit "{" ++ newline_indent (S level)
      ++ join (lit "," ++ newline_indent (S level))
           (map (fun kv => json_string (fst kv) ++ lit ": " ++ json_dumps_at (S level) (snd kv))
              members)
      ++ newline_indent level ++ lit "}"
  end.

Definition json_dumps (v : json) : pystr := json_dumps_at 0 v.

(** ** Input

    What a call of [input] does: it returns a line (without its end), or
    raises [KeyboardInterrupt], or, at the end of the input, [EOFError].
    The prompt of [input] is written to the standard output, and is kept
    in [stdout] as an item of its own; so is what [print] writes with an
    empty [end].  An interrupt is taken to arrive while the program waits
    in [input]. *)
Inductive event : Type :=
| Line (text : pystr)
| Interrupt
| EndOfInput.

(** How far a run over a given sequence of events gets: [main] returned,
    leaving events unread; or the events are used up and [main] waits in
    [input]; or [input] raised an exception that nothing catches. *)
Inductive run : Type :=
| Ended (unread : list event)
| Waiting
| Uncaught (cause : event) (unread : list event).

(** ** dify_client.py *)
Module dify_client.

Record DifyClient : Type := Client {
  base_url : pystr;
  api_key : option pystr;
  headers : list (pystr * pystr);   (* what the client adds to the session's headers *)
  log_file : pystr
}.

Section Client.
Context (w : world).

(** [os.getenv(name, default)] *)
Definition getenv_default (name default : pystr) : pystr :=
  match environ w name with Some v => v | None => default end.

(** [DifyClient.__init__] *)
Definition init (base_url api_key : option pystr) : DifyClient :=
  let base :=
    match py_or base_url (Some (getenv_default (lit "DIFY_BASE_URL") (lit "http://localhost/v1"))) with
    | Some b => b
    | None => []
    end in
  let key := py_or api_key (environ w (lit "DIFY_API_KEY")) in
  Client
    (rstrip_slash base)
    key
    (match key with
     | Some (c :: k) =>
         [(lit "Authorization", lit "Bearer " ++ c :: k);
          (lit "Content-Type", lit "application/json")]
     | _ => []
     end)
    (path_join (client_dir w) (lit "dify_chat_log.json")).

(** [self.session.post(endpoint, json=payload)] *)
Definition post (self : DifyClient) (endpoint : pystr) (payload : json) : py response :=
  fun s =>
    let r := Request endpoint (headers self) payload in
    let s' := State (files s) (stdout s) (posted s ++ [r]) (ticks s) in
    match server w (length (posted s)) r with
    | NoReply why msg => (Raise (transport_exn why msg), s')
    | PostRaises e => (Raise e, s')
    | Reply resp => (Return resp, s')
    end.

(** [response.raise_for_status()]: [requests] raises [HTTPError] for the
    statuses 400 to 599, and for no other. *)
Definition raise_for_status (r : response) : py unit :=
  if (400 <=? status_code r) && (status_code r <? 500) then
    raise (Exn Requests_HTTPError
             (dec (status_code r) ++ lit " Client Error: " ++ reason r
              ++ lit " for url: " ++ url r))
  else if (500 <=? status_code r) && (status_code r <? 600) then
    raise (Exn Requests_HTTPError
             (dec (status_code r) ++ lit " Server Error: " ++ reason r
              ++ lit " for url: " ++ url r))
  else ret tt.

(** [response.json()]: [requests] (2.27 and later) raises its own
    [JSONDecodeError], a [RequestException], for a body that is no JSON;
    what else the decoder raises passes through as it is. *)
Definition response_json (r : response) : py json :=
  match body r with
  | Decoded v => ret v
  | Malformed msg => raise (Exn Requests_JSONDecodeError msg)
  | Rejected e => raise e
  end.

(** [DifyClient._log_interaction] *)
Definition _log_interaction (self : DifyClient) (question : pystr) (response : json)
  : py unit :=
  let! t := now w in
  let log_entry :=
    JObj [(lit "timestamp", JStr (isoformat t));
          (lit "question", JStr question);
          (lit "response", response)] in
  let! found := path_exists (log_file self) in
  let! logs :=
    (if found then
       try_except (json_load w (log_file self))
         [(fun e => is_JSONDecodeError e || is_FileNotFoundError e,
           fun _ => ret (JArr []))]
     else ret (JArr [])) in
  let! logs := lift (py_append logs log_entry) in
  try_except (json_dump w logs (log_file self))
    [(is_PermissionError,
      fun e =>
        let! _ := print (lit "警告: ログファイル保存権限エラー: " ++ exn_str e) in
        let! _ := print (lit "ログファイルパス: " ++ log_file self) in
        let desktop_path := path_join (home_dir w) (lit "Desktop") in
        let desktop_log_file := path_join desktop_path (lit "dify_chat_log.json") in
        try_except
          (let! _ := json_dump w logs desktop_log_file in
           print (lit "ログをデスクトップに保存しました: " ++ desktop_log_file))
          [(is_Exception,
            fun e2 => print (lit "デスクトップ保存も失敗: " ++ exn_str e2))]);
     (is_Exception,
      fun e => print (lit "警告: ログファイル保存エラー: " ++ exn_str e))].

(** [DifyClient.send_message] *)
Definition send_message (self : DifyClient) (message user_id : pystr)
    (conversation_id : option pystr) : py json :=
  let endpoint := base_url self ++ lit "/chat-messages" in
  let payload :=
    JObj [(lit "inputs", JObj []);
          (lit "query", JStr message);
          (lit "response_mode", JStr (lit "blocking"));
          (lit "conversation_id",
           match conversation_id with Some i => JStr i | None => JNull end);
          (lit "user", JStr user_id)] in
  try_except
    (let! response := post self endpoint payload in
     let! _ := raise_for_status response in
     let! result := response_json response in
     let! _ := _log_interaction self message result in
     ret result)
    [(is_RequestException,
      fun e =>
        let error_msg := lit "API request failed: " ++ exn_str e in
        let! _ := print error_msg in
        ret (JObj [(lit "error", JStr error_msg)]))].

(** [DifyClient.get_answer] *)
Definition get_answer (self : DifyClient) (question : pystr) : py json :=
  let! result := send_message self question (lit "user") None in
  let! has_error := lift (py_in (lit "error") result) in
  if has_error then
    let! err := lift (py_getitem result (lit "error")) in
    ret (JStr (lit "Error: " ++ py_str w err))
  else
    let! has_answer := lift (py_in (lit "answer") result) in
    if has_answer then lift (py_getitem result (lit "answer"))
    else
      let! has_data := lift (py_in (lit "data") result) in
      let! nested :=
        (if has_data then
           let! data := lift (py_getitem result (lit "data")) in
           lift (py_in (lit "answer") data)
         else ret false) in
      if nested then
        let! data := lift (py_getitem result (lit "data")) in
        lift (py_getitem data (lit "answer"))
      else ret (JStr (lit "No answer found in response")).

(** The body of [for i, log in enumerate(logs, 1)] in [print_logs], from
    the entry numbered [i] on. *)
Fixpoint print_entries (i : nat) (logs : list json) : py unit :=
  match logs with
  | [] => ret tt
  | log :: rest =>
      let! timestamp := lift (py_getitem log (lit "timestamp")) in
      let! _ := print (newline ++ lit "[" ++ dec (N.of_nat i) ++ lit "] "
                       ++ py_str w timestamp) in
      let! question := lift (py_getitem log (lit "question")) in
      let! _ := print (lit "Q: " ++ py_str w question) in
      let! response := lift (py_getitem log (lit "response")) in
      let! has_answer := lift (py_in (lit "answer") response) in
      let! _ :=
        (if has_answer then
           let! response := lift (py_getitem log (lit "response")) in
           let! answer := lift (py_getitem response (lit "answer")) in
           print (lit "A: " ++ py_str w answer)
         else
           let! response := lift (py_getitem log (lit "response")) in
           print (lit "Response: " ++ json_dumps response)) in
      let! _ := print (replicate 50 0x2D) in
      print_entries (S i) rest
  end.

(** [DifyClient.print_logs] *)
Definition print_logs (self : DifyClient) : py unit :=
  let! found := path_exists (log_file self) in
  if negb found then print (lit "No logs found.")
  else
    try_except
      (let! logs := json_load w (log_file self) in
       let! n := lift (py_len logs) in
       let! _ := print (newline ++ lit "=== Chat Logs (" ++ dec (N.of_nat n)
                        ++ lit " entries) ===") in
       let! entries := lift (py_iter logs) in
       print_entries 1 entries)
      [(is_Exception, fun e => print (lit "Error reading logs: " ++ exn_str e))].

(** One turn of [while True] in [main], after the prompt, for what [input]
    did: whether the loop goes on.  [KeyboardInterrupt] has a clause of its
    own; [EOFError] is an [Exception], and its text is "EOF when reading a
    line". *)
Definition chat_turn (client : DifyClient) (ev : event) : py bool :=
  match ev with
  | Interrupt => let! _ := print (newline ++ lit "Goodbye!") in ret false
  | EndOfInput =>
      let! _ := print (lit "Error: " ++ lit "EOF when reading a line") in ret true
  | Line text =>
      try_except
        (let question := strip text in
         match question with
         | [] => ret true
         | _ :: _ =>
             if str_eqb question (lit "/quit") then ret false
             else if str_eqb question (lit "/logs") then
               let! _ := print_logs client in ret true
             else if str_eqb question (lit "/help") then
               let! _ := print (lit "Commands:") in
               let! _ := print (lit "  /logs - Show chat logs") in
               let! _ := print (lit "  /quit - Exit") in
               let! _ := print (lit "  /help - Show this help") in
               ret true
             else
               let! _ := print (lit "Bot: ") in
               let! answer := get_answer client question in
               let! _ := print (py_str w answer) in
               ret true
         end)
        [(is_Exception,
          fun e => let! _ := print (lit "Error: " ++ exn_str e) in ret true)]
  end.

(** The loop of [main], over the events to come. *)
Fixpoint chat_loop (client : DifyClient) (events : list event) : py run :=
  let! _ := print (newline ++ lit "You: ") in
  match events with
  | [] => ret Waiting
  | ev :: rest =>
      let! go_on := chat_turn client ev in
      if go_on then chat_loop client rest else ret (Ended rest)
  end.

(** [main], the interactive chat.  The first [input] is outside every
    [try]: what it raises ends the run. *)
Definition main (events : list event) : py run :=
  let! _ := print (lit "Enter your Dify API key (or press Enter to use environment variable): ") in
  match events with
  | [] => ret Waiting
  | Line text :: rest =>
      let api_key := strip text in
      let api_key := match api_key with [] => None | _ :: _ => Some api_key end in
      let client := init None api_key in
      let! _ := print (lit "=== Dify Chat Client ===") in
      let! _ := print (lit "Commands:") in
      let! _ := print (lit "  /logs - Show chat logs") in
      let! _ := print (lit "  /quit - Exit") in
      let! _ := print (lit "  /help - Show this help") in
      let! _ := print (newline ++ lit "Enter your questions below:") in
      chat_loop client rest
  | ev :: rest => ret (Uncaught ev rest)
  end.

End Client.
End dify_client.

(** ** question_batch.py *)
Module question_batch.
Import dify_client.

(** One collected result: the dictionary the loop appends. *)
Record row : Type := Row {
  question_number : nat;
  question : pystr;
  answer : json;
  timestamp : pystr
}.

Section Batch.
Context (w : world).

(** The body of [for line in f] in [load_questions_from_file], over the
    lines the file yields. *)
Fixpoint collect (lines : list pystr) (questions : list pystr) : list pystr :=
  match lines with
  | [] => questions
  | line :: rest =>
      let q := strip line in
      collect rest (match q with [] => questions | _ :: _ => questions ++ [q] end)
  end.

(** [load_questions_from_file] *)
Definition load_questions_from_file (filepath : pystr) : py (list pystr) :=
  match read_text w filepath with
  | CannotOpen e =>
      let! _ := print (lit "❌ 質問ファイルの読み込みエラー: " ++ exn_str e) in
      ret []
  | Opened lines None => ret (collect lines [])
  | Opened lines (Some e) =>
      let! _ := print (lit "❌ 質問ファイルの読み込みエラー: " ++ exn_str e) in
      ret (collect lines [])
  end.

Definition header : list json :=
  [JStr (lit "question_number"); JStr (lit "timestamp");
   JStr (lit "question"); JStr (lit "answer")].

Definition cells (item : row) : list json :=
  [JInt (Z.of_nat (question_number item)); JStr (timestamp item);
   JStr (question item); answer item].

(** [for item in answers: writer.writerow([...])] *)
Fixpoint write_rows (p : pystr) (answers : list row) : py unit :=
  match answers with
  | [] => ret tt
  | item :: rest => let! _ := writerow w p (cells item) in write_rows p rest
  end.

(** The body of a [with open(p, 'w', ...)] block of [save_answers_only]. *)
Definition write_csv (p : pystr) (answers : list row) : py unit :=
  let! _ := csv_open w p (lit "utf-8") in
  let! _ := writerow w p header in
  write_rows p answers.

(** [save_answers_only] *)
Definition save_answers_only (answers : list row) : py unit :=
  let script_dir := batch_dir w in
  let! t := now w in
  let timestamp := strftime_YmdHMS t in
  let filename := timestamp ++ lit "_dify_answers_only.csv" in
  let filepath := path_join script_dir filename in
  let! _ := print (lit "ファイル保存先: " ++ filepath) in
  try_except
    (let! _ := write_csv filepath answers in
     print (newline ++ lit "回答のみを " ++ filename ++ lit " に保存しました。"))
    [(is_PermissionError,
      fun e =>
        let! _ := print (newline ++ lit "❌ ファイル保存権限エラー: " ++ exn_str e) in
        let! _ := print (lit "保存先: " ++ filepath) in
        let! _ := print (lit "別の場所への保存を試みます...") in
        let desktop_path := path_join (home_dir w) (lit "Desktop") in
        let desktop_filepath := path_join desktop_path filename in
        try_except
          (let! _ := write_csv desktop_filepath answers in
           print (lit "✓ デスクトップに保存しました: " ++ desktop_filepath))
          [(is_Exception,
            fun e2 => print (lit "❌ デスクトップ保存も失敗: " ++ exn_str e2))]);
     (is_Exception,
      fun e =>
        let! _ := print (newline ++ lit "❌ ファイル保存エラー: " ++ exn_str e) in
        print (lit "保存先: " ++ filepath))].

(** [f"質問{i}でエラー: {e}"] *)
Definition error_msg (i : nat) (e : exn) : pystr :=
  lit "質問" ++ dec (N.of_nat i) ++ lit "でエラー: " ++ exn_str e.

(** One turn of [for i, question in enumerate(questions, 1)] in [main]:
    the new value of [answers_only]. *)
Definition batch_step (client : DifyClient) (i : nat) (question : pystr)
    (answers_only : list row) : py (list row) :=
  let! _ := print (newline ++ lit "[" ++ dec (N.of_nat i) ++ lit "] Question: " ++ question) in
  let! answers_only :=
    try_except
      (let! answer := get_answer w client question in
       let! _ := print (lit "Answer: " ++ py_str w answer) in
       let! t := now w in
       ret (answers_only ++ [Row i question answer (isoformat t)]))
      [(is_Exception,
        fun e =>
          let error_msg := error_msg i e in
          let! _ := print (lit "Answer: " ++ error_msg) in
          let! t := now w in
          ret (answers_only ++ [Row i question (JStr error_msg) (isoformat t)]))] in
  let! _ := print (replicate 50 0x2D) in
  ret answers_only.

(** The loop of [main], from the turn numbered [i] on. *)
Fixpoint batch_loop (client : DifyClient) (i : nat) (questions : list pystr)
    (answers_only : list row) : py (list row) :=
  match questions with
  | [] => ret answers_only
  | question :: rest =>
      let! answers_only := batch_step client i question answers_only in
      batch_loop client (S i) rest answers_only
  end.

(** [for i, item in enumerate(answers_only, 1)] at the end of [main]. *)
Fixpoint print_summary (i : nat) (answers_only : list row) : py unit :=
  match answers_only with
  | [] => ret tt
  | item :: rest =>
      let! _ := print (lit "[" ++ dec (N.of_nat i) ++ lit "] " ++ py_str w (answer item)) in
      let! _ := print [] in
      print_summary (S i) rest
  end.

(** [main]; [requests] is taken to be installed (the module could not have
    been imported otherwise).  The result is [answers_only] as the run
    leaves it. *)
Definition main : py (list row) :=
  let! _ := print (lit "=== Dify API クライアント開始 ===") in
  let! _ := print (lit "スクリプトの場所: " ++ batch_file w) in
  let! _ := print (lit "現在の作業ディレクトリ: " ++ cwd w) in
  let! _ := print (lit "✓ requestsライブラリ確認OK") in
  let api_key := environ w (lit "DIFY_API_KEY") in
  let base_url := getenv_default w (lit "DIFY_BASE_URL") (lit "http://localhost/v1") in
  if negb (truthy api_key) then
    let! _ := print (lit "❌ APIキーが設定されていません。") in
    let! _ := print (lit ".envファイルにDIFY_API_KEYを設定してください。") in
    ret []
  else
    let client := init w (Some base_url) api_key in
    let! _ := print (lit "✓ DifyClient初期化OK") in
    let questions_file := path_join (batch_dir w) (lit "questions.txt") in
    let! questions := load_questions_from_file questions_file in
    match questions with
    | [] =>
        let! _ := print (lit "❌ 質問が見つかりません。questions.txt を確認してください。") in
        ret []
    | _ :: _ =>
        let! _ := print (lit "=== Dify API Test ===") in
        let! answers_only := batch_loop client 1 questions [] in
        let! _ := print (newline ++ lit "=== ファイル保存処理 ===") in
        let! _ := save_answers_only answers_only in
        let! _ := print (newline ++ lit "=== 回答まとめ ===") in
        let! _ := print_summary 1 answers_only in
        ret answers_only
    end.

End Batch.
End question_batch.

(** ** What the statements below speak of *)

Import dify_client question_batch.

(** *** Text and numerals *)

(** A line of whitespace only (an empty line included). *)
Definition blank (line : pystr) : bool := forallb is_space line.

(** A decimal digit. *)
Definition is_digit (c : N) : bool := (0x30 <=? c) && (c <=? 0x39).

(** The number a decimal numeral stands for. *)
Definition value (s : pystr) : N := fold_left (fun a c => 10 * a + (c - 0x30)) s 0.

(** *** The answer of a response *)

(** The fixed text of [get_answer]. *)
Definition fallback : pystr := lit "No answer found in response".

(** The answer the priority order picks from the members of a response
    object: [error], then [answer], then [data.answer], then the fixed
    text. *)
Definition answer_by_priority (w : world) (m : list (pystr * json)) : json :=
  match assoc (lit "error") m with
  | Some err => JStr (lit "Error: " ++ py_str w err)
  | None =>
      match assoc (lit "answer") m with
      | Some a => a
      | None =>
          match assoc (lit "data") m with
          | Some (JObj d) =>
              match assoc (lit "answer") d with
              | Some a => a
              | None => JStr fallback
              end
          | _ => JStr fallback
          end
      end
  end.

(** The response objects whose [data] member, where the choice comes to
    it, is an object or is absent. *)
Definition data_is_object_or_absent (m : list (pystr * json)) : bool :=
  match assoc (lit "error") m, assoc (lit "answer") m, assoc (lit "data") m with
  | Some _, _, _ => true
  | None, Some _, _ => true
  | None, None, None => true
  | None, None, Some (JObj _) => true
  | None, None, Some _ => false
  end.

(** The part of [get_answer] after [send_message] has returned: it reads
    the result and touches no state. *)
Definition pick (w : world) (result : json) : outcome json :=
  match py_in (lit "error") result with
  | Raise e => Raise e
  | Return true =>
      match py_getitem result (lit "error") with
      | Raise e => Raise e
      | Return err => Return (JStr (lit "Error: " ++ py_str w err))
      end
  | Return false =>
      match py_in (lit "answer") result with
      | Raise e => Raise e
      | Return true => py_getitem result (lit "answer")
      | Return false =>
          match py_in (lit "data") result with
          | Raise e => Raise e
          | Return true =>
              match py_getitem result (lit "data") with
              | Raise e => Raise e
              | Return data =>
                  match py_in (lit "answer") data with
                  | Raise e => Raise e
                  | Return true => py_getitem data (lit "answer")
                  | Return false => Return (JStr fallback)
                  end
              end
          | Return false => Return (JStr fallback)
          end
      end
  end.

(** A string that is not empty. *)
Definition nonempty_text (a : json) : Prop := exists c t, a = JStr (c :: t).

(** The fixed text is returned, or [TypeError] is raised. *)
Definition fallback_or_TypeError (o : outcome json) : Prop :=
  o = Return (JStr fallback) \/ exists msg, o = Raise (Exn TypeError msg).

(** [a] is the answer the response object carries, at the top or under
    [data]. *)
Definition sent_as_answer (m : list (pystr * json)) (a : json) : Prop :=
  assoc (lit "answer") m = Some a
  \/ exists d, assoc (lit "data") m = Some (JObj d) /\ assoc (lit "answer") d = Some a.

(** *** Requests and exchanges *)

(** The base URL the client is given: the argument, unless it is [None] or
    empty, and otherwise the environment's or the default. *)
Definition configured_base_url (w : world) (b : option pystr) : pystr :=
  match b with
  | Some (c :: r) => c :: r
  | _ => getenv_default w (lit "DIFY_BASE_URL") (lit "http://localhost/v1")
  end.

(** The request [send_message] posts. *)
Definition chat_request (self : DifyClient) (message user_id : pystr)
    (conversation_id : option pystr) : request :=
  Request (base_url self ++ lit "/chat-messages") (headers self)
    (JObj [(lit "inputs", JObj []);
           (lit "query", JStr message);
           (lit "response_mode", JStr (lit "blocking"));
           (lit "conversation_id",
            match conversation_id with Some i => JStr i | None => JNull end);
           (lit "user", JStr user_id)]).

(** An HTTP exchange that failed as the claims have it: no response came
    (a network error), or one with a status from 400 to 599, or one whose
    body is no JSON document. *)
Definition http_failed (reply : http_reply) : bool :=
  match reply with
  | NoReply _ _ => true
  | PostRaises _ => false
  | Reply r =>
      ((400 <=? status_code r) && (status_code r <? 600))
      || match body r with Malformed _ => true | _ => false end
  end.

(** The JSON value of an exchange that did not fail. *)
Definition usable_reply (reply : http_reply) : option json :=
  match reply with
  | NoReply _ _ => None
  | PostRaises _ => None
  | Reply r =>
      if (400 <=? status_code r) && (status_code r <? 600) then None
      else match body r with Decoded v => Some v | _ => None end
  end.

(** The exception a failed exchange ends in, of whatever class. *)
Definition failure (reply : http_reply) : option exn :=
  match reply with
  | NoReply why msg => Some (transport_exn why msg)
  | PostRaises e => Some e
  | Reply r =>
      if (400 <=? status_code r) && (status_code r <? 500) then
        Some (Exn Requests_HTTPError
                (dec (status_code r) ++ lit " Client Error: " ++ reason r
                 ++ lit " for url: " ++ url r))
      else if (500 <=? status_code r) && (status_code r <? 600) then
        Some (Exn Requests_HTTPError
                (dec (status_code r) ++ lit " Server Error: " ++ reason r
                 ++ lit " for url: " ++ url r))
      else match body r with
           | Malformed msg => Some (Exn Requests_JSONDecodeError msg)
           | Rejected e => Some e
           | Decoded _ => None
           end
  end.

(** The value [send_message] returns for a failure. *)
Definition error_result (e : exn) : json :=
  JObj [(lit "error", JStr (lit "API request failed: " ++ exn_str e))].

(** *** States and the log *)

(** The state after a request was posted, after the clock was read, with
    other files, with more lines printed. *)
Definition with_posted (s : state) (r : request) : state :=
  State (files s) (stdout s) (posted s ++ [r]) (ticks s).
Definition with_tick (s : state) : state :=
  State (files s) (stdout s) (posted s) (S (ticks s)).
Definition with_files (s : state) (f : gmap pystr content) : state :=
  State f (stdout s) (posted s) (ticks s).
Definition with_printed (s : state) (lines : list pystr) : state :=
  State (files s) (stdout s ++ lines) (posted s) (ticks s).

(** One record of the log. *)
Definition log_entry (t : datetime) (question : pystr) (response : json) : json :=
  JObj [(lit "timestamp", JStr (isoformat t));
        (lit "question", JStr question);
        (lit "response", response)].

(** What [_log_interaction] takes the log at [p] to hold before it appends:
    its lines 93 to 99. *)
Definition logs_before (w : world) (p : pystr) (s : state) : outcome json :=
  match files s !! p with
  | None => Return (JArr [])
  | Some _ =>
      match fst (json_load w p s) with
      | Return v => Return v
      | Raise e =>
          if is_JSONDecodeError e || is_FileNotFoundError e then Return (JArr [])
          else Raise e
      end
  end.

(** The fallback path of the log. *)
Definition desktop_log_file (w : world) : pystr :=
  path_join (path_join (home_dir w) (lit "Desktop")) (lit "dify_chat_log.json").

(** One [with open(p, 'w', ...) as f: json.dump(v, f, ...)]: the exception
    it ends in, if any (of [open], or of [json.dump] part-way), and the
    files after it (as before when [open] raised; and otherwise with the
    document at [p], whole or in part). *)
Definition write_failure (w : world) (v : json) (p : pystr) : option exn :=
  match write_error w p with
  | Some e => Some e
  | None => dump_error w v
  end.

Definition dumped (w : world) (v : json) : content :=
  match dump_error w v with
  | None => JsonDoc v
  | Some _ => Truncated v
  end.

Definition attempted (w : world) (v : json) (p : pystr) (f : gmap pystr content)
  : gmap pystr content :=
  match write_error w p with
  | Some _ => f
  | None => <[p := dumped w v]> f
  end.

(** Lines 104 to 120 of [_log_interaction]: saving [logs]. *)
Definition save_logs (w : world) (self : DifyClient) (logs : json) (s : state) : state :=
  let s0 := with_files s (attempted w logs (log_file self) (files s)) in
  match write_failure w logs (log_file self) with
  | None => s0
  | Some e =>
      if is_PermissionError e then
        let s1 :=
          with_printed s0
            [lit "警告: ログファイル保存権限エラー: " ++ exn_str e;
             lit "ログファイルパス: " ++ log_file self] in
        let s2 := with_files s1 (attempted w logs (desktop_log_file w) (files s1)) in
        match write_failure w logs (desktop_log_file w) with
        | None =>
            with_printed s2 [lit "ログをデスクトップに保存しました: " ++ desktop_log_file w]
        | Some e2 => with_printed s2 [lit "デスクトップ保存も失敗: " ++ exn_str e2]
        end
      else with_printed s0 [lit "警告: ログファイル保存エラー: " ++ exn_str e]
  end.

(** A call of [send_message]: its arguments. *)
Record call : Type := Call {
  message : pystr;
  user_id : pystr;
  conversation_id : option pystr
}.

(** [send_message], called once per element of [calls], in order. *)
Fixpoint send_all (w : world) (self : DifyClient) (calls : list call) : py (list json) :=
  match calls with
  | [] => ret []
  | c :: rest =>
      let! r := send_message w self (message c) (user_id c) (conversation_id c) in
      let! rs := send_all w self rest in
      ret (r :: rs)
  end.

(** The exchanges among [calls] that did not fail, in call order, each with
    the clock reading it is logged under: the request of the first call is
    the [k]-th the server sees, and the clock has been read [t] times. *)
Fixpoint exchanges (w : world) (self : DifyClient) (k t : nat) (calls : list call)
  : list (datetime * pystr * json) :=
  match calls with
  | [] => []
  | c :: rest =>
      match usable_reply
              (server w k (chat_request self (message c) (user_id c) (conversation_id c)))
      with
      | Some v => (clock w t, message c, v) :: exchanges w self (S k) (S t) rest
      | None => exchanges w self (S k) t rest
      end
  end.

(** The log entry of an exchange. *)
Definition entry_of (x : datetime * pystr * json) : json :=
  log_entry (x.1.1) (x.1.2) (x.2).

(** No call among [calls] ends in an exception that [send_message] lets
    pass: an exchange that fails ends in a [RequestException].  The
    request of the first call is the [k]-th the server sees. *)
Fixpoint all_caught (w : world) (self : DifyClient) (k : nat) (calls : list call) : bool :=
  match calls with
  | [] => true
  | c :: rest =>
      match failure
              (server w k (chat_request self (message c) (user_id c) (conversation_id c)))
      with
      | Some e => is_RequestException e
      | None => true
      end
      && all_caught w self (S k) rest
  end.

(** [json.dump] can write each list the log grows through, from [old] by
    the entries [new], one at a time. *)
Fixpoint all_dumped (w : world) (old new : list json) : bool :=
  match new with
  | [] => true
  | e :: rest =>
      match dump_error w (JArr (old ++ [e])) with
      | None => true
      | Some _ => false
      end
      && all_dumped w (old ++ [e]) rest
  end.

(** *** The batch *)

(** The state in which turn [i] of the loop calls [get_answer]: the
    heading of the turn has been printed. *)
Definition turn_start (s : state) (i : nat) (q : pystr) : state :=
  with_printed s [newline ++ lit "[" ++ dec (N.of_nat i) ++ lit "] Question: " ++ q].

(** What turn [i] records as the answer, for the outcome of its call. *)
Definition recorded (i : nat) (o : outcome json) : json :=
  match o with
  | Return a => a
  | Raise e => JStr (error_msg i e)
  end.

(** The outcomes of the [get_answer] calls the loop makes over [qs], from
    turn [i] and state [s] on, each call in the state the loop has reached. *)
Fixpoint outcomes (w : world) (client : DifyClient) (i : nat) (qs : list pystr)
    (s : state) : list (outcome json) :=
  match qs with
  | [] => []
  | q :: rest =>
      fst (get_answer w client q (turn_start s i q))
      :: outcomes w client (S i) rest (snd (batch_step w client i q [] s))
  end.

(** Writing rows one after the other: the rows written before the first
    that cannot be, and the exception that one raises. *)
Fixpoint rows_written (w : world) (rows : list (list json)) : list (list json) :=
  match rows with
  | [] => []
  | r :: rest =>
      match row_error w r with
      | Some _ => []
      | None => r :: rows_written w rest
      end
  end.

Fixpoint rows_failure (w : world) (rows : list (list json)) : option exn :=
  match rows with
  | [] => None
  | r :: rest =>
      match row_error w r with
      | Some e => Some e
      | None => rows_failure w rest
      end
  end.

(** One [with open(p, 'w', ...)] block of [save_answers_only]: the
    exception it ends in, if any (of [open], or of a [writerow]), and the
    files after it (as before when [open] raised; and otherwise with the
    rows written at [p]). *)
Definition csv_failure (w : world) (answers : list row) (p : pystr) : option exn :=
  match write_error w p with
  | Some e => Some e
  | None => rows_failure w (header :: map cells answers)
  end.

Definition csv_attempted (w : world) (answers : list row) (p : pystr)
    (f : gmap pystr content) : gmap pystr content :=
  match write_error w p with
  | Some _ => f
  | None => <[p := CsvDoc (lit "utf-8") (rows_written w (header :: map cells answers))]> f
  end.

(** The state [save_answers_only] leaves. *)
Definition saved_answers (w : world) (answers : list row) (s : state) : state :=
  let filename := strftime_YmdHMS (clock w (ticks s)) ++ lit "_dify_answers_only.csv" in
  let filepath := path_join (batch_dir w) filename in
  let desktop_filepath := path_join (path_join (home_dir w) (lit "Desktop")) filename in
  let s0 := with_printed (with_tick s) [lit "ファイル保存先: " ++ filepath] in
  let s1 := with_files s0 (csv_attempted w answers filepath (files s0)) in
  match csv_failure w answers filepath with
  | None =>
      with_printed s1 [newline ++ lit "回答のみを " ++ filename ++ lit " に保存しました。"]
  | Some e =>
      if is_PermissionError e then
        let s2 :=
          with_printed s1
            [newline ++ lit "❌ ファイル保存権限エラー: " ++ exn_str e;
             lit "保存先: " ++ filepath;
             lit "別の場所への保存を試みます..."] in
        let s3 := with_files s2 (csv_attempted w answers desktop_filepath (files s2)) in
        match csv_failure w answers desktop_filepath with
        | None => with_printed s3 [lit "✓ デスクトップに保存しました: " ++ desktop_filepath]
        | Some e2 => with_printed s3 [lit "❌ デスクトップ保存も失敗: " ++ exn_str e2]
        end
      else
        with_printed s1
          [newline ++ lit "❌ ファイル保存エラー: " ++ exn_str e;
           lit "保存先: " ++ filepath]
  end.

(** *** Worlds and inputs of the examples *)

(** The response of the examples. *)
Definition hi_response : json := JObj [(lit "answer", JStr (lit "hi"))].

(** Replies of the examples: no connection, a 404, a body that is no JSON,
    and a 300 with a JSON body. *)
Definition endpoint0 : pystr := lit "http://localhost/v1/chat-messages".
Definition refused : http_reply :=
  NoReply ConnectionFailed (lit "Connection refused").
Definition not_found : http_reply :=
  Reply (Response 404 (lit "Not Found") endpoint0 (Decoded (JObj []))).
Definition not_json : http_reply :=
  Reply (Response 200 (lit "OK") endpoint0
           (Malformed (lit "Expecting value: line 1 column 1 (char 0)"))).
Definition multiple_choices : http_reply :=
  Reply (Response 300 (lit "Multiple Choices") endpoint0
           (Decoded hi_response)).

(** A body that holds an integer of 5000 digits, which [json.loads]
    refuses to convert; and a request that cannot be sent, its key being
    outside Latin-1. *)
Definition too_many_digits_error : exn :=
  Exn ValueError
    (lit "Exceeds the limit (4300 digits) for integer string conversion: value has 5000 digits; use sys.set_int_max_str_digits() to increase the limit").
Definition too_many_digits : http_reply :=
  Reply (Response 200 (lit "OK") endpoint0 (Rejected too_many_digits_error)).
Definition not_latin1 : http_reply :=
  PostRaises
    (Exn UnicodeEncodeError
       (lit "'latin-1' codec can't encode characters in position 7-8: ordinal not in range(256)")).

Definition ok_reply (v : json) : http_reply :=
  Reply (Response 200 (lit "OK") (lit "http://localhost/v1/chat-messages") (Decoded v)).

(** What [json.load] makes of the files of the examples that hold no
    whole document: bytes that begin with 0xFF are no UTF-8, and the texts
    the examples use begin with no JSON value. *)
Definition example_decode (c : content) : outcome json :=
  match c with
  | Garbled (0xFF :: _) =>
      Raise (Exn UnicodeDecodeError
               (lit "'utf-8' codec can't decode byte 0xff in position 0: invalid start byte"))
  | _ => Raise (Exn JSONDecodeError (lit "Expecting value: line 1 column 1 (char 0)"))
  end.

(** Concrete worlds for the examples: a server whose replies are given, a
    clock that advances by a microsecond per reading, a file system whose
    access rights are given, no environment variables; what the examples
    write can be encoded. *)
Definition example_world (srv : nat -> request -> http_reply)
    (wr : pystr -> option exn) (txt : text_file) : world :=
  {| server := srv;
     clock := fun k => Datetime 2024 1 1 0 0 0 (N.of_nat k);
     read_error := fun _ => None;
     write_error := wr;
     read_text := fun _ => txt;
     decode_file := example_decode;
     dump_error := fun _ => None;
     row_error := fun _ => None;
     str_of_value := fun _ => [];
     environ := fun _ => None;
     client_dir := lit "/app";
     batch_file := lit "/app/question_batch.py";
     batch_dir := lit "/app";
     cwd := lit "/app";
     home_dir := lit "/home/user" |}.

Definition no_file : text_file :=
  CannotOpen (Exn FileNotFoundError (lit "[Errno 2] No such file or directory")).

(** The server gives every request the same reply. *)
Definition replying (reply : http_reply) : world :=
  example_world (fun _ _ => reply) (fun _ => None) no_file.

(** A state in which nothing has happened yet, and the client of the
    examples. *)
Definition fresh : state := State ∅ [] [] 0.
Definition client0 : DifyClient := init (replying (ok_reply JNull)) None None.

(** A server that answers the requests that can be sent, those whose
    header values are in Latin-1; and a client whose key, two katakana, is
    not. *)
Definition latin1 (s : pystr) : bool := forallb (fun c => c <? 256) s.
Definition latin1_only : world :=
  example_world
    (fun _ r => if forallb (fun h => latin1 (snd h)) (req_headers r)
                then Reply (Response 200 (lit "OK") (lit "http://localhost/v1/chat-messages")
                              (Decoded (JObj [(lit "answer", JStr (lit "hi"))])))
                else not_latin1)
    (fun _ => None) no_file.
Definition kana_client : DifyClient := init latin1_only None (Some (lit "キー")).

(** File systems of the examples.  The log beside the client is denied
    ([PermissionError]) and the desktop is writable; both are denied; the
    log beside the client is on a read-only file system ([OSError], errno
    30) and the desktop is writable. *)
Definition log0 : pystr := lit "/app/dify_chat_log.json".
Definition desktop0 : pystr := lit "/home/user/Desktop/dify_chat_log.json".

Definition denied (p : pystr) : exn :=
  Exn PermissionError (lit "[Errno 13] Permission denied: " ++ quoted p).
Definition read_only (p : pystr) : exn :=
  Exn OSError (lit "[Errno 30] Read-only file system: " ++ quoted p).

Definition primary_denied : world :=
  example_world (fun _ _ => ok_reply (JObj [(lit "answer", JStr (lit "hi"))]))
    (fun p => if str_eqb p log0 then Some (denied p) else None) no_file.
Definition both_denied : world :=
  example_world (fun _ _ => ok_reply (JObj [(lit "answer", JStr (lit "hi"))]))
    (fun p => Some (denied p)) no_file.
Definition primary_read_only : world :=
  example_world (fun _ _ => ok_reply (JObj [(lit "answer", JStr (lit "hi"))]))
    (fun p => if str_eqb p log0 then Some (read_only p) else None) no_file.

(** The directory of the script is denied, the rest is writable. *)
Definition script_dir_denied : world :=
  example_world (fun _ _ => ok_reply hi_response)
    (fun p => if starts_with (lit "/app/") p then Some (denied p) else None) no_file.

(** A server that refuses its second request and answers the others. *)
Definition flaky : world :=
  example_world (fun k _ => if (k =? 1)%nat then refused else ok_reply hi_response)
    (fun _ => None) no_file.

(** Three calls. *)
Definition three_calls : list call :=
  [Call (lit "one") (lit "user") None;
   Call (lit "two") (lit "user") None;
   Call (lit "three") (lit "user") None].

(** The question file of the example: the lines "What is 2+2?", "" and
    "Hello", as iterating over the file yields them. *)
Definition question_lines : list pystr :=
  [lit "What is 2+2?" ++ newline; newline; lit "Hello" ++ newline].
Definition with_questions : world :=
  example_world (fun _ _ => ok_reply hi_response) (fun _ => None)
    (Opened question_lines None).

(** A question file that begins with the line "What is 2+2?" and whose
    reading fails after it: a later buffer of the file begins with the byte
    0xff, which the decoder rejects. *)
Definition broken_questions : world :=
  example_world (fun _ _ => ok_reply hi_response) (fun _ => None)
    (Opened [lit "What is 2+2?" ++ newline]
       (Some (Exn UnicodeDecodeError
                (lit "'utf-8' codec can't decode byte 0xff in position 0: invalid start byte")))).

(** A world for a whole batch run: the key is configured, the question file
    is the one of the example, the server answers "hi", every file can be
    written. *)
Definition batch_world : world :=
  {| server := fun _ _ => ok_reply hi_response;
     clock := fun k => Datetime 2024 1 1 0 0 0 (N.of_nat k);
     read_error := fun _ => None;
     write_error := fun _ => None;
     read_text := fun _ => Opened question_lines None;
     decode_file := example_decode;
     dump_error := fun _ => None;
     row_error := fun _ => None;
     str_of_value := fun _ => [];
     environ := fun name => if str_eqb name (lit "DIFY_API_KEY") then Some (lit "app-key")
                            else None;
     client_dir := lit "/app";
     batch_file := lit "/app/question_batch.py";
     batch_dir := lit "/app";
     cwd := lit "/app";
     home_dir := lit "/home/user" |}.

(** Two collected rows. *)
Definition two_rows : list row :=
  [Row 1 (lit "What is 2+2?") (JStr (lit "4")) (lit "2024-01-01T00:00:00");
   Row 2 (lit "Hello") (JStr (lit "hi")) (lit "2024-01-01T00:00:00.000001")].

(** A lone surrogate, U+DC80, is a character of a Python text that UTF-8
    cannot encode (a server sends one as the JSON escape of its code).
    Two rows of which the second has it as the answer; and a world in
    which writing a row with this cell raises what the encoder raises for
    the second of these rows. *)
Definition is_surrogate (c : N) : bool := (0xD800 <=? c) && (c <=? 0xDFFF).
Definition surrogate_cell (v : json) : bool :=
  match v with JStr s => existsb is_surrogate s | _ => false end.

Definition surrogate_rows : list row :=
  [Row 1 (lit "What is 2+2?") (JStr (lit "4")) (lit "2024-01-01T00:00:00");
   Row 2 (lit "Hello") (JStr [0xDC80]) (lit "2024-01-01T00:00:00.000001")].

Definition strict_utf8 : world :=
  {| server := fun _ _ => ok_reply hi_response;
     clock := fun k => Datetime 2024 1 1 0 0 0 (N.of_nat k);
     read_error := fun _ => None;
     write_error := fun _ => None;
     read_text := fun _ => no_file;
     decode_file := example_decode;
     dump_error := fun _ => None;
     row_error := fun r =>
       if existsb surrogate_cell r
       then Some (Exn UnicodeEncodeError
                    (lit "'utf-8' codec can't encode character '\udc80' in position 35: surrogates not allowed"))
       else None;
     str_of_value := fun _ => [];
     environ := fun _ => None;
     client_dir := lit "/app";
     batch_file := lit "/app/question_batch.py";
     batch_dir := lit "/app";
     cwd := lit "/app";
     home_dir := lit "/home/user" |}.

(** *** The batch run and the log, further *)

(** The questions a text file gives: none when it cannot be opened, and
    otherwise the lines read, stripped, without the blank ones. *)
Definition questions_of (t : text_file) : list pystr :=
  match t with
  | CannotOpen _ => []
  | Opened lines _ => map strip (List.filter (fun l => negb (blank l)) lines)
  end.

(** The request [get_answer] posts for a question. *)
Definition question_request (client : DifyClient) (q : pystr) : request :=
  chat_request client q (lit "user") None.

(** The client [main] of the batch makes, and the path of its question
    file. *)
Definition batch_client (w : world) : DifyClient :=
  init w (Some (getenv_default w (lit "DIFY_BASE_URL") (lit "http://localhost/v1")))
    (environ w (lit "DIFY_API_KEY")).

Definition questions_file (w : world) : pystr :=
  path_join (batch_dir w) (lit "questions.txt").

(** The value is a [list]. *)
Definition is_list (v : json) : bool :=
  match v with JArr _ => true | _ => false end.

(** A world whose key is configured and whose question file holds blank
    lines only. *)
Definition blank_file_world : world :=
  {| server := fun _ _ => ok_reply hi_response;
     clock := fun k => Datetime 2024 1 1 0 0 0 (N.of_nat k);
     read_error := fun _ => None;
     write_error := fun _ => None;
     read_text := fun _ => Opened [newline; lit "   " ++ newline] None;
     decode_file := example_decode;
     dump_error := fun _ => None;
     row_error := fun _ => None;
     str_of_value := fun _ => [];
     environ := fun name => if str_eqb name (lit "DIFY_API_KEY") then Some (lit "app-key")
                            else None;
     client_dir := lit "/app";
     batch_file := lit "/app/question_batch.py";
     batch_dir := lit "/app";
     cwd := lit "/app";
     home_dir := lit "/home/user" |}.

(** *** Showing the log, and the chat *)

(** A statement that does nothing but print: it leaves the files, the
    requests posted and the clock as they are. *)
Definition only_prints {A} (m : py A) : Prop :=
  forall s, files (snd (m s)) = files s
            /\ posted (snd (m s)) = posted s
            /\ ticks (snd (m s)) = ticks s.

Definition is_object (v : json) : bool :=
  match v with JObj _ => true | _ => false end.

(** The lines [print_logs] shows for the entry numbered [i]. *)
Definition shown_entry (w : world) (i : nat) (x : datetime * pystr * json) : list pystr :=
  [newline ++ lit "[" ++ dec (N.of_nat i) ++ lit "] " ++ isoformat (x.1.1);
   lit "Q: " ++ x.1.2;
   match x.2 with
   | JObj m =>
       match assoc (lit "answer") m with
       | Some a => lit "A: " ++ py_str w a
       | None => lit "Response: " ++ json_dumps (x.2)
       end
   | _ => lit "Response: " ++ json_dumps (x.2)
   end;
   replicate 50 0x2D].

Fixpoint shown_entries (w : world) (i : nat) (xs : list (datetime * pystr * json))
  : list pystr :=
  match xs with
  | [] => []
  | x :: rest => shown_entry w i x ++ shown_entries w (S i) rest
  end.

Definition chat_logs_heading (n : nat) : pystr :=
  newline ++ lit "=== Chat Logs (" ++ dec (N.of_nat n) ++ lit " entries) ===".

(** A value [in] can be asked of. *)
Definition is_container (v : json) : bool :=
  match v with JObj _ | JArr _ | JStr _ => true | _ => false end.

(** Whether the turn for an event ends the loop, and the question it
    asks. *)
Definition ends_chat (ev : event) : bool :=
  match ev with
  | Interrupt => true
  | EndOfInput => false
  | Line text => str_eqb (strip text) (lit "/quit")
  end.

Definition asks (ev : event) : option pystr :=
  match ev with
  | Line text =>
      let q := strip text in
      if blank text || str_eqb q (lit "/quit") || str_eqb q (lit "/logs")
         || str_eqb q (lit "/help")
      then None else Some q
  | _ => None
  end.

(** The questions asked until the loop ends, and the events left unread
    when it ends. *)
Fixpoint asked (events : list event) : list pystr :=
  match events with
  | [] => []
  | ev :: rest =>
      if ends_chat ev then []
      else match asks ev with Some q => q :: asked rest | None => asked rest end
  end.

Fixpoint unread_after (events : list event) : option (list event) :=
  match events with
  | [] => None
  | ev :: rest => if ends_chat ev then Some rest else unread_after rest
  end.

(** The client [main] makes for the line given as the key. *)
Definition chat_client (w : world) (key_line : pystr) : DifyClient :=
  init w None (match strip key_line with [] => None | c :: k => Some (c :: k) end).

(** * Properties *)

Arguments lit : simpl never.
Arguments dec : simpl never.
Opaque lit.

(** *** The model at work *)

Example lit_example : lit "質問" = [0x8CEA; 0x554F].
Proof. vm_compute. reflexivity. Qed.

Example strip_example :
  strip (lit "  What is 2+2? " ++ [0x3000] ++ newline) = lit "What is 2+2?".
Proof. vm_compute. reflexivity. Qed.

Example dec_example : dec 1234567 = lit "1234567" /\ dec 0 = lit "0".
Proof. split; vm_compute; reflexivity. Qed.

Example isoformat_example :
  isoformat (Datetime 2024 1 31 9 5 0 0) = lit "2024-01-31T09:05:00"
  /\ isoformat (Datetime 2024 1 31 9 5 0 42) = lit "2024-01-31T09:05:00.000042"
  /\ strftime_YmdHMS (Datetime 2024 1 31 9 5 0 42) = lit "20240131090500".
Proof. split; [|split]; vm_compute; reflexivity. Qed.

Example path_join_example :
  path_join (lit "/app") (lit "questions.txt") = lit "/app/questions.txt"
  /\ path_join (lit "/") (lit "questions.txt") = lit "/questions.txt".
Proof. split; vm_compute; reflexivity. Qed.

Example py_in_example :
  py_in (lit "answer") (JObj [(lit "answer", JNull)]) = Return true
  /\ py_in (lit "answer") (JArr [JStr (lit "answer")]) = Return true
  /\ py_in (lit "answer") (JStr (lit "no answer")) = Return true
  /\ py_in (lit "answer") (JObj [(lit "data", JNull)]) = Return false.
Proof. split; [|split; [|split]]; vm_compute; reflexivity. Qed.

(** The batch loop over two questions when the server sends a number
    instead of an object: both calls raise, and both rows are there. *)
Example batch_loop_error_rows :
  map (fun r => (question_number r, question r, answer r))
    (match fst (batch_loop (replying (ok_reply (JInt 5))) client0 1
                  [lit "What is 2+2?"; lit "Hello"] [] fresh) with
     | Return rows => rows
     | Raise _ => []
     end)
  = [(1%nat, lit "What is 2+2?",
      JStr (lit "質問1でエラー: argument of type 'int' is not iterable"));
     (2%nat, lit "Hello",
      JStr (lit "質問2でエラー: argument of type 'int' is not iterable"))].
Proof. vm_compute. reflexivity. Qed.

(** *** Text *)

Lemma str_eqb_eq (a b : pystr) : str_eqb a b = true <-> a = b.
Proof. unfold str_eqb. apply bool_decide_eq_true. Qed.

Lemma str_eqb_refl (a : pystr) : str_eqb a a = true.
Proof. by apply str_eqb_eq. Qed.

(** *** Statements, step by step *)

Lemma bind_eq {A B} (m : py A) (k : A -> py B) (s : state) :
  bind m k s
  = match m s with
    | (Return a, s') => k a s'
    | (Raise e, s') => (Raise e, s')
    end.
Proof. reflexivity. Qed.

Lemma bind_print {B} (line : pystr) (k : unit -> py B) (s : state) :
  bind (print line) k s = k tt (with_printed s [line]).
Proof. reflexivity. Qed.

Lemma print_eq (line : pystr) (s : state) :
  print line s = (Return tt, with_printed s [line]).
Proof. reflexivity. Qed.

Lemma bind_now {B} (w : world) (k : datetime -> py B) (s : state) :
  bind (now w) k s = k (clock w (ticks s)) (with_tick s).
Proof. reflexivity. Qed.

Lemma try_except_eq {A} (body : py A) (clauses : list ((exn -> bool) * (exn -> py A)))
    (s : state) :
  try_except body clauses s
  = match body s with
    | (Return a, s') => (Return a, s')
    | (Raise e, s') => handle clauses e s'
    end.
Proof. reflexivity. Qed.

(** A dynamic check, as a step. *)
Lemma bind_lift {A B} (o : outcome A) (k : A -> py B) (s : state) :
  bind (lift o) k s = match o with Return a => k a s | Raise e => (Raise e, s) end.
Proof. unfold bind, lift. by destruct o. Qed.

(** Printing in two steps. *)
Lemma with_printed_app (s : state) (a b : list pystr) :
  with_printed (with_printed s a) b = with_printed s (a ++ b).
Proof. unfold with_printed. cbn [files stdout posted ticks]. by rewrite <- app_assoc. Qed.

(** *** get_answer *)

(** [get_answer] is [send_message] followed by the pure choice [pick]. *)
Lemma get_answer_pick (w : world) (self : DifyClient) (q : pystr) (s : state) :
  get_answer w self q s =
  match send_message w self q (lit "user") None s with
  | (Return r, s') => (pick w r, s')
  | (Raise e, s') => (Raise e, s')
  end.
Proof.
  unfold get_answer, bind.
  destruct (send_message w self q (lit "user") None s) as [[r|e] s']; [|done].
  unfold pick, lift, ret.
  destruct (py_in (lit "error") r) as [[|]|]; [|  |done].
  - by destruct (py_getitem r (lit "error")).
  - destruct (py_in (lit "answer") r) as [[|]|]; [done| |done].
    destruct (py_in (lit "data") r) as [[|]|]; [| done |done].
    destruct (py_getitem r (lit "data")) as [d|]; [|done].
    by destruct (py_in (lit "answer") d) as [[|]|].
Qed.

Lemma py_in_obj (k : pystr) (m : list (pystr * json)) :
  py_in k (JObj m) = Return (match assoc k m with Some _ => true | None => false end).
Proof. unfold py_in. by destruct (assoc k m). Qed.

Lemma py_getitem_obj (k : pystr) (m : list (pystr * json)) (v : json) :
  assoc k m = Some v -> py_getitem (JObj m) k = Return v.
Proof. intros H. unfold py_getitem. by rewrite H. Qed.

(** On a response object of the supported shapes, [pick] follows the
    priority order. *)
Lemma pick_by_priority (w : world) (m : list (pystr * json)) :
  data_is_object_or_absent m = true ->
  pick w (JObj m) = Return (answer_by_priority w m).
Proof.
  unfold data_is_object_or_absent, pick, answer_by_priority.
  rewrite !py_in_obj.
  destruct (assoc (lit "error") m) as [err|] eqn:He.
  { intros _. by rewrite (py_getitem_obj _ _ _ He). }
  destruct (assoc (lit "answer") m) as [a|] eqn:Ha.
  { intros _. by rewrite (py_getitem_obj _ _ _ Ha). }
  destruct (assoc (lit "data") m) as [d|] eqn:Hd; [|done].
  rewrite (py_getitem_obj _ _ _ Hd).
  destruct d as [| | | | | |d]; try done.
  intros _. rewrite py_in_obj.
  destruct (assoc (lit "answer") d) as [a|] eqn:Hda; [|done].
  by rewrite (py_getitem_obj _ _ _ Hda).
Qed.

(** C1, as amended.  Whenever [send_message] returns a JSON object whose
    [data] member -- where neither [error] nor [answer] is present -- is an
    object or is absent, [get_answer] returns what the priority order
    picks: ["Error: "] followed by the [error] value if there is one,
    otherwise the [answer] value, otherwise the [answer] member of [data],
    otherwise ["No answer found in response"]; and it leaves the state as
    [send_message] left it. *)
Theorem get_answer_priority_order (w : world) (self : DifyClient) (q : pystr)
    (s s' : state) (m : list (pystr * json)) :
  send_message w self q (lit "user") None s = (Return (JObj m), s') ->
  data_is_object_or_absent m = true ->
  get_answer w self q s = (Return (answer_by_priority w m), s').
Proof.
  intros Hsend Hshape.
  rewrite get_answer_pick, Hsend.
  by rewrite (pick_by_priority w m Hshape).
Qed.

(** The three examples of C1, each through the theorem: the responses
    [{"answer": "4"}], [{"data": {"answer": "hi"}}] and [{}]. *)
Lemma get_answer_priority_order_examples :
  fst (get_answer (replying (ok_reply (JObj [(lit "answer", JStr (lit "4"))])))
         client0 (lit "What is 2+2?") fresh)
  = Return (JStr (lit "4"))
  /\ fst (get_answer
            (replying (ok_reply (JObj [(lit "data", JObj [(lit "answer", JStr (lit "hi"))])])))
            client0 (lit "Hello") fresh)
     = Return (JStr (lit "hi"))
  /\ fst (get_answer (replying (ok_reply (JObj []))) client0 (lit "Hello") fresh)
     = Return (JStr (lit "No answer found in response")).
Proof.
  split; [|split].
  - erewrite (get_answer_priority_order _ client0 _ fresh _
                [(lit "answer", JStr (lit "4"))]);
      [ | vm_compute; reflexivity | vm_compute; reflexivity ].
    vm_compute; reflexivity.
  - erewrite (get_answer_priority_order _ client0 _ fresh _
                [(lit "data", JObj [(lit "answer", JStr (lit "hi"))])]);
      [ | vm_compute; reflexivity | vm_compute; reflexivity ].
    vm_compute; reflexivity.
  - erewrite (get_answer_priority_order _ client0 _ fresh _ []);
      [ | vm_compute; reflexivity | vm_compute; reflexivity ].
    vm_compute; reflexivity.
Defined.

(** C1 as stated fails: for the response [{"data": null}], which has no
    [error], no [answer] and no [answer] inside [data], the claim gives the
    fixed text, and [get_answer] raises [TypeError] at
    ["answer" in result["data"]]. *)
Lemma get_answer_data_null_raises :
  fst (send_message (replying (ok_reply (JObj [(lit "data", JNull)])))
         client0 (lit "Hello") (lit "user") None fresh)
  = Return (JObj [(lit "data", JNull)])
  /\ answer_by_priority (replying (ok_reply (JObj [(lit "data", JNull)])))
       [(lit "data", JNull)]
     = JStr (lit "No answer found in response")
  /\ fst (get_answer (replying (ok_reply (JObj [(lit "data", JNull)])))
            client0 (lit "Hello") fresh)
     = Raise (Exn TypeError (lit "argument of type 'NoneType' is not iterable")).
Proof. split; [|split]; vm_compute; reflexivity. Qed.

(** *** The log *)

(** Reading the log touches no state, and looks at the files only. *)
Lemma json_load_eq (w : world) (p : pystr) (s : state) :
  json_load w p s = (fst (json_load w p s), s).
Proof.
  unfold json_load. destruct (read_error w p); [done|].
  by destruct (files s !! p) as [[| | |]|].
Qed.

Lemma json_load_same_files (w : world) (p : pystr) (s s' : state) :
  files s' = files s -> fst (json_load w p s') = fst (json_load w p s).
Proof.
  intros H. unfold json_load. rewrite H.
  destruct (read_error w p); [done|]. by destruct (files s !! p) as [[| | |]|].
Qed.

(** Writing a document: how it ends, and the files it leaves. *)
Lemma json_dump_eq (w : world) (v : json) (p : pystr) (s : state) :
  json_dump w v p s
  = (match write_failure w v p with None => Return tt | Some e => Raise e end,
     with_files s (attempted w v p (files s))).
Proof.
  unfold json_dump, write_failure, attempted, dumped, with_files.
  destruct (write_error w p); [by destruct s|]. by destruct (dump_error w v).
Qed.

(** The [try] statement that saves the log never raises. *)
Lemma save_logs_eq (w : world) (self : DifyClient) (logs : json) (s : state) :
  try_except (json_dump w logs (log_file self))
    [(is_PermissionError,
      fun e =>
        let! _ := print (lit "警告: ログファイル保存権限エラー: " ++ exn_str e) in
        let! _ := print (lit "ログファイルパス: " ++ log_file self) in
        let desktop_path := path_join (home_dir w) (lit "Desktop") in
        let desktop_log_file := path_join desktop_path (lit "dify_chat_log.json") in
        try_except
          (let! _ := json_dump w logs desktop_log_file in
           print (lit "ログをデスクトップに保存しました: " ++ desktop_log_file))
          [(is_Exception,
            fun e2 => print (lit "デスクトップ保存も失敗: " ++ exn_str e2))]);
     (is_Exception,
      fun e => print (lit "警告: ログファイル保存エラー: " ++ exn_str e))] s
  = (Return tt, save_logs w self logs s).
Proof.
  rewrite try_except_eq, json_dump_eq. unfold save_logs. cbv zeta.
  destruct (write_failure w logs (log_file self)) as [e|]; [|reflexivity].
  cbn [handle]. destruct (is_PermissionError e).
  - rewrite !bind_print. cbv zeta. rewrite try_except_eq, bind_eq, json_dump_eq.
    fold (desktop_log_file w). rewrite with_printed_app. cbn [app].
    destruct (write_failure w logs (desktop_log_file w)) as [e2|].
    + cbn [handle is_Exception]. by rewrite print_eq.
    + by rewrite print_eq.
  - cbn [is_Exception]. by rewrite print_eq.
Qed.

(** [_log_interaction], read off as a function: it reads the clock, reads
    the log, appends, and saves. *)
Lemma log_interaction_spec (w : world) (self : DifyClient) (q : pystr) (r : json)
    (s : state) :
  _log_interaction w self q r s =
  match logs_before w (log_file self) s with
  | Raise e => (Raise e, with_tick s)
  | Return logs =>
      match py_append logs (log_entry (clock w (ticks s)) q r) with
      | Raise e => (Raise e, with_tick s)
      | Return logs' => (Return tt, save_logs w self logs' (with_tick s))
      end
  end.
Proof.
  unfold _log_interaction. rewrite bind_now. cbv zeta. fold (log_entry (clock w (ticks s)) q r).
  rewrite bind_eq. unfold path_exists at 1. cbv beta iota. cbn [with_tick files].
  fold (with_tick s). rewrite bind_eq. unfold logs_before.
  destruct (files s !! log_file self) as [c|] eqn:Hc.
  - rewrite bool_decide_true by eauto.
    rewrite try_except_eq, json_load_eq.
    rewrite (json_load_same_files w _ s (with_tick s)) by done.
    destruct (fst (json_load w (log_file self) s)) as [v|e].
    + rewrite bind_lift. destruct (py_append _ _); [|done]. apply save_logs_eq.
    + cbn [handle].
      destruct (is_JSONDecodeError e || is_FileNotFoundError e); [|done].
      unfold ret at 1. rewrite bind_lift.
      destruct (py_append _ _); [|done]. apply save_logs_eq.
  - rewrite bool_decide_false by (intros [? ?]; done).
    unfold ret at 1. rewrite bind_lift.
    destruct (py_append _ _); [|done]. apply save_logs_eq.
Qed.

(** *** send_message *)

(** The three kinds of failure the claims name end in a
    [RequestException]. *)
Lemma http_failed_failure (reply : http_reply) :
  http_failed reply = true ->
  exists e, failure reply = Some e /\ is_RequestException e = true.
Proof.
  destruct reply as [why msg|e|r]; cbn; [intros _|done|].
  { eexists. split; [reflexivity|]. by destruct why. }
  destruct (400 <=? status_code r) eqn:H4; cbn.
  - destruct (status_code r <? 500) eqn:H5; [eauto|].
    destruct (status_code r <? 600) eqn:H6; cbn.
    + assert ((500 <=? status_code r) = true) as -> by (apply N.leb_le; apply N.ltb_ge in H5; lia).
      eauto.
    + rewrite andb_false_r. destruct (body r); [done|eauto|done].
  - destruct (500 <=? status_code r) eqn:H5'.
    { apply N.leb_le in H5'. apply N.leb_gt in H4. lia. }
    cbn. destruct (body r); [done|eauto|done].
Qed.

Lemma usable_reply_no_failure (reply : http_reply) (v : json) :
  usable_reply reply = Some v -> failure reply = None /\ http_failed reply = false.
Proof.
  destruct reply as [why msg|e|r]; cbn; [done|done|].
  destruct (400 <=? status_code r) eqn:H4; cbn.
  - destruct (status_code r <? 600) eqn:H6; [done|].
    assert ((status_code r <? 500) = false) as ->
      by (apply N.ltb_ge; apply N.ltb_ge in H6; lia).
    rewrite andb_false_r. by destruct (body r).
  - destruct (500 <=? status_code r) eqn:H5'.
    { apply N.leb_le in H5'. apply N.leb_gt in H4. lia. }
    cbn. by destruct (body r).
Qed.

(** The exchange proper: [post], [raise_for_status] and [json], up to the
    logging. *)
Lemma exchange_fails (w : world) (self : DifyClient) (m u : pystr)
    (c : option pystr) (s : state) (e : exn) (k : json -> py json) :
  failure (server w (length (posted s)) (chat_request self m u c)) = Some e ->
  (let! response := post w self (base_url self ++ lit "/chat-messages")
                      (req_json (chat_request self m u c)) in
   let! _ := raise_for_status response in
   let! result := response_json response in
   k result) s
  = (Raise e, with_posted s (chat_request self m u c)).
Proof.
  intros Hf. rewrite bind_eq. unfold post. cbn [chat_request req_json].
  fold (chat_request self m u c). fold (with_posted s (chat_request self m u c)).
  destruct (server w (length (posted s)) (chat_request self m u c)) as [why msg|e'|r];
    cbn in Hf.
  - by injection Hf as <-.
  - by injection Hf as <-.
  - rewrite bind_eq. unfold raise_for_status.
    destruct (andb _ _); [by injection Hf as <-|].
    destruct (andb _ _); [by injection Hf as <-|].
    unfold ret at 1. cbv beta iota. rewrite bind_eq. unfold response_json.
    destruct (body r); [done|by injection Hf as <-|by injection Hf as <-].
Qed.

Lemma send_message_failed (w : world) (self : DifyClient) (m u : pystr)
    (c : option pystr) (s : state) (e : exn) :
  failure (server w (length (posted s)) (chat_request self m u c)) = Some e ->
  is_RequestException e = true ->
  send_message w self m u c s =
  (Return (error_result e),
   with_printed (with_posted s (chat_request self m u c))
     [lit "API request failed: " ++ exn_str e]).
Proof.
  intros Hf He. unfold send_message. cbv zeta. rewrite try_except_eq.
  rewrite (exchange_fails w self m u c s e _ Hf). cbn [handle]. by rewrite He.
Qed.

(** An exchange that ends in another exception: [send_message] lets it
    pass. *)
Lemma send_message_crashed (w : world) (self : DifyClient) (m u : pystr)
    (c : option pystr) (s : state) (e : exn) :
  failure (server w (length (posted s)) (chat_request self m u c)) = Some e ->
  is_RequestException e = false ->
  send_message w self m u c s = (Raise e, with_posted s (chat_request self m u c)).
Proof.
  intros Hf He. unfold send_message. cbv zeta. rewrite try_except_eq.
  rewrite (exchange_fails w self m u c s e _ Hf). cbn [handle]. by rewrite He.
Qed.

Lemma usable_reply_inv (reply : http_reply) (v : json) :
  usable_reply reply = Some v ->
  exists r, reply = Reply r /\ body r = Decoded v
    /\ ((400 <=? status_code r) && (status_code r <? 500)) = false
    /\ ((500 <=? status_code r) && (status_code r <? 600)) = false.
Proof.
  destruct reply as [why msg|e|r]; cbn; [done|done|].
  intros H. exists r. split; [done|].
  destruct (400 <=? status_code r) eqn:H4; cbn in H |- *.
  - destruct (status_code r <? 600) eqn:H6; [done|].
    assert ((status_code r <? 500) = false) as ->
      by (apply N.ltb_ge; apply N.ltb_ge in H6; lia).
    rewrite andb_false_r. by destruct (body r) as [v'| |]; [injection H as ->| |].
  - destruct (500 <=? status_code r) eqn:H5'.
    { apply N.leb_le in H5'. apply N.leb_gt in H4. lia. }
    cbn. by destruct (body r) as [v'| |]; [injection H as ->| |].
Qed.

Lemma send_message_usable (w : world) (self : DifyClient) (m u : pystr)
    (c : option pystr) (s : state) (v : json) :
  usable_reply (server w (length (posted s)) (chat_request self m u c)) = Some v ->
  send_message w self m u c s =
  match _log_interaction w self m v (with_posted s (chat_request self m u c)) with
  | (Return _, s2) => (Return v, s2)
  | (Raise e, s2) =>
      if is_RequestException e
      then (Return (error_result e),
            with_printed s2 [lit "API request failed: " ++ exn_str e])
      else (Raise e, s2)
  end.
Proof.
  intros Hu. apply usable_reply_inv in Hu as (r & Hr & Hb & H4 & H5).
  unfold send_message, try_except, bind at 1, post.
  fold (chat_request self m u c). rewrite Hr.
  unfold bind at 1, raise_for_status. rewrite H4, H5.
  unfold ret at 1, bind at 1, response_json. rewrite Hb.
  unfold ret at 1, bind at 1. unfold with_posted.
  destruct (_log_interaction _ _ _ _ _) as [[[]|e] s2]; [done|].
  cbn [handle]. by destruct (is_RequestException e).
Qed.

(** C5, as amended.  When the HTTP exchange fails with a
    [RequestException] -- as it does when no response comes (network
    error), for a response with a status from 400 to 599, and for a body
    that is no JSON document -- [send_message] does not raise: it prints
    and returns [{"error": "API request failed: " + str(e)}] for the
    exception [e] the exchange ended in; nothing is logged.  When the
    exchange ends in an exception of another class ([session.post] or the
    decoding of the body raising it), [send_message] raises that
    exception, with nothing printed or logged. *)
Theorem send_message_failure_is_returned (w : world) (self : DifyClient)
    (m u : pystr) (c : option pystr) (s : state) :
  let reply := server w (length (posted s)) (chat_request self m u c) in
  (http_failed reply = true ->
   exists e,
     failure reply = Some e
     /\ is_RequestException e = true
     /\ send_message w self m u c s =
        (Return (JObj [(lit "error", JStr (lit "API request failed: " ++ exn_str e))]),
         State (files s)
               (stdout s ++ [lit "API request failed: " ++ exn_str e])
               (posted s ++ [chat_request self m u c])
               (ticks s)))
  /\ (forall e,
        failure reply = Some e ->
        send_message w self m u c s =
        if is_RequestException e
        then (Return (JObj [(lit "error", JStr (lit "API request failed: " ++ exn_str e))]),
              State (files s)
                    (stdout s ++ [lit "API request failed: " ++ exn_str e])
                    (posted s ++ [chat_request self m u c])
                    (ticks s))
        else (Raise e,
              State (files s) (stdout s) (posted s ++ [chat_request self m u c]) (ticks s))).
Proof.
  cbv zeta. split.
  - intros Hfail. destruct (http_failed_failure _ Hfail) as (e & He & Hreq).
    exists e. split; [done|]. split; [done|].
    by rewrite (send_message_failed _ _ _ _ _ _ _ He Hreq).
  - intros e He. destruct (is_RequestException e) eqn:Hreq.
    + by rewrite (send_message_failed _ _ _ _ _ _ _ He Hreq).
    + by rewrite (send_message_crashed _ _ _ _ _ _ _ He Hreq).
Qed.

(** The three kinds of failure, each through the theorem: a refused
    connection, a 404, and a body that is no JSON; and a body that
    [json.loads] refuses with a [ValueError], which is raised. *)
Lemma send_message_failure_examples :
  (exists e,
     failure refused = Some e /\ is_RequestException e = true
     /\ send_message (replying refused) client0 (lit "Hello") (lit "user") None fresh
        = (Return (JObj [(lit "error", JStr (lit "API request failed: " ++ exn_str e))]),
           State ∅ [lit "API request failed: " ++ exn_str e]
             [chat_request client0 (lit "Hello") (lit "user") None] 0))
  /\ (exists e,
        failure not_found = Some e /\ is_RequestException e = true
        /\ send_message (replying not_found) client0 (lit "Hello") (lit "user") None fresh
           = (Return (JObj [(lit "error", JStr (lit "API request failed: " ++ exn_str e))]),
              State ∅ [lit "API request failed: " ++ exn_str e]
                [chat_request client0 (lit "Hello") (lit "user") None] 0))
  /\ (exists e,
        failure not_json = Some e /\ is_RequestException e = true
        /\ send_message (replying not_json) client0 (lit "Hello") (lit "user") None fresh
           = (Return (JObj [(lit "error", JStr (lit "API request failed: " ++ exn_str e))]),
              State ∅ [lit "API request failed: " ++ exn_str e]
                [chat_request client0 (lit "Hello") (lit "user") None] 0))
  /\ (exists e,
        failure too_many_digits = Some e /\ exn_class e = ValueError
        /\ send_message (replying too_many_digits) client0 (lit "Hello") (lit "user") None
             fresh
           = (Raise e, State ∅ [] [chat_request client0 (lit "Hello") (lit "user") None] 0)).
Proof.
  split; [|split; [|split]].
  - apply (proj1 (send_message_failure_is_returned (replying refused) client0
                    (lit "Hello") (lit "user") None fresh)).
    vm_compute; reflexivity.
  - apply (proj1 (send_message_failure_is_returned (replying not_found) client0
                    (lit "Hello") (lit "user") None fresh)).
    vm_compute; reflexivity.
  - apply (proj1 (send_message_failure_is_returned (replying not_json) client0
                    (lit "Hello") (lit "user") None fresh)).
    vm_compute; reflexivity.
  - eexists. split; [vm_compute; reflexivity|]. split; [reflexivity|].
    etransitivity.
    + apply (proj2 (send_message_failure_is_returned (replying too_many_digits) client0
                      (lit "Hello") (lit "user") None fresh)).
      vm_compute; reflexivity.
    + vm_compute; reflexivity.
Defined.

(** C5 as stated fails for a status outside 200 to 299 that
    [raise_for_status] lets pass: a 300 response with a JSON body is
    returned as it is, logged, and has no [error] member. *)
Lemma send_message_status_300_is_no_failure :
  fst (send_message (replying multiple_choices) client0 (lit "Hello") (lit "user") None
         fresh)
  = Return (JObj [(lit "answer", JStr (lit "hi"))])
  /\ py_in (lit "error") (JObj [(lit "answer", JStr (lit "hi"))]) = Return false
  /\ fst (get_answer (replying multiple_choices) client0 (lit "Hello") fresh)
     = Return (JStr (lit "hi")).
Proof. split; [|split]; vm_compute; reflexivity. Qed.

(** *** Writing the log *)




(** C7, as amended.  When the log read so far is a list and writing the
    primary log file fails.  If it fails with a [PermissionError], the same
    write is tried on the desktop file: when that succeeds, the list with
    the new entry ends up there and a confirmation is printed after the
    two lines of the warning; when that fails too (with whatever
    exception), the failure of each attempt is printed, no file holds the
    list with the new entry and nothing is raised.  If it fails with
    another exception, one warning is printed and the desktop file is not
    tried.  (A write fails when [open] raises, and the file is as before,
    or when [json.dump] raises part-way, and the file holds a part of the
    document.) *)
Theorem log_falls_back_on_permission_error (w : world) (self : DifyClient)
    (q : pystr) (r : json) (s : state) (old : list json) (e : exn) :
  let logs := JArr (old ++ [log_entry (clock w (ticks s)) q r]) in
  let tried := attempted w logs (log_file self) (files s) in
  logs_before w (log_file self) s = Return (JArr old) ->
  write_failure w logs (log_file self) = Some e ->
  _log_interaction w self q r s =
  (Return tt,
   if is_PermissionError e then
     match write_failure w logs (desktop_log_file w) with
     | None =>
         State (<[desktop_log_file w := JsonDoc logs]> tried)
               (stdout s
                ++ [lit "警告: ログファイル保存権限エラー: " ++ exn_str e;
                    lit "ログファイルパス: " ++ log_file self;
                    lit "ログをデスクトップに保存しました: " ++ desktop_log_file w])
               (posted s) (S (ticks s))
     | Some e2 =>
         State (attempted w logs (desktop_log_file w) tried)
               (stdout s
                ++ [lit "警告: ログファイル保存権限エラー: " ++ exn_str e;
                    lit "ログファイルパス: " ++ log_file self;
                    lit "デスクトップ保存も失敗: " ++ exn_str e2])
               (posted s) (S (ticks s))
     end
   else
     State tried
           (stdout s ++ [lit "警告: ログファイル保存エラー: " ++ exn_str e])
           (posted s) (S (ticks s))).
Proof.
  cbv zeta. intros Hlogs Hw.
  rewrite log_interaction_spec, Hlogs. cbn [py_append].
  unfold save_logs. cbv zeta. rewrite Hw. f_equal.
  destruct (is_PermissionError e); [|reflexivity].
  destruct (write_failure w _ (desktop_log_file w)) as [e2|] eqn:Hd.
  - unfold with_printed, with_files, with_tick. cbn [files stdout posted ticks].
    by rewrite <- app_assoc.
  - unfold with_printed, with_files, with_tick. cbn [files stdout posted ticks].
    rewrite <- app_assoc. cbn [app]. f_equal.
    unfold write_failure in Hd. unfold attempted at 1, dumped.
    destruct (write_error w (desktop_log_file w)); [done|]. by rewrite Hd.
Qed.

(** The cases, through the theorem: the primary file denied and the
    desktop writable; both denied; and the primary file on a read-only
    file system. *)
Lemma log_fallback_examples :
  _log_interaction primary_denied client0 (lit "Hello") hi_response fresh
  = (Return tt,
     State {[desktop0 := JsonDoc (JArr [log_entry (Datetime 2024 1 1 0 0 0 0) (lit "Hello")
                                          hi_response])]}
       [lit "警告: ログファイル保存権限エラー: " ++ exn_str (denied log0);
        lit "ログファイルパス: " ++ log0;
        lit "ログをデスクトップに保存しました: " ++ desktop0]
       [] 1)
  /\ _log_interaction both_denied client0 (lit "Hello") hi_response fresh
     = (Return tt,
        State ∅
          [lit "警告: ログファイル保存権限エラー: " ++ exn_str (denied log0);
           lit "ログファイルパス: " ++ log0;
           lit "デスクトップ保存も失敗: " ++ exn_str (denied desktop0)]
          [] 1)
  /\ _log_interaction primary_read_only client0 (lit "Hello") hi_response fresh
     = (Return tt,
        State ∅ [lit "警告: ログファイル保存エラー: " ++ exn_str (read_only log0)] [] 1).
Proof.
  split; [|split].
  - rewrite (log_falls_back_on_permission_error primary_denied client0 (lit "Hello")
               hi_response fresh [] (denied log0));
      vm_compute; reflexivity.
  - rewrite (log_falls_back_on_permission_error both_denied client0 (lit "Hello")
               hi_response fresh [] (denied log0));
      vm_compute; reflexivity.
  - rewrite (log_falls_back_on_permission_error primary_read_only client0 (lit "Hello")
               hi_response fresh [] (read_only log0));
      vm_compute; reflexivity.
Defined.

(** C7 as stated fails for a primary log file that is unwritable for
    another reason than missing permission, here a read-only file system
    ([OSError], errno 30): the second [except] clause prints one warning,
    the writable desktop file is not tried, and the entry is lost. *)
Lemma log_not_saved_on_read_only_file_system :
  write_error primary_read_only (log_file client0) = Some (read_only log0)
  /\ write_error primary_read_only (desktop_log_file primary_read_only) = None
  /\ _log_interaction primary_read_only client0 (lit "Hello") hi_response fresh
     = (Return tt,
        State ∅ [lit "警告: ログファイル保存エラー: " ++ exn_str (read_only log0)] [] 1).
Proof. split; [|split]; vm_compute; reflexivity. Qed.

(** *** The log over a sequence of calls *)

Lemma logs_before_saved (w : world) (p : pystr) (s : state) (v : json)
    (out : list pystr) (reqs : list request) (t : nat) :
  read_error w p = None ->
  logs_before w p (State (<[p := JsonDoc v]> (files s)) out reqs t) = Return v.
Proof.
  intros Hr. unfold logs_before, json_load. cbn [files].
  by rewrite lookup_insert_eq, Hr.
Qed.

Lemma logs_before_same_files (w : world) (p : pystr) (s s' : state) :
  files s' = files s -> logs_before w p s' = logs_before w p s.
Proof.
  intros H. unfold logs_before. by rewrite H, (json_load_same_files w p s s' H).
Qed.

Lemma no_failure_usable (reply : http_reply) :
  failure reply = None -> exists v, usable_reply reply = Some v.
Proof.
  destruct reply as [why msg|e|r]; cbn; [done|done|].
  destruct (400 <=? status_code r) eqn:H4; cbn.
  - destruct (status_code r <? 500) eqn:H5; [done|].
    destruct (status_code r <? 600) eqn:H6; cbn.
    + assert ((500 <=? status_code r) = true) as ->
        by (apply N.leb_le; apply N.ltb_ge in H5; lia).
      done.
    + rewrite andb_false_r. destruct (body r); [eauto|done|done].
  - destruct (500 <=? status_code r) eqn:H5'.
    { apply N.leb_le in H5'. apply N.leb_gt in H4. lia. }
    cbn. destruct (body r); [eauto|done|done].
Qed.

(** A write that succeeds leaves the whole document. *)
Lemma save_logs_written (w : world) (self : DifyClient) (logs : json) (s : state) :
  write_failure w logs (log_file self) = None ->
  save_logs w self logs s = with_files s (<[log_file self := JsonDoc logs]> (files s)).
Proof.
  intros Hw. unfold save_logs. cbv zeta. rewrite Hw.
  unfold write_failure in Hw. unfold attempted, dumped.
  destruct (write_error w (log_file self)); [done|]. by rewrite Hw.
Qed.

(** One call, on a log that can be read as a list and written. *)
Lemma send_message_one (w : world) (self : DifyClient) (c : call) (s : state)
    (old : list json) :
  let reply :=
    server w (length (posted s))
      (chat_request self (message c) (user_id c) (conversation_id c)) in
  read_error w (log_file self) = None ->
  write_error w (log_file self) = None ->
  logs_before w (log_file self) s = Return (JArr old) ->
  match failure reply with Some e => is_RequestException e | None => true end = true ->
  (forall v, usable_reply reply = Some v ->
     dump_error w (JArr (old ++ [log_entry (clock w (ticks s)) (message c) v])) = None) ->
  exists r s',
    send_message w self (message c) (user_id c) (conversation_id c) s = (Return r, s')
    /\ length (posted s') = S (length (posted s))
    /\ match usable_reply reply with
       | Some v =>
           r = v /\ ticks s' = S (ticks s)
           /\ logs_before w (log_file self) s'
              = Return (JArr (old ++ [log_entry (clock w (ticks s)) (message c) v]))
       | None =>
           ticks s' = ticks s
           /\ logs_before w (log_file self) s' = Return (JArr old)
       end.
Proof.
  cbv zeta. intros Hr Hw Hold Hcaught Hdump.
  destruct (usable_reply _) as [v|] eqn:Hu.
  - rewrite (send_message_usable _ _ _ _ _ _ _ Hu), log_interaction_spec.
    rewrite (logs_before_same_files w _ s) by done. rewrite Hold.
    cbn [py_append]. rewrite save_logs_written
      by (unfold write_failure; rewrite Hw; by apply Hdump).
    eexists _, _. split; [done|].
    unfold with_files, with_tick, with_posted; cbn [files stdout posted ticks].
    split; [by rewrite length_app, Nat.add_1_r|].
    split; [done|]. split; [done|].
    by apply logs_before_saved.
  - destruct (failure (server w (length (posted s))
                (chat_request self (message c) (user_id c) (conversation_id c))))
      as [e|] eqn:Hf.
    + rewrite (send_message_failed _ _ _ _ _ _ _ Hf Hcaught).
      eexists _, _. split; [done|].
      unfold with_printed, with_posted; cbn [files stdout posted ticks].
      split; [by rewrite length_app, Nat.add_1_r|].
      split; [done|]. rewrite <- Hold. by apply logs_before_same_files.
    + destruct (no_failure_usable _ Hf) as [v Hv]. congruence.
Qed.

Lemma exchanges_length (w : world) (self : DifyClient) (calls : list call) (k t : nat) :
  (length (exchanges w self k t calls) <= length calls)%nat.
Proof.
  revert k t. induction calls as [|c calls IH]; intros k t; cbn; [done|].
  destruct (usable_reply _); cbn.
  - specialize (IH (S k) (S t)). lia.
  - specialize (IH (S k) t). lia.
Qed.

Lemma exchanges_clock (w : world) (self : DifyClient) (calls : list call) (k t i : nat)
    (x : datetime * pystr * json) :
  exchanges w self k t calls !! i = Some x -> x.1.1 = clock w (t + i).
Proof.
  revert k t i. induction calls as [|c calls IH]; intros k t i; cbn; [done|].
  destruct (usable_reply _).
  - destruct i as [|i]; cbn.
    + intros [= <-]. cbn. by rewrite Nat.add_0_r.
    + intros H. rewrite (IH _ _ _ H). f_equal. lia.
  - apply IH.
Qed.

(** C2, as amended.  With a log file that can be read and written, a log
    that holds a list so far, new contents of the log that [json.dump] can
    write, and no call that ends in an exception other than a
    [RequestException]: a sequence of [send_message] calls raises nothing
    and returns a result per call, and afterwards the log holds what it
    held before followed by one entry (timestamp, question, raw response)
    for each call whose exchange did not fail, in call order -- a failed
    call adds none, so these are at most as many entries as calls; with a
    clock that does not go back, each new entry was stamped no earlier
    than the one before it. *)
Theorem log_holds_the_usable_exchanges (w : world) (self : DifyClient)
    (calls : list call) (s : state) (old : list json) :
  read_error w (log_file self) = None ->
  write_error w (log_file self) = None ->
  logs_before w (log_file self) s = Return (JArr old) ->
  all_caught w self (length (posted s)) calls = true ->
  all_dumped w old (map entry_of (exchanges w self (length (posted s)) (ticks s) calls))
  = true ->
  exists results s',
    send_all w self calls s = (Return results, s')
    /\ length results = length calls
    /\ logs_before w (log_file self) s'
       = Return (JArr (old ++ map entry_of
                                  (exchanges w self (length (posted s)) (ticks s) calls)))
    /\ (length (exchanges w self (length (posted s)) (ticks s) calls) <= length calls)%nat
    /\ ((forall i j, (i <= j)%nat -> dt_le (clock w i) (clock w j)) ->
        forall i j x y, (i <= j)%nat ->
          exchanges w self (length (posted s)) (ticks s) calls !! i = Some x ->
          exchanges w self (length (posted s)) (ticks s) calls !! j = Some y ->
          dt_le x.1.1 y.1.1).
Proof.
  intros Hr Hw.
  assert (Hrun : forall calls s old,
    logs_before w (log_file self) s = Return (JArr old) ->
    all_caught w self (length (posted s)) calls = true ->
    all_dumped w old (map entry_of (exchanges w self (length (posted s)) (ticks s) calls))
    = true ->
    exists results s',
      send_all w self calls s = (Return results, s')
      /\ length results = length calls
      /\ logs_before w (log_file self) s'
         = Return (JArr (old ++ map entry_of
                                    (exchanges w self (length (posted s)) (ticks s) calls)))).
  { clear calls s old. induction calls as [|c calls IH]; intros s old Hold Hcaught Hdumped.
    - exists [], s. cbn. by rewrite app_nil_r.
    - cbn [all_caught] in Hcaught. apply andb_true_iff in Hcaught as [Hc Hcs].
      cbn [exchanges] in Hdumped |- *.
      assert (Hd : forall v,
        usable_reply (server w (length (posted s))
                        (chat_request self (message c) (user_id c) (conversation_id c)))
        = Some v ->
        dump_error w (JArr (old ++ [log_entry (clock w (ticks s)) (message c) v])) = None).
      { intros v Hv. rewrite Hv in Hdumped. cbn [map all_dumped entry_of fst snd] in Hdumped.
        apply andb_true_iff in Hdumped as [Hd _]. by destruct (dump_error w _). }
      destruct (send_message_one w self c s old Hr Hw Hold Hc Hd)
        as (r & s1 & Hsend & Hp & Hcase).
      cbn [send_all]. unfold bind at 1. rewrite Hsend.
      destruct (usable_reply _) as [v|].
      + destruct Hcase as (-> & Ht & Hlogs).
        cbn [map all_dumped entry_of fst snd] in Hdumped.
        apply andb_true_iff in Hdumped as [_ Hrest].
        rewrite <- Hp in Hcs. rewrite <- Hp, <- Ht in Hrest.
        destruct (IH s1 _ Hlogs Hcs Hrest) as (rs & s' & Hall & Hlen & Hfinal).
        eexists (_ :: rs), s'. unfold bind, ret. rewrite Hall.
        split; [done|]. split; [cbn; by rewrite Hlen|].
        rewrite Hfinal, Hp, Ht. cbn [map]. by rewrite <- app_assoc.
      + destruct Hcase as (Ht & Hlogs).
        rewrite <- Hp in Hcs. rewrite <- Hp, <- Ht in Hdumped.
        destruct (IH s1 _ Hlogs Hcs Hdumped) as (rs & s' & Hall & Hlen & Hfinal).
        eexists (_ :: rs), s'. unfold bind, ret. rewrite Hall.
        split; [done|]. split; [cbn; by rewrite Hlen|].
        by rewrite Hfinal, Hp, Ht. }
  intros Hold Hcaught Hdumped.
  destruct (Hrun calls s old Hold Hcaught Hdumped) as (rs & s' & Hall & Hlen & Hfinal).
  exists rs, s'. split; [done|]. split; [done|]. split; [done|].
  split; [apply exchanges_length|].
  intros Hmono i j x y Hij Hx Hy.
  rewrite (exchanges_clock _ _ _ _ _ _ _ Hx), (exchanges_clock _ _ _ _ _ _ _ Hy).
  apply Hmono. lia.
Qed.

(** Three calls of which the second fails, through the theorem: the log
    ends with two entries, for the first and the third call. *)
Lemma log_of_three_calls :
  exists results s',
    send_all flaky client0 three_calls fresh = (Return results, s')
    /\ logs_before flaky (log_file client0) s'
       = Return (JArr [log_entry (Datetime 2024 1 1 0 0 0 0) (lit "one") hi_response;
                       log_entry (Datetime 2024 1 1 0 0 0 1) (lit "three") hi_response]).
Proof.
  destruct (log_holds_the_usable_exchanges flaky client0 three_calls fresh [])
    as (results & s' & Hall & _ & Hlogs & _);
    [vm_compute; reflexivity | vm_compute; reflexivity | vm_compute; reflexivity
    | vm_compute; reflexivity | vm_compute; reflexivity |].
  exists results, s'. split; [exact Hall|].
  rewrite Hlogs. vm_compute; reflexivity.
Defined.

(** C2 as stated fails: a call whose request fails returns the error
    value and appends nothing, so after this one call the log is still
    empty (no file has been written). *)
Lemma failed_call_is_not_logged :
  send_message (replying refused) client0 (lit "Hello") (lit "user") None fresh
  = (Return (JObj [(lit "error",
                    JStr (lit "API request failed: Connection refused"))]),
     State ∅ [lit "API request failed: Connection refused"]
       [chat_request client0 (lit "Hello") (lit "user") None] 0)
  /\ logs_before (replying refused) (log_file client0)
       (snd (send_message (replying refused) client0 (lit "Hello") (lit "user") None fresh))
     = Return (JArr []).
Proof. split; vm_compute; reflexivity. Qed.

(** *** What get_answer returns *)

Lemma send_message_returns_reply (w : world) (self : DifyClient) (m u : pystr)
    (c : option pystr) (s : state) (v : json) (old : list json) :
  usable_reply (server w (length (posted s)) (chat_request self m u c)) = Some v ->
  logs_before w (log_file self) s = Return (JArr old) ->
  exists s', send_message w self m u c s = (Return v, s').
Proof.
  intros Hu Hold.
  rewrite (send_message_usable _ _ _ _ _ _ _ Hu), log_interaction_spec.
  rewrite (logs_before_same_files w _ s) by done. rewrite Hold.
  cbn [py_append]. eauto.
Qed.

Lemma lit_Error_cons : exists c t, lit "Error: " = c :: t.
Proof. eexists _, _. vm_compute. reflexivity. Qed.

Lemma fallback_cons : exists c t, fallback = c :: t.
Proof. eexists _, _. vm_compute. reflexivity. Qed.

Lemma answer_by_priority_cases (w : world) (m : list (pystr * json)) :
  nonempty_text (answer_by_priority w m) \/ sent_as_answer m (answer_by_priority w m).
Proof.
  unfold answer_by_priority, sent_as_answer.
  destruct (assoc (lit "error") m) as [err|].
  { left. destruct lit_Error_cons as (c & t & ->). by eexists _, _. }
  destruct (assoc (lit "answer") m) as [a|]; [by right; left|].
  assert (Hfb : nonempty_text (JStr fallback))
    by (destruct fallback_cons as (c & t & ->); by eexists _, _).
  destruct (assoc (lit "data") m) as [[| | | | | |d]|]; try by left.
  destruct (assoc (lit "answer") d) as [a|] eqn:Ha; [|by left].
  right. right. by exists d.
Qed.

(** On every other response, [pick] gives the fixed text or raises
    [TypeError]. *)
Lemma pick_other (w : world) (r : json) :
  match r with JObj m => data_is_object_or_absent m = false | _ => True end ->
  fallback_or_TypeError (pick w r).
Proof.
  unfold fallback_or_TypeError, pick.
  destruct r as [| b | z | t | t | l | m]; intros Hshape;
    try (right; eexists; reflexivity).
  - cbn [py_in]. destruct (occurs_in (lit "error") t); [right; eexists; reflexivity|].
    destruct (occurs_in (lit "answer") t); [right; eexists; reflexivity|].
    destruct (occurs_in (lit "data") t); [right; eexists; reflexivity|by left].
  - cbn [py_in]. destruct (existsb (is_str (lit "error")) l); [right; eexists; reflexivity|].
    destruct (existsb (is_str (lit "answer")) l); [right; eexists; reflexivity|].
    destruct (existsb (is_str (lit "data")) l); [right; eexists; reflexivity|by left].
  - unfold data_is_object_or_absent in Hshape. rewrite !py_in_obj.
    destruct (assoc (lit "error") m) as [err|]; [done|].
    destruct (assoc (lit "answer") m) as [a|]; [done|].
    destruct (assoc (lit "data") m) as [d|] eqn:Hd; [|done].
    rewrite (py_getitem_obj _ _ _ Hd).
    destruct d as [| b | z | t | t | l | d]; try done;
      try (right; eexists; reflexivity).
    + cbn [py_in]. destruct (occurs_in (lit "answer") t); [right; eexists; reflexivity|by left].
    + cbn [py_in].
      destruct (existsb (is_str (lit "answer")) l); [right; eexists; reflexivity|by left].
Qed.

(** C3, as amended.  For every input string.  When the HTTP exchange ends
    in a [RequestException], [get_answer] does not raise and returns
    ["Error: API request failed: "] followed by the text of the exception;
    when it ends in an exception of another class, [get_answer] raises
    that exception, as it raises whatever [send_message] raises.  When
    the exchange does not fail and the log read so far is a list,
    [send_message] returns the decoded response.  And for the response
    [send_message] returns: if it is a JSON object (whose [data], where
    the choice comes to it, is an object or absent), [get_answer] does not
    raise and returns what the priority order picks, which is a non-empty
    string (the error text or the fixed text) or else the answer exactly
    as the server sent it; for every other response it returns the fixed
    text or raises [TypeError]. *)
Theorem get_answer_returns (w : world) (self : DifyClient) (q : pystr) (s : state) :
  let reply := server w (length (posted s)) (chat_request self q (lit "user") None) in
  (forall e, failure reply = Some e ->
     fst (get_answer w self q s)
     = if is_RequestException e
       then Return (JStr (lit "Error: " ++ lit "API request failed: " ++ exn_str e))
       else Raise e)
  /\ (forall e, fst (send_message w self q (lit "user") None s) = Raise e ->
        fst (get_answer w self q s) = Raise e)
  /\ (forall v old,
        usable_reply reply = Some v ->
        logs_before w (log_file self) s = Return (JArr old) ->
        fst (send_message w self q (lit "user") None s) = Return v)
  /\ (forall r, fst (send_message w self q (lit "user") None s) = Return r ->
        match r with
        | JObj m =>
            if data_is_object_or_absent m
            then fst (get_answer w self q s) = Return (answer_by_priority w m)
                 /\ (nonempty_text (answer_by_priority w m)
                     \/ sent_as_answer m (answer_by_priority w m))
            else fallback_or_TypeError (fst (get_answer w self q s))
        | _ => fallback_or_TypeError (fst (get_answer w self q s))
        end).
Proof.
  cbv zeta. split; [|split; [|split]].
  - intros e He. rewrite get_answer_pick.
    destruct (is_RequestException e) eqn:Hreq.
    + rewrite (send_message_failed _ _ _ _ _ _ _ He Hreq).
      cbn [fst]. unfold error_result. rewrite pick_by_priority.
      * unfold answer_by_priority. cbn [assoc]. by rewrite str_eqb_refl.
      * unfold data_is_object_or_absent. cbn [assoc]. by rewrite str_eqb_refl.
    + by rewrite (send_message_crashed _ _ _ _ _ _ _ He Hreq).
  - intros e Hsend. rewrite get_answer_pick.
    destruct (send_message w self q (lit "user") None s) as [[r|e'] s']; [done|].
    cbn [fst] in Hsend |- *. done.
  - intros v old Hu Hold.
    destruct (send_message_returns_reply _ _ _ _ _ _ _ _ Hu Hold) as [s' Hs'].
    by rewrite Hs'.
  - intros r Hsend. rewrite get_answer_pick.
    destruct (send_message w self q (lit "user") None s) as [[r'|e'] s']; [|done].
    cbn [fst] in Hsend |- *. injection Hsend as ->.
    destruct r as [| b | z | t | t | l | m]; try (by apply pick_other).
    destruct (data_is_object_or_absent m) eqn:Hshape; [|by apply pick_other].
    split; [by apply pick_by_priority|apply answer_by_priority_cases].
Qed.

(** Through the theorem: a refused connection gives the error text; a key
    that cannot be sent, and a body that cannot be decoded, make
    [get_answer] raise; a response that is a number raises [TypeError]. *)
Lemma get_answer_returns_example :
  fst (get_answer (replying refused) client0 (lit "Hello") fresh)
  = Return (JStr (lit "Error: API request failed: Connection refused"))
  /\ fst (get_answer latin1_only kana_client (lit "Hello") fresh)
     = Raise (Exn UnicodeEncodeError
                (lit "'latin-1' codec can't encode characters in position 7-8: ordinal not in range(256)"))
  /\ fst (get_answer (replying too_many_digits) client0 (lit "Hello") fresh)
     = Raise too_many_digits_error
  /\ fallback_or_TypeError
       (fst (get_answer (replying (ok_reply (JInt 5))) client0 (lit "Hello") fresh)).
Proof.
  split; [|split; [|split]].
  - etransitivity.
    + apply (proj1 (get_answer_returns (replying refused) client0 (lit "Hello") fresh)
               (Exn Requests_ConnectionError (lit "Connection refused"))).
      vm_compute; reflexivity.
    + vm_compute; reflexivity.
  - etransitivity.
    + apply (proj1 (get_answer_returns latin1_only kana_client (lit "Hello") fresh)
               (Exn UnicodeEncodeError
                  (lit "'latin-1' codec can't encode characters in position 7-8: ordinal not in range(256)"))).
      vm_compute; reflexivity.
    + vm_compute; reflexivity.
  - etransitivity.
    + apply (proj1 (get_answer_returns (replying too_many_digits) client0 (lit "Hello")
                      fresh) too_many_digits_error).
      vm_compute; reflexivity.
    + vm_compute; reflexivity.
  - apply (proj2 (proj2 (proj2 (get_answer_returns (replying (ok_reply (JInt 5))) client0
                                  (lit "Hello") fresh))) (JInt 5)).
    vm_compute; reflexivity.
Defined.

(** C3 as stated fails.  An empty answer of the server is returned as it
    is; a response body that is no object makes the first membership test
    raise; a log file that holds a JSON object makes [logs.append] raise
    inside [send_message], which catches only [RequestException]; and so
    do, raised by the libraries, the [ValueError] of a body whose integer
    has too many digits and the [UnicodeEncodeError] of a key outside
    Latin-1. *)
Lemma get_answer_empty_or_raising :
  fst (get_answer (replying (ok_reply (JObj [(lit "answer", JStr [])]))) client0
         (lit "Hello") fresh)
  = Return (JStr [])
  /\ fst (get_answer (replying (ok_reply (JInt 5))) client0 (lit "Hello") fresh)
     = Raise (Exn TypeError (lit "argument of type 'int' is not iterable"))
  /\ fst (get_answer (replying (ok_reply hi_response)) client0 (lit "Hello")
            (State {[log0 := JsonDoc (JObj [])]} [] [] 0))
     = Raise (Exn AttributeError (lit "'dict' object has no attribute 'append'"))
  /\ fst (get_answer (replying too_many_digits) client0 (lit "Hello") fresh)
     = Raise too_many_digits_error
  /\ fst (get_answer latin1_only kana_client (lit "Hello") fresh)
     = Raise (Exn UnicodeEncodeError
                (lit "'latin-1' codec can't encode characters in position 7-8: ordinal not in range(256)")).
Proof. split; [|split; [|split; [|split]]]; vm_compute; reflexivity. Qed.

(** *** The batch loop *)




(** One turn of the loop never raises: it appends one row, for the value
    returned or the exception raised, and goes on from a state that does
    not depend on the rows collected so far. *)
Lemma batch_step_eq (w : world) (client : DifyClient) (i : nat) (q : pystr)
    (acc : list row) (s : state) :
  batch_step w client i q acc s
  = let o := fst (get_answer w client q (turn_start s i q)) in
    let s2 := snd (get_answer w client q (turn_start s i q)) in
    (Return (acc ++ [Row i q (recorded i o) (isoformat (clock w (ticks s2)))]),
     with_printed
       (with_tick
          (with_printed s2
             [lit "Answer: "
              ++ match o with Return a => py_str w a | Raise e => error_msg i e end]))
       [replicate 50 0x2D]).
Proof.
  cbv zeta. unfold batch_step, turn_start.
  rewrite bind_print, bind_eq, try_except_eq, bind_eq.
  destruct (get_answer w client q _) as [[a|e] s2]; cbn [fst snd recorded].
  - rewrite bind_print, bind_now. unfold ret. by rewrite bind_print.
  - cbn [handle is_Exception]. rewrite bind_print, bind_now. unfold ret.
    by rewrite bind_print.
Qed.

Lemma batch_loop_appends (w : world) (client : DifyClient) (qs : list pystr) :
  forall (i : nat) (acc : list row) (s : state),
  exists new s',
    batch_loop w client i qs acc s = (Return (acc ++ new), s')
    /\ map question_number new = seq i (length qs)
    /\ map question new = qs
    /\ map answer new = zip_with recorded (seq i (length qs)) (outcomes w client i qs s).
Proof.
  induction qs as [|q qs IH]; intros i acc s.
  - exists [], s. cbn. by rewrite app_nil_r.
  - cbn [batch_loop outcomes]. rewrite bind_eq, !batch_step_eq. cbv zeta. cbn [snd].
    match goal with |- context [batch_loop w client (S i) qs (acc ++ [?r]) ?s1] =>
      destruct (IH (S i) (acc ++ [r]) s1) as (new & s' & Hloop & Hns & Hqs & Has);
      exists (r :: new), s'
    end.
    rewrite Hloop, <- app_assoc. split; [done|].
    cbn [map length seq zip_with question_number question answer].
    by rewrite Hns, Hqs, Has.
Qed.


(** *** Stripping *)

Lemma lstrip_by_spec (p : N -> bool) (s : pystr) :
  exists a, s = a ++ lstrip_by p s /\ forallb p a = true
    /\ match lstrip_by p s with c :: _ => p c = false | [] => True end.
Proof.
  induction s as [|c s (a & Hs & Ha & Hhd)]; [by exists []|].
  cbn. destruct (p c) eqn:Hc.
  - exists (c :: a). cbn. rewrite Hc, Ha. split; [by f_equal|done].
  - exists []. cbn. by rewrite Hc.
Qed.

Lemma lstrip_by_nil (p : N -> bool) (s : pystr) :
  lstrip_by p s = [] <-> forallb p s = true.
Proof.
  induction s as [|c s IH]; cbn; [done|].
  destruct (p c); cbn; [done|]. split; done.
Qed.

Lemma forallb_rev (p : N -> bool) (s : pystr) : forallb p (rev s) = forallb p s.
Proof.
  induction s as [|c s IH]; cbn; [done|].
  rewrite forallb_app, IH. cbn. rewrite andb_true_r. apply andb_comm.
Qed.

Lemma rev_nil_iff (s : pystr) : rev s = [] <-> s = [].
Proof.
  split; [|by intros ->]. intros H.
  apply (f_equal (@rev N)) in H. by rewrite rev_involutive in H.
Qed.

(** [s.rstrip(...)] cuts a run of matching characters off the end, and
    all of it. *)
Lemma rstrip_by_spec (p : N -> bool) (s : pystr) :
  exists b, s = rstrip_by p s ++ b /\ forallb p b = true
    /\ match last (rstrip_by p s) with Some c => p c = false | None => True end.
Proof.
  unfold rstrip_by.
  destruct (lstrip_by_spec p (rev s)) as (a & Hs & Ha & Hhd).
  exists (rev a). split; [|split].
  - rewrite <- rev_app_distr, <- Hs. by rewrite rev_involutive.
  - by rewrite forallb_rev.
  - destruct (lstrip_by p (rev s)) as [|c r]; [done|].
    cbn [rev]. by rewrite last_snoc.
Qed.

Lemma strip_nil (s : pystr) : strip s = [] <-> forallb is_space s = true.
Proof.
  unfold strip, rstrip_by.
  rewrite rev_nil_iff, lstrip_by_nil, forallb_rev.
  destruct (lstrip_by_spec is_space s) as (a & Hs & Ha & Hhd).
  split.
  - intros H. destruct (lstrip_by is_space s) as [|c r] eqn:Hl.
    + by apply lstrip_by_nil.
    + cbn in H. rewrite Hhd in H. done.
  - intros H. apply lstrip_by_nil in H. by rewrite H.
Qed.

(** Whitespace only goes, and only from the two ends. *)
Lemma strip_spec (s : pystr) :
  exists a b, s = a ++ strip s ++ b
    /\ forallb is_space a = true /\ forallb is_space b = true
    /\ match strip s with c :: _ => is_space c = false | [] => True end
    /\ match last (strip s) with Some c => is_space c = false | None => True end.
Proof.
  unfold strip.
  destruct (lstrip_by_spec is_space s) as (a & Hs & Ha & Hhd).
  destruct (rstrip_by_spec is_space (lstrip_by is_space s)) as (b & Hr & Hb & Hlast).
  exists a, b. split; [by rewrite <- Hr|]. split; [done|]. split; [done|].
  split; [|done].
  destruct (rstrip_by is_space (lstrip_by is_space s)) as [|c r] eqn:E; [done|].
  rewrite Hr in Hhd. done.
Qed.

(** *** Loading the questions *)

Lemma collect_spec (lines : list pystr) (acc : list pystr) :
  collect lines acc = acc ++ map strip (List.filter (fun l => negb (blank l)) lines).
Proof.
  revert acc. induction lines as [|l lines IH]; intros acc.
  - cbn. by rewrite app_nil_r.
  - cbn [collect List.filter]. rewrite IH.
    destruct (blank l) eqn:Hb; cbn [negb map].
    + apply strip_nil in Hb. by rewrite Hb.
    + destruct (strip l) as [|c r] eqn:Hl.
      * apply strip_nil in Hl. unfold blank in Hb. congruence.
      * by rewrite <- app_assoc.
Qed.

(** C6, as amended.  [load_questions_from_file] never raises.  For a file
    that is read to its end it returns the lines that are not blank (not
    made of whitespace only), stripped, in their order, and prints
    nothing.  For a file that cannot be opened it prints the diagnostic
    and returns the empty list.  For a file whose reading fails after some
    lines were yielded it prints the diagnostic and returns the lines read
    until then, stripped and without the blank ones. *)
Theorem load_questions_from_file_spec (w : world) (filepath : pystr) (s : state) :
  match read_text w filepath with
  | Opened lines None =>
      load_questions_from_file w filepath s
      = (Return (map strip (List.filter (fun l => negb (blank l)) lines)), s)
  | CannotOpen e =>
      load_questions_from_file w filepath s
      = (Return [],
         State (files s)
               (stdout s ++ [lit "❌ 質問ファイルの読み込みエラー: " ++ exn_str e])
               (posted s) (ticks s))
  | Opened lines (Some e) =>
      load_questions_from_file w filepath s
      = (Return (map strip (List.filter (fun l => negb (blank l)) lines)),
         State (files s)
               (stdout s ++ [lit "❌ 質問ファイルの読み込みエラー: " ++ exn_str e])
               (posted s) (ticks s))
  end.
Proof.
  unfold load_questions_from_file.
  destruct (read_text w filepath) as [e|lines [e|]];
    unfold bind, print, ret; by rewrite ?collect_spec.
Qed.

(** The example of C6, and a missing file, through the theorem. *)
Lemma load_questions_examples :
  load_questions_from_file with_questions (lit "/app/questions.txt") fresh
  = (Return [lit "What is 2+2?"; lit "Hello"], fresh)
  /\ load_questions_from_file (replying refused) (lit "/app/questions.txt") fresh
     = (Return [],
        State ∅ [lit "❌ 質問ファイルの読み込みエラー: [Errno 2] No such file or directory"]
          [] 0).
Proof.
  split.
  - etransitivity;
      [exact (load_questions_from_file_spec with_questions (lit "/app/questions.txt") fresh)|].
    vm_compute; reflexivity.
  - etransitivity;
      [exact (load_questions_from_file_spec (replying refused) (lit "/app/questions.txt")
                fresh)|].
    vm_compute; reflexivity.
Defined.

(** C6 as stated fails for a file that can be opened and cannot be read to
    its end: of a file that begins with the line "What is 2+2?" and holds,
    a buffer further on, a byte that is no UTF-8, the line comes back with
    the diagnostic, not the empty list. *)
Lemma load_questions_keeps_the_lines_before_a_read_error :
  load_questions_from_file broken_questions (lit "/app/questions.txt") fresh
  = (Return [lit "What is 2+2?"],
     State ∅
       [lit "❌ 質問ファイルの読み込みエラー: 'utf-8' codec can't decode byte 0xff in position 0: invalid start byte"]
       [] 0).
Proof. vm_compute; reflexivity. Qed.

(** *** The endpoint *)

Lemma all_slashes (b : pystr) :
  forallb (N.eqb slash) b = true -> b = replicate (length b) slash.
Proof.
  induction b as [|c b IH]; [done|].
  cbn [forallb length replicate].
  intros [Hc Hb]%andb_true_iff. apply N.eqb_eq in Hc as <-. by rewrite <- IH.
Qed.

Lemma save_logs_posted (w : world) (self : DifyClient) (logs : json) (s : state) :
  posted (save_logs w self logs s) = posted s.
Proof.
  unfold save_logs. cbv zeta.
  destruct (write_failure w logs (log_file self)) as [e|]; [|done].
  destruct (is_PermissionError e); [|done].
  by destruct (write_failure w logs (desktop_log_file w)).
Qed.

Lemma log_interaction_posted (w : world) (self : DifyClient) (q : pystr) (r : json)
    (s : state) :
  posted (snd (_log_interaction w self q r s)) = posted s.
Proof.
  rewrite log_interaction_spec.
  destruct (logs_before _ _ _); [|done].
  destruct (py_append _ _); [|done].
  cbn [snd]. by rewrite save_logs_posted.
Qed.

(** Every call posts one request, to [base_url + "/chat-messages"]. *)
Lemma send_message_posts (w : world) (self : DifyClient) (m u : pystr)
    (c : option pystr) (s : state) :
  posted (snd (send_message w self m u c s)) = posted s ++ [chat_request self m u c].
Proof.
  destruct (failure (server w (length (posted s)) (chat_request self m u c)))
    as [e|] eqn:Hf.
  - destruct (is_RequestException e) eqn:He.
    + by rewrite (send_message_failed _ _ _ _ _ _ _ Hf He).
    + by rewrite (send_message_crashed _ _ _ _ _ _ _ Hf He).
  - destruct (no_failure_usable _ Hf) as [v Hv].
    rewrite (send_message_usable _ _ _ _ _ _ _ Hv).
    pose proof (log_interaction_posted w self m v
                  (with_posted s (chat_request self m u c))) as Hp.
    destruct (_log_interaction _ _ _ _ _) as [[[]|e] s2]; cbn [snd] in Hp |- *;
      [done|].
    by destruct (is_RequestException e).
Qed.

Lemma init_base_url (w : world) (b k : option pystr) :
  base_url (init w b k) = rstrip_slash (configured_base_url w b).
Proof. unfold init, configured_base_url. cbn. by destruct b as [[|c r]|]. Qed.

(** C10.  The client stores the base URL it is given (argument,
    environment or default) without the slashes at its end, all of them:
    the stored text does not end in a slash, and the given one is the
    stored one followed by slashes only.  Every [send_message] call posts
    one request, to the stored text followed by ["/chat-messages"]; so
    ["http://localhost/v1/"] and ["http://localhost/v1"] give the same
    endpoint. *)
Theorem base_url_is_stripped (w : world) (b k : option pystr) :
  let self := init w b k in
  (exists n, configured_base_url w b = base_url self ++ replicate n slash)
  /\ last (base_url self) <> Some slash
  /\ (forall m u c s,
        exists r, posted (snd (send_message w self m u c s)) = posted s ++ [r]
                  /\ req_url r = base_url self ++ lit "/chat-messages")
  /\ base_url (init w (Some (lit "http://localhost/v1/")) k) ++ lit "/chat-messages"
     = lit "http://localhost/v1/chat-messages"
  /\ base_url (init w (Some (lit "http://localhost/v1")) k) ++ lit "/chat-messages"
     = lit "http://localhost/v1/chat-messages".
Proof.
  cbv zeta. rewrite init_base_url. unfold rstrip_slash.
  destruct (rstrip_by_spec (N.eqb slash) (configured_base_url w b))
    as (t & Heq & Ht & Hlast).
  split; [|split; [|split; [|split]]].
  - exists (length t). by rewrite <- (all_slashes t Ht).
  - destruct (last _) as [c|]; [|done].
    intros [= ->]. by rewrite N.eqb_refl in Hlast.
  - intros m u c s. eexists. split; [apply send_message_posts|].
    unfold chat_request. cbn [req_url]. by rewrite init_base_url.
  - rewrite init_base_url. vm_compute. reflexivity.
  - rewrite init_base_url. vm_compute. reflexivity.
Qed.

(** *** Numerals and time stamps *)

Lemma dec_go_app (f : nat) :
  forall (n : N) (acc : pystr), dec_go f n acc = dec_go f n [] ++ acc.
Proof.
  induction f as [|f IH]; intros n acc; cbn [dec_go]; [done|].
  destruct (n / 10 =? 0); [done|].
  rewrite (IH _ (_ :: acc)), (IH _ [_]). by rewrite <- app_assoc.
Qed.

Lemma dec_go_S (f : nat) (n : N) (acc : pystr) :
  dec_go (S f) n acc
  = if n / 10 =? 0 then (48 + n mod 10) :: acc
    else dec_go f (n / 10) ((48 + n mod 10) :: acc).
Proof. reflexivity. Qed.

Lemma value_snoc (s : pystr) (c : N) : value (s ++ [c]) = 10 * value s + (c - 48).
Proof. unfold value. by rewrite fold_left_app. Qed.

Lemma dec_go_value (f : nat) :
  forall n : N, n < 2 ^ N.of_nat (S f) -> value (dec_go (S f) n []) = n.
Proof.
  induction f as [|f IH]; intros n Hn.
  - change (2 ^ N.of_nat 1) with 2 in Hn.
    assert (n = 0 \/ n = 1) as [-> | ->] by lia; done.
  - rewrite dec_go_S. destruct (n / 10 =? 0) eqn:Hq.
    + apply N.eqb_eq in Hq. apply N.div_small_iff in Hq; [|done].
      unfold value. cbn [fold_left]. rewrite N.mod_small by done. lia.
    + rewrite dec_go_app, value_snoc, IH.
      * pose proof (N.div_mod n 10 ltac:(done)) as Hdm.
        revert Hdm. generalize (n / 10) (n mod 10). intros q r Hdm. lia.
      * apply N.Div0.div_lt_upper_bound.
        replace (N.of_nat (S (S f))) with (N.succ (N.of_nat (S f))) in Hn by lia.
        rewrite N.pow_succ_r' in Hn. revert Hn. generalize (2 ^ N.of_nat (S f)).
        intros p Hp. lia.
Qed.

(** [dec n] is the decimal numeral of [n]. *)
Lemma dec_value (n : N) : value (dec n) = n.
Proof.
  unfold dec. apply dec_go_value.
  destruct (N.eq_dec n 0) as [->|Hn]; [done|].
  replace (N.of_nat (S (N.to_nat (N.log2 n)))) with (N.succ (N.log2 n)) by lia.
  apply N.log2_spec. lia.
Qed.

Lemma dec_go_length (f : nat) :
  forall (n : N) (acc : pystr) (w : nat),
    n < 10 ^ N.of_nat w -> (1 <= w)%nat ->
    (length (dec_go f n acc) <= w + length acc)%nat.
Proof.
  induction f as [|f IH]; intros n acc w Hn Hw; cbn [dec_go]; [lia|].
  destruct (n / 10 =? 0) eqn:Hq; [cbn; lia|].
  apply N.eqb_neq in Hq.
  destruct w as [|[|w]]; [lia| |].
  - change (10 ^ N.of_nat 1) with 10 in Hn.
    rewrite N.div_small in Hq by done. done.
  - specialize (IH (n / 10) ((48 + n mod 10) :: acc) (S w)).
    cbn [length] in IH. 
    assert (n / 10 < 10 ^ N.of_nat (S w)).
    { apply N.Div0.div_lt_upper_bound.
      replace (N.of_nat (S (S w))) with (N.succ (N.of_nat (S w))) in Hn by lia.
      by rewrite N.pow_succ_r' in Hn. }
    specialize (IH H). lia.
Qed.

Lemma dec_go_digits (f : nat) :
  forall (n : N) (acc : pystr),
    forallb is_digit acc = true -> forallb is_digit (dec_go f n acc) = true.
Proof.
  induction f as [|f IH]; intros n acc Hacc; cbn [dec_go]; [done|].
  assert (Hd : is_digit (48 + n mod 10) = true).
  { unfold is_digit. pose proof (N.mod_upper_bound n 10 ltac:(done)) as H.
    revert H. generalize (n mod 10). intros d H.
    apply andb_true_iff. split; apply N.leb_le; lia. }
  destruct (n / 10 =? 0).
  - cbn [forallb]. by rewrite Hd.
  - apply IH. cbn [forallb]. by rewrite Hd.
Qed.

Lemma fmt_d_length (w : nat) (n : N) :
  n < 10 ^ N.of_nat w -> (1 <= w)%nat -> length (fmt_d w n) = w.
Proof.
  intros Hn Hw. unfold fmt_d. cbv zeta.
  rewrite length_app, length_replicate.
  pose proof (dec_go_length (S (N.to_nat (N.log2 n))) n [] w Hn Hw) as H.
  cbn [length] in H. unfold dec. lia.
Qed.

Lemma fmt_d_digits (w : nat) (n : N) : forallb is_digit (fmt_d w n) = true.
Proof.
  unfold fmt_d. cbv zeta. rewrite forallb_app. apply andb_true_iff. split.
  - induction (w - length (dec n))%nat as [|k IH]; [done|]. cbn. by rewrite IH.
  - unfold dec. by apply dec_go_digits.
Qed.

(** The stamp of a file name is fourteen digits. *)
Lemma strftime_YmdHMS_digits (dt : datetime) :
  valid_datetime dt ->
  length (strftime_YmdHMS dt) = 14%nat /\ forallb is_digit (strftime_YmdHMS dt) = true.
Proof.
  intros (Hy & Hm & Hd & Hh & Hmi & Hs & Hus). unfold strftime_YmdHMS. split.
  - rewrite !length_app.
    rewrite (fmt_d_length 4) by (change (10 ^ N.of_nat 4) with 10000; lia).
    rewrite !(fmt_d_length 2) by (change (10 ^ N.of_nat 2) with 100; lia).
    done.
  - rewrite !forallb_app, !fmt_d_digits. done.
Qed.

(** *** Saving the answers *)

Lemma rows_written_all (w : world) (rows : list (list json)) :
  rows_failure w rows = None -> rows_written w rows = rows.
Proof.
  induction rows as [|r rows IH]; [done|]. cbn.
  destruct (row_error w r); [done|]. intros H. by rewrite IH.
Qed.

Lemma write_rows_spec (w : world) (p enc : pystr) (answers : list row) :
  forall (rows : list (list json)) (s : state),
    files s !! p = Some (CsvDoc enc rows) ->
    write_rows w p answers s
    = (match rows_failure w (map cells answers) with
       | None => Return tt
       | Some e => Raise e
       end,
       with_files s
         (<[p := CsvDoc enc (rows ++ rows_written w (map cells answers))]> (files s))).
Proof.
  induction answers as [|a answers IH]; intros rows s Hp.
  - cbn. rewrite app_nil_r, insert_id by done. by destruct s.
  - cbn [write_rows map rows_failure rows_written]. rewrite bind_eq. unfold writerow.
    destruct (row_error w (cells a)) as [e|].
    + rewrite app_nil_r, insert_id by done. by destruct s.
    + rewrite Hp. rewrite (IH (rows ++ [cells a])) by (cbn; apply lookup_insert_eq).
      unfold with_files. cbn [files stdout posted ticks].
      by rewrite insert_insert_eq, <- app_assoc.
Qed.

(** One [with] block: how it ends, and the files it leaves. *)
Lemma write_csv_eq (w : world) (p : pystr) (answers : list row) (s : state) :
  write_csv w p answers s
  = (match csv_failure w answers p with None => Return tt | Some e => Raise e end,
     with_files s (csv_attempted w answers p (files s))).
Proof.
  unfold write_csv, csv_failure, csv_attempted. rewrite bind_eq. unfold csv_open.
  destruct (write_error w p) as [e|]; [by destruct s|].
  rewrite bind_eq. unfold writerow. cbn [rows_failure rows_written].
  destruct (row_error w header) as [e|]; [done|].
  cbn [files]. rewrite lookup_insert_eq.
  rewrite (write_rows_spec w p (lit "utf-8") answers [header])
    by (cbn; apply lookup_insert_eq).
  unfold with_files. cbn [files stdout posted ticks app].
  by rewrite !insert_insert_eq.
Qed.

(** [save_answers_only] never raises. *)
Lemma save_answers_only_eq (w : world) (answers : list row) (s : state) :
  save_answers_only w answers s = (Return tt, saved_answers w answers s).
Proof.
  unfold save_answers_only, saved_answers. cbv zeta.
  rewrite bind_now, bind_print, try_except_eq, bind_eq, write_csv_eq.
  destruct (csv_failure w answers (path_join (batch_dir w)
              (strftime_YmdHMS (clock w (ticks s)) ++ lit "_dify_answers_only.csv")))
    as [e|].
  - cbn [handle]. destruct (is_PermissionError e).
    + rewrite !bind_print, try_except_eq, bind_eq, write_csv_eq, !with_printed_app.
      cbn [app].
      destruct (csv_failure w answers
                  (path_join (path_join (home_dir w) (lit "Desktop"))
                     (strftime_YmdHMS (clock w (ticks s)) ++ lit "_dify_answers_only.csv")))
        as [e2|].
      * cbn [handle is_Exception]. by rewrite print_eq.
      * by rewrite print_eq.
    + cbn [is_Exception]. by rewrite bind_print, print_eq, with_printed_app.
  - by rewrite print_eq.
Qed.

(** With a script directory that can be written and rows that can be
    encoded, the CSV file is written there. *)
Lemma save_answers_only_writable (w : world) (answers : list row) (s : state) :
  csv_failure w answers
    (path_join (batch_dir w)
       (strftime_YmdHMS (clock w (ticks s)) ++ lit "_dify_answers_only.csv"))
  = None ->
  save_answers_only w answers s
  = (Return tt,
     State (<[path_join (batch_dir w)
                (strftime_YmdHMS (clock w (ticks s)) ++ lit "_dify_answers_only.csv") :=
                CsvDoc (lit "utf-8") (header :: map cells answers)]> (files s))
           (stdout s
            ++ [lit "ファイル保存先: "
                ++ path_join (batch_dir w)
                     (strftime_YmdHMS (clock w (ticks s)) ++ lit "_dify_answers_only.csv");
                newline ++ lit "回答のみを "
                ++ (strftime_YmdHMS (clock w (ticks s)) ++ lit "_dify_answers_only.csv")
                ++ lit " に保存しました。"])
           (posted s) (S (ticks s))).
Proof.
  intros Hw. rewrite save_answers_only_eq. unfold saved_answers. cbv zeta. rewrite Hw.
  unfold csv_failure in Hw. unfold csv_attempted.
  destruct (write_error w _); [done|].
  rewrite (rows_written_all _ _ Hw).
  unfold with_printed, with_files, with_tick. cbn [files stdout posted ticks].
  by rewrite <- app_assoc.
Qed.

(** The value of a numeral with zeros before it. *)
Lemma value_zeros (k : nat) (s : pystr) : value (replicate k zero ++ s) = value s.
Proof. induction k as [|k IH]; [done|]. exact IH. Qed.

Lemma fmt_d_value (w : nat) (n : N) : value (fmt_d w n) = n.
Proof. unfold fmt_d. cbv zeta. by rewrite value_zeros, dec_value. Qed.

Lemma field_of_app (a b c : pystr) (i n : nat) :
  length a = i -> length b = n -> take n (drop i (a ++ b ++ c)) = b.
Proof.
  intros Ha Hb. rewrite drop_app_length' by done. by rewrite take_app_length'.
Qed.

(** The stamp of a file name spells the date and the time of the clock
    reading. *)
Lemma strftime_YmdHMS_fields (dt : datetime) :
  valid_datetime dt ->
  value (take 4 (strftime_YmdHMS dt)) = year dt
  /\ value (take 2 (drop 4 (strftime_YmdHMS dt))) = month dt
  /\ value (take 2 (drop 6 (strftime_YmdHMS dt))) = day dt
  /\ value (take 2 (drop 8 (strftime_YmdHMS dt))) = hour dt
  /\ value (take 2 (drop 10 (strftime_YmdHMS dt))) = minute dt
  /\ value (take 2 (drop 12 (strftime_YmdHMS dt))) = second dt.
Proof.
  intros (Hy & Hm & Hd & Hh & Hmi & Hs & _). unfold strftime_YmdHMS.
  assert (L4 : length (fmt_d 4 (year dt)) = 4%nat)
    by (apply fmt_d_length; [change (10 ^ N.of_nat 4) with 10000; lia|lia]).
  assert (L2 : forall n, n < 100 -> length (fmt_d 2 n) = 2%nat)
    by (intros n Hn; apply fmt_d_length; [change (10 ^ N.of_nat 2) with 100; lia|lia]).
  pose proof (L2 (month dt) ltac:(lia)) as Lm.
  pose proof (L2 (day dt) ltac:(lia)) as Ld.
  pose proof (L2 (hour dt) ltac:(lia)) as Lh.
  pose proof (L2 (minute dt) ltac:(lia)) as Lmi.
  pose proof (L2 (second dt) ltac:(lia)) as Ls.
  split; [|split; [|split; [|split; [|split]]]].
  - rewrite take_app_length' by done. apply fmt_d_value.
  - rewrite (field_of_app _ _ _ 4 2) by done. apply fmt_d_value.
  - rewrite (app_assoc (fmt_d 4 _)).
    rewrite (field_of_app _ _ _ 6 2) by (rewrite ?length_app; lia). apply fmt_d_value.
  - rewrite (app_assoc (fmt_d 4 _)), (app_assoc (_ ++ _)).
    rewrite (field_of_app _ _ _ 8 2) by (rewrite ?length_app; lia). apply fmt_d_value.
  - rewrite (app_assoc (fmt_d 4 _)), (app_assoc (_ ++ _)), (app_assoc ((_ ++ _) ++ _)).
    rewrite (field_of_app _ _ _ 10 2) by (rewrite ?length_app; lia). apply fmt_d_value.
  - rewrite (app_assoc (fmt_d 4 _)), (app_assoc (_ ++ _)), (app_assoc ((_ ++ _) ++ _)),
      (app_assoc (((_ ++ _) ++ _) ++ _)).
    rewrite <- (app_nil_r (fmt_d 2 (second dt))) at 1.
    rewrite (field_of_app _ _ _ 12 2) by (rewrite ?length_app; lia). apply fmt_d_value.
Qed.

(** C8, as amended.  For every list of rows each of which the CSV writer
    can encode, when the clock gives a calendar date and the file beside
    the script can be opened for writing, [save_answers_only] raises
    nothing and leaves a CSV file, opened as UTF-8, whose name is the
    stamp of the clock reading followed by ["_dify_answers_only.csv"]; the
    stamp is fourteen digits, which spell the year, the month, the day,
    the hour, the minute and the second of the reading; the first row of
    the file is the header [question_number, timestamp, question, answer],
    and the rows after it are the given rows, one each, in their order. *)
Theorem save_answers_only_writes_csv (w : world) (answers : list row) (s : state) :
  let now := clock w (ticks s) in
  let stamp := strftime_YmdHMS now in
  let filename := stamp ++ lit "_dify_answers_only.csv" in
  let filepath := path_join (batch_dir w) filename in
  valid_datetime now ->
  write_error w filepath = None ->
  rows_failure w (header :: map cells answers) = None ->
  length stamp = 14%nat /\ forallb is_digit stamp = true
  /\ value (take 4 stamp) = year now
  /\ value (take 2 (drop 4 stamp)) = month now
  /\ value (take 2 (drop 6 stamp)) = day now
  /\ value (take 2 (drop 8 stamp)) = hour now
  /\ value (take 2 (drop 10 stamp)) = minute now
  /\ value (take 2 (drop 12 stamp)) = second now
  /\ save_answers_only w answers s
     = (Return tt,
        State (<[filepath :=
                   CsvDoc (lit "utf-8")
                     ([JStr (lit "question_number"); JStr (lit "timestamp");
                       JStr (lit "question"); JStr (lit "answer")]
                      :: map (fun item =>
                                [JInt (Z.of_nat (question_number item));
                                 JStr (timestamp item);
                                 JStr (question item);
                                 answer item]) answers)]> (files s))
              (stdout s
               ++ [lit "ファイル保存先: " ++ filepath;
                   newline ++ lit "回答のみを " ++ filename ++ lit " に保存しました。"])
              (posted s) (S (ticks s))).
Proof.
  cbv zeta. intros Hvalid Hw Hrows.
  destruct (strftime_YmdHMS_digits _ Hvalid) as [Hlen Hdig].
  destruct (strftime_YmdHMS_fields _ Hvalid) as (Hy & Hm & Hd & Hh & Hmi & Hs).
  split; [done|]. split; [done|].
  split; [done|]. split; [done|]. split; [done|].
  split; [done|]. split; [done|]. split; [done|].
  rewrite save_answers_only_writable; [done|].
  unfold csv_failure. by rewrite Hw.
Qed.

(** Two rows saved on the first of January 2024, through the theorem. *)
Lemma save_answers_only_example :
  save_answers_only (replying refused) two_rows fresh
  = (Return tt,
     State {[lit "/app/20240101000000_dify_answers_only.csv" :=
               CsvDoc (lit "utf-8")
                 [[JStr (lit "question_number"); JStr (lit "timestamp");
                   JStr (lit "question"); JStr (lit "answer")];
                  [JInt 1; JStr (lit "2024-01-01T00:00:00");
                   JStr (lit "What is 2+2?"); JStr (lit "4")];
                  [JInt 2; JStr (lit "2024-01-01T00:00:00.000001");
                   JStr (lit "Hello"); JStr (lit "hi")]]]}
       [lit "ファイル保存先: /app/20240101000000_dify_answers_only.csv";
        newline ++ lit "回答のみを 20240101000000_dify_answers_only.csv に保存しました。"]
       [] 1).
Proof.
  destruct (save_answers_only_writes_csv (replying refused) two_rows fresh)
    as (_ & _ & _ & _ & _ & _ & _ & _ & H).
  - unfold valid_datetime. cbn. lia.
  - vm_compute; reflexivity.
  - vm_compute; reflexivity.
  - rewrite H. vm_compute; reflexivity.
Defined.

(** C8 as stated fails for rows the writer cannot encode.  Of two rows of
    which the second holds a lone surrogate, the file is left with the
    header and the first row: [writerow] raises [UnicodeEncodeError] at
    the second, which is printed, and nothing is raised. *)
Lemma save_answers_only_stops_at_a_surrogate :
  save_answers_only strict_utf8 surrogate_rows fresh
  = (Return tt,
     State {[lit "/app/20240101000000_dify_answers_only.csv" :=
               CsvDoc (lit "utf-8")
                 [[JStr (lit "question_number"); JStr (lit "timestamp");
                   JStr (lit "question"); JStr (lit "answer")];
                  [JInt 1; JStr (lit "2024-01-01T00:00:00");
                   JStr (lit "What is 2+2?"); JStr (lit "4")]]]}
       [lit "ファイル保存先: /app/20240101000000_dify_answers_only.csv";
        newline ++ lit "❌ ファイル保存エラー: 'utf-8' codec can't encode character '\udc80' in position 35: surrogates not allowed";
        lit "保存先: /app/20240101000000_dify_answers_only.csv"]
       [] 1).
Proof. vm_compute; reflexivity. Qed.

(** *** A whole batch run *)

Lemma save_answers_only_returns (w : world) (answers : list row) (s : state) :
  exists s', save_answers_only w answers s = (Return tt, s').
Proof. rewrite save_answers_only_eq. eauto. Qed.

Lemma print_summary_returns (w : world) (answers : list row) :
  forall (i : nat) (s : state),
  exists s', print_summary w i answers s = (Return tt, s') /\ files s' = files s.
Proof.
  induction answers as [|a answers IH]; intros i s; [by exists s|].
  cbn [print_summary]. rewrite !bind_print.
  destruct (IH (S i) (with_printed (with_printed s
              [lit "[" ++ dec (N.of_nat i) ++ lit "] " ++ py_str w (answer a)]) [[]]))
    as (s' & H & Hf).
  exists s'. split; [exact H|]. by rewrite Hf.
Qed.

(** [load_questions_from_file] never raises; it prints when the file cannot
    be opened or read to its end. *)
Lemma load_questions_eq (w : world) (p : pystr) (s : state) :
  load_questions_from_file w p s
  = (Return (questions_of (read_text w p)),
     match read_text w p with
     | Opened _ None => s
     | CannotOpen e | Opened _ (Some e) =>
         with_printed s [lit "❌ 質問ファイルの読み込みエラー: " ++ exn_str e]
     end).
Proof.
  unfold load_questions_from_file, questions_of.
  destruct (read_text w p) as [e|lines [e|]];
    rewrite ?bind_print; unfold ret; by rewrite ?collect_spec.
Qed.

(** A whole run of [main], with the key configured and a question file
    that is read to its end: it raises nothing and leaves one row per line
    that is not blank, numbered from 1 in the order of the file, each with
    its stripped line as the question; and when the CSV file beside the
    script can be opened for writing, the writer can encode the header and
    each of these rows, and there is a question at all, that file holds the
    header and these rows. *)
Theorem main_rows (w : world) (s : state) (lines : list pystr) :
  let qs := map strip (List.filter (fun l => negb (blank l)) lines) in
  truthy (environ w (lit "DIFY_API_KEY")) = true ->
  read_text w (path_join (batch_dir w) (lit "questions.txt")) = Opened lines None ->
  exists rows s',
    main w s = (Return rows, s')
    /\ length rows = length qs
    /\ map question_number rows = seq 1 (length qs)
    /\ map question rows = qs
    /\ ((forall t, write_error w (path_join (batch_dir w)
                                    (strftime_YmdHMS (clock w t)
                                     ++ lit "_dify_answers_only.csv")) = None) ->
        rows_failure w (header :: map cells rows) = None ->
        qs <> [] ->
        exists t,
          files s' !! path_join (batch_dir w)
                        (strftime_YmdHMS (clock w t) ++ lit "_dify_answers_only.csv")
          = Some (CsvDoc (lit "utf-8") (header :: map cells rows))).
Proof.
  cbv zeta. intros Hkey Hread.
  unfold main. rewrite !bind_print, Hkey. cbn [negb].
  rewrite bind_print, bind_eq.
  rewrite load_questions_eq, Hread. cbn [questions_of].
  destruct (map strip _) as [|q qs] eqn:Hqs.
  - rewrite bind_print. eexists [], _. split; [reflexivity|].
    split; [reflexivity|]. split; [reflexivity|]. split; [reflexivity|].
    intros _ _ Hne. by destruct Hne.
  - rewrite bind_print, bind_eq.
    match goal with |- context [batch_loop w ?c 1 _ [] ?s1] =>
      destruct (batch_loop_appends w c (q :: qs) 1 [] s1)
        as (rows & s2 & Hloop & Hn & Hq & _)
    end.
    rewrite Hloop. cbn [app].
    rewrite bind_print, bind_eq.
    match goal with |- context [save_answers_only w rows ?s3] =>
      destruct (save_answers_only_returns w rows s3) as [s4 Hsave];
      pose proof (save_answers_only_writable w rows s3) as Hcsv
    end.
    rewrite Hsave, bind_print, bind_eq.
    match goal with |- context [print_summary w 1 rows ?s5] =>
      destruct (print_summary_returns w rows 1 s5) as (s6 & Hsum & Hfiles)
    end.
    rewrite Hsum. exists rows, s6. split; [reflexivity|].
    split; [by rewrite <- (length_map question), Hq|].
    split; [exact Hn|]. split; [exact Hq|].
    intros Hw Hrows _. exists (ticks s2). rewrite Hfiles.
    rewrite Hcsv in Hsave by (unfold csv_failure; by rewrite Hw). injection Hsave as <-.
    unfold with_printed. cbn [files stdout posted ticks].
    apply lookup_insert_eq.
Qed.

(** The run over the question file of the example, through the theorem. *)
Lemma main_rows_example :
  exists rows s',
    main batch_world fresh = (Return rows, s')
    /\ map question_number rows = [1; 2]%nat
    /\ map question rows = [lit "What is 2+2?"; lit "Hello"]
    /\ map answer rows = [JStr (lit "hi"); JStr (lit "hi")].
Proof.
  destruct (main_rows batch_world fresh question_lines)
    as (rows & s' & Hmain & _ & Hn & Hq & _);
    [vm_compute; reflexivity | vm_compute; reflexivity |].
  exists rows, s'. split; [exact Hmain|].
  split; [rewrite Hn; vm_compute; reflexivity|].
  split; [rewrite Hq; vm_compute; reflexivity|].
  assert (Hrows : fst (main batch_world fresh) = Return rows) by (by rewrite Hmain).
  vm_compute in Hrows. injection Hrows as <-. vm_compute; reflexivity.
Defined.

(** *** Further properties *)

(** A call whose exchange does not fail returns the decoded body as it is
    and, with a log that holds a list, when the log file can be opened for
    writing and [json.dump] can write the list with the new entry, leaves
    the log with one more entry: the clock reading, the question and that
    body. *)
Theorem send_message_success_is_returned_and_logged (w : world) (self : DifyClient)
    (m u : pystr) (c : option pystr) (s : state) (v : json) (old : list json) :
  usable_reply (server w (length (posted s)) (chat_request self m u c)) = Some v ->
  logs_before w (log_file self) s = Return (JArr old) ->
  write_failure w (JArr (old ++ [log_entry (clock w (ticks s)) m v])) (log_file self)
  = None ->
  send_message w self m u c s
  = (Return v,
     State (<[log_file self :=
                JsonDoc (JArr (old ++ [log_entry (clock w (ticks s)) m v]))]> (files s))
           (stdout s) (posted s ++ [chat_request self m u c]) (S (ticks s))).
Proof.
  intros Hu Hold Hw.
  rewrite (send_message_usable _ _ _ _ _ _ _ Hu), log_interaction_spec.
  rewrite (logs_before_same_files w _ s) by done. rewrite Hold.
  cbn [py_append]. by rewrite save_logs_written.
Qed.

(** The first call of a client, through the theorem. *)
Lemma send_message_success_example :
  send_message (replying (ok_reply hi_response)) client0 (lit "Hello") (lit "user") None
    fresh
  = (Return hi_response,
     State {[log0 := JsonDoc (JArr [log_entry (Datetime 2024 1 1 0 0 0 0) (lit "Hello")
                                      hi_response])]}
       [] [chat_request client0 (lit "Hello") (lit "user") None] 1).
Proof.
  rewrite (send_message_success_is_returned_and_logged (replying (ok_reply hi_response))
             client0 (lit "Hello") (lit "user") None fresh hi_response []);
    vm_compute; reflexivity.
Defined.

(** With a key configured (argument or environment), the request of every
    call carries the bearer token and the content type, and its JSON body
    holds empty inputs, the query, the blocking mode, the conversation id
    (or null) and the user. *)
Theorem request_carries_key_and_query (w : world) (b k : option pystr)
    (m u : pystr) (c : option pystr) (s : state) (k0 : N) (key : pystr) :
  py_or k (environ w (lit "DIFY_API_KEY")) = Some (k0 :: key) ->
  posted (snd (send_message w (init w b k) m u c s))
  = posted s
    ++ [Request (base_url (init w b k) ++ lit "/chat-messages")
          [(lit "Authorization", lit "Bearer " ++ k0 :: key);
           (lit "Content-Type", lit "application/json")]
          (JObj [(lit "inputs", JObj []);
                 (lit "query", JStr m);
                 (lit "response_mode", JStr (lit "blocking"));
                 (lit "conversation_id",
                  match c with Some i => JStr i | None => JNull end);
                 (lit "user", JStr u)])].
Proof.
  intros Hkey. rewrite send_message_posts. unfold chat_request. do 3 f_equal.
  unfold init. cbn [headers]. by rewrite Hkey.
Qed.

(** A key from the environment, through the theorem. *)
Lemma request_carries_key_example :
  posted (snd (send_message batch_world (init batch_world None None) (lit "Hello")
                 (lit "user") None fresh))
  = [Request (lit "http://localhost/v1/chat-messages")
       [(lit "Authorization", lit "Bearer app-key");
        (lit "Content-Type", lit "application/json")]
       (JObj [(lit "inputs", JObj []);
              (lit "query", JStr (lit "Hello"));
              (lit "response_mode", JStr (lit "blocking"));
              (lit "conversation_id", JNull);
              (lit "user", JStr (lit "user"))])].
Proof.
  rewrite (request_carries_key_and_query batch_world None None (lit "Hello") (lit "user")
             None fresh 97 (lit "pp-key"));
    vm_compute; reflexivity.
Defined.

(** When opening the CSV file beside the script fails with a
    [PermissionError], the same file name is tried once in the desktop
    directory: if it cannot be opened there, no file is written; if it can,
    it holds the rows written before the first that the writer cannot
    encode (all of them, header first, when there is none); the
    confirmation is printed only when all were written, and otherwise the
    second failure; either way nothing is raised. *)
Theorem save_answers_only_falls_back (w : world) (answers : list row) (s : state)
    (e : exn) :
  let filename := strftime_YmdHMS (clock w (ticks s)) ++ lit "_dify_answers_only.csv" in
  let filepath := path_join (batch_dir w) filename in
  let desktop_filepath := path_join (path_join (home_dir w) (lit "Desktop")) filename in
  write_error w filepath = Some e ->
  is_PermissionError e = true ->
  save_answers_only w answers s
  = (Return tt,
     State
       match write_error w desktop_filepath with
       | Some _ => files s
       | None =>
           <[desktop_filepath :=
               CsvDoc (lit "utf-8") (rows_written w (header :: map cells answers))]>
             (files s)
       end
       (stdout s
        ++ [lit "ファイル保存先: " ++ filepath;
            newline ++ lit "❌ ファイル保存権限エラー: " ++ exn_str e;
            lit "保存先: " ++ filepath;
            lit "別の場所への保存を試みます...";
            match write_error w desktop_filepath,
                  rows_failure w (header :: map cells answers) with
            | Some e2, _ | None, Some e2 => lit "❌ デスクトップ保存も失敗: " ++ exn_str e2
            | None, None => lit "✓ デスクトップに保存しました: " ++ desktop_filepath
            end])
       (posted s) (S (ticks s))).
Proof.
  cbv zeta. intros Hw Hperm. rewrite save_answers_only_eq.
  unfold saved_answers. cbv zeta. unfold csv_failure, csv_attempted.
  rewrite Hw, Hperm.
  destruct (write_error w (path_join (path_join (home_dir w) (lit "Desktop"))
              (strftime_YmdHMS (clock w (ticks s)) ++ lit "_dify_answers_only.csv")))
    as [e2|].
  - unfold with_printed, with_files, with_tick. cbn [files stdout posted ticks].
    by rewrite <- !app_assoc.
  - destruct (rows_failure w (header :: map cells answers)) as [e2|];
      unfold with_printed, with_files, with_tick; cbn [files stdout posted ticks];
      by rewrite <- !app_assoc.
Qed.

(** A denied script directory, through the theorem. *)
Lemma save_answers_only_falls_back_example :
  fst (save_answers_only script_dir_denied two_rows fresh) = Return tt
  /\ files (snd (save_answers_only script_dir_denied two_rows fresh))
     !! lit "/home/user/Desktop/20240101000000_dify_answers_only.csv"
     = Some (CsvDoc (lit "utf-8") (header :: map cells two_rows)).
Proof.
  rewrite (save_answers_only_falls_back script_dir_denied two_rows fresh
             (denied (lit "/app/20240101000000_dify_answers_only.csv")));
    [ | vm_compute; reflexivity | vm_compute; reflexivity ].
  split; vm_compute; reflexivity.
Defined.

(** *** The requests of a batch run *)

Lemma get_answer_posts (w : world) (self : DifyClient) (q : pystr) (s : state) :
  posted (snd (get_answer w self q s)) = posted s ++ [question_request self q].
Proof.
  rewrite get_answer_pick.
  pose proof (send_message_posts w self q (lit "user") None s) as Hp.
  by destruct (send_message w self q (lit "user") None s) as [[r|e] s'].
Qed.

Lemma batch_loop_posted (w : world) (client : DifyClient) (qs : list pystr) :
  forall (i : nat) (acc : list row) (s : state),
    posted (snd (batch_loop w client i qs acc s))
    = posted s ++ map (question_request client) qs.
Proof.
  induction qs as [|q qs IH]; intros i acc s.
  - cbn. by rewrite app_nil_r.
  - cbn [batch_loop map]. rewrite bind_eq, batch_step_eq. cbv beta iota zeta.
    rewrite IH. unfold with_printed, with_tick. cbn [posted].
    rewrite get_answer_posts. unfold turn_start, with_printed. cbn [posted].
    by rewrite <- app_assoc.
Qed.

Lemma with_printed_frame (s : state) (a : list pystr) :
  files (with_printed s a) = files s
  /\ posted (with_printed s a) = posted s
  /\ ticks (with_printed s a) = ticks s.
Proof. done. Qed.

(** What [main] does, case by case. *)
Lemma main_eq (w : world) (s : state) :
  main w s
  = let s0 :=
      with_printed s
        [lit "=== Dify API クライアント開始 ===";
         lit "スクリプトの場所: " ++ batch_file w;
         lit "現在の作業ディレクトリ: " ++ cwd w;
         lit "✓ requestsライブラリ確認OK"] in
    if truthy (environ w (lit "DIFY_API_KEY")) then
      let s1 :=
        snd (load_questions_from_file w (questions_file w)
               (with_printed s0 [lit "✓ DifyClient初期化OK"])) in
      match questions_of (read_text w (questions_file w)) with
      | [] =>
          (Return [],
           with_printed s1 [lit "❌ 質問が見つかりません。questions.txt を確認してください。"])
      | q :: qs =>
          let loop :=
            batch_loop w (batch_client w) 1 (q :: qs) []
              (with_printed s1 [lit "=== Dify API Test ==="]) in
          match fst loop with
          | Raise e => (Raise e, snd loop)
          | Return answers_only =>
              let s3 :=
                snd (save_answers_only w answers_only
                       (with_printed (snd loop) [newline ++ lit "=== ファイル保存処理 ==="])) in
              (Return answers_only,
               snd (print_summary w 1 answers_only
                      (with_printed s3 [newline ++ lit "=== 回答まとめ ==="])))
          end
      end
    else
      (Return [],
       with_printed s0
         [lit "❌ APIキーが設定されていません。";
          lit ".envファイルにDIFY_API_KEYを設定してください。"]).
Proof.
  cbv zeta. unfold main. rewrite !bind_print, !with_printed_app. cbn [app].
  destruct (truthy (environ w (lit "DIFY_API_KEY"))); cbn [negb].
  - rewrite bind_print, bind_eq, with_printed_app. cbn [app]. fold (questions_file w).
    match goal with |- context [load_questions_from_file w ?p ?st] =>
      pose proof (load_questions_eq w p st) as Hl;
      destruct (load_questions_from_file w p st) as [o s1] end.
    injection Hl as -> _. cbn [snd].
    destruct (questions_of _) as [|q qs].
    + rewrite bind_print. reflexivity.
    + rewrite bind_print, bind_eq. fold (batch_client w).
      match goal with |- context [batch_loop w ?c 1 ?l [] ?s1] =>
        destruct (batch_loop w c 1 l [] s1) as [[rows|e] s2] end; [|reflexivity].
      cbn [fst snd]. rewrite bind_print, bind_eq.
      match goal with |- context [save_answers_only w rows ?s3] =>
        destruct (save_answers_only_returns w rows s3) as [s4 ->] end.
      cbn [snd]. rewrite bind_print, bind_eq.
      match goal with |- context [print_summary w 1 rows ?s5] =>
        destruct (print_summary_returns w rows 1 s5) as (s6 & -> & _) end.
      reflexivity.
  - rewrite !bind_print, !with_printed_app. reflexivity.
Qed.

(** Frames of the parts of a run. *)
Lemma load_questions_frame (w : world) (p : pystr) (s : state) :
  files (snd (load_questions_from_file w p s)) = files s
  /\ posted (snd (load_questions_from_file w p s)) = posted s
  /\ ticks (snd (load_questions_from_file w p s)) = ticks s.
Proof. rewrite load_questions_eq. by destruct (read_text w p) as [e|lines [e|]]. Qed.

Lemma save_answers_only_posted (w : world) (answers : list row) (s : state) :
  posted (snd (save_answers_only w answers s)) = posted s.
Proof.
  rewrite save_answers_only_eq. unfold saved_answers. cbv zeta.
  destruct (csv_failure _ _ _) as [e|]; [|done].
  destruct (is_PermissionError e); [|done].
  by destruct (csv_failure _ _ _).
Qed.

Lemma print_summary_posted (w : world) (answers : list row) :
  forall (i : nat) (s : state), posted (snd (print_summary w i answers s)) = posted s.
Proof.
  induction answers as [|a answers IH]; intros i s; [done|].
  cbn [print_summary]. rewrite !bind_print. by rewrite IH.
Qed.

(** A run of the batch never raises, whatever the world: it returns its
    rows, and the requests it has posted are exactly one per row, in the
    order of the rows, each carrying the question of its row as the query,
    for the user ["user"] and without a conversation id. *)
Theorem main_posts_one_request_per_row (w : world) (s : state) :
  exists rows s',
    main w s = (Return rows, s')
    /\ posted s' = posted s ++ map (fun r => question_request (batch_client w) (question r)) rows.
Proof.
  rewrite main_eq. cbv zeta.
  destruct (truthy _).
  - match goal with |- context [load_questions_from_file w ?p ?st] =>
      destruct (load_questions_frame w p st) as (_ & Hp1 & _);
      set (s1 := snd (load_questions_from_file w p st)) in * end.
    destruct (questions_of _) as [|q qs].
    + eexists [], _. split; [reflexivity|]. cbn [map]. by rewrite app_nil_r.
    + match goal with |- context [batch_loop w ?c 1 ?l [] ?st] =>
        pose proof (batch_loop_posted w c l 1 [] st) as Hp2;
        destruct (batch_loop_appends w c l 1 [] st) as (rows & s2 & Hloop & _ & Hq & _) end.
      rewrite Hloop in Hp2 |- *. cbn [fst snd app] in Hp2 |- *.
      eexists rows, _. split; [reflexivity|].
      rewrite print_summary_posted. unfold with_printed at 1. cbn [posted].
      rewrite save_answers_only_posted. unfold with_printed at 1. cbn [posted].
      rewrite Hp2. unfold with_printed at 1. cbn [posted]. rewrite Hp1.
      unfold with_printed. cbn [posted]. f_equal.
      rewrite <- Hq, map_map. reflexivity.
  - eexists [], _. split; [reflexivity|]. cbn [map]. by rewrite app_nil_r.
Qed.

(** Without a key in the environment, or with a question file that gives
    no question (it cannot be opened, or all its lines are blank), a run
    of the batch returns no rows and only prints: no request is posted, no
    file is written and the clock is not read. *)
Theorem main_does_nothing_without_key_or_questions (w : world) (s : state) :
  truthy (environ w (lit "DIFY_API_KEY")) = false
  \/ questions_of (read_text w (questions_file w)) = [] ->
  exists s',
    main w s = (Return [], s')
    /\ files s' = files s /\ posted s' = posted s /\ ticks s' = ticks s.
Proof.
  intros H. rewrite main_eq. cbv zeta.
  destruct (truthy _) eqn:Hkey.
  - destruct H as [H|H]; [done|]. rewrite H.
    eexists. split; [reflexivity|].
    match goal with |- context [load_questions_from_file w ?p ?st] =>
      destruct (load_questions_frame w p st) as (Hf & Hp & Ht) end.
    destruct (with_printed_frame (snd (load_questions_from_file w (questions_file w)
                (with_printed
                   (with_printed s
                      [lit "=== Dify API クライアント開始 ===";
                       lit "スクリプトの場所: " ++ batch_file w;
                       lit "現在の作業ディレクトリ: " ++ cwd w;
                       lit "✓ requestsライブラリ確認OK"])
                   [lit "✓ DifyClient初期化OK"])))
                [lit "❌ 質問が見つかりません。questions.txt を確認してください。"])
      as (-> & -> & ->).
    by rewrite Hf, Hp, Ht.
  - eexists. split; [reflexivity|]. done.
Qed.

(** A world without a key, and a question file of blank lines, through
    the theorem. *)
Lemma main_does_nothing_examples :
  (exists s',
     main with_questions fresh = (Return [], s')
     /\ files s' = files fresh /\ posted s' = posted fresh /\ ticks s' = ticks fresh)
  /\ (exists s',
        main blank_file_world fresh = (Return [], s')
        /\ files s' = files fresh /\ posted s' = posted fresh /\ ticks s' = ticks fresh).
Proof.
  split.
  - apply (main_does_nothing_without_key_or_questions with_questions fresh).
    left. vm_compute; reflexivity.
  - apply (main_does_nothing_without_key_or_questions blank_file_world fresh).
    right. vm_compute; reflexivity.
Defined.

(** *** The questions loaded *)

(** A text that does not begin or end with a matching character is left
    as it is. *)
Lemma lstrip_by_id (p : N -> bool) (s : pystr) :
  match s with c :: _ => p c = false | [] => True end -> lstrip_by p s = s.
Proof. destruct s as [|c r]; [done|]. cbn. by intros ->. Qed.

Lemma rstrip_by_id (p : N -> bool) (s : pystr) :
  match last s with Some c => p c = false | None => True end -> rstrip_by p s = s.
Proof.
  intros H. unfold rstrip_by. rewrite lstrip_by_id; [apply rev_involutive|].
  destruct s as [|c r] using rev_ind; [done|].
  rewrite rev_app_distr. cbn. by rewrite last_snoc in H.
Qed.

Lemma strip_strip (s : pystr) : strip (strip s) = strip s.
Proof.
  destruct (strip_spec s) as (a & b & _ & _ & _ & Hhd & Hlast).
  unfold strip at 1. rewrite (lstrip_by_id _ _ Hhd). by apply rstrip_by_id.
Qed.

(** [load_questions_from_file] never raises, and every question it returns
    is not empty and has no whitespace at its ends: stripping it again
    changes nothing, and neither its first nor its last character is
    whitespace. *)
Theorem loaded_questions_are_stripped (w : world) (filepath : pystr) (s : state) :
  exists questions s',
    load_questions_from_file w filepath s = (Return questions, s')
    /\ Forall (fun q => q <> [] /\ strip q = q
                        /\ (forall c, head q = Some c \/ last q = Some c -> is_space c = false))
         questions.
Proof.
  rewrite load_questions_eq. eexists _, _. split; [reflexivity|].
  unfold questions_of. destruct (read_text w filepath) as [e|lines _]; [constructor|].
  apply Forall_forall. intros q Hq. apply list_elem_of_In in Hq.
  apply in_map_iff in Hq as (l & <- & Hl).
  apply filter_In in Hl as [_ Hb].
  assert (Hne : strip l <> []).
  { intros H. apply strip_nil in H. unfold blank in Hb. by rewrite H in Hb. }
  split; [done|]. split; [apply strip_strip|].
  destruct (strip_spec l) as (a & b & _ & _ & _ & Hhd & Hlast).
  intros c [Hc|Hc].
  - destruct (strip l); [done|]. by injection Hc as <-.
  - by rewrite Hc in Hlast.
Qed.

(** *** What a call leaves untouched *)

Lemma attempted_frame (w : world) (logs : json) (p q : pystr) (f : gmap pystr content) :
  q <> p -> attempted w logs p f !! q = f !! q.
Proof.
  intros Hq. unfold attempted. destruct (write_error w p); [done|].
  by rewrite lookup_insert_ne.
Qed.

Lemma save_logs_frame (w : world) (self : DifyClient) (logs : json) (s : state) :
  ticks (save_logs w self logs s) = ticks s
  /\ (exists more, stdout (save_logs w self logs s) = stdout s ++ more)
  /\ (forall p, p <> log_file self -> p <> desktop_log_file w ->
        files (save_logs w self logs s) !! p = files s !! p).
Proof.
  unfold save_logs. cbv zeta.
  destruct (write_failure w logs (log_file self)) as [e|].
  - destruct (is_PermissionError e).
    + destruct (write_failure w logs (desktop_log_file w));
        cbn [with_printed with_files files stdout ticks].
      * split; [done|]. split; [rewrite <- app_assoc; eauto|].
        intros p H1 H2. by rewrite !attempted_frame.
      * split; [done|]. split; [rewrite <- app_assoc; eauto|].
        intros p H1 H2. by rewrite !attempted_frame.
    + split; [done|]. split; [cbn; eauto|].
      intros p H1 H2. cbn. by rewrite attempted_frame.
  - split; [done|]. split; [exists []; cbn; by rewrite app_nil_r|].
    intros p Hp _. cbn. by rewrite attempted_frame.
Qed.

Lemma log_interaction_frame (w : world) (self : DifyClient) (q : pystr) (r : json)
    (s : state) :
  ticks (snd (_log_interaction w self q r s)) = S (ticks s)
  /\ (exists more, stdout (snd (_log_interaction w self q r s)) = stdout s ++ more)
  /\ (forall p, p <> log_file self -> p <> desktop_log_file w ->
        files (snd (_log_interaction w self q r s)) !! p = files s !! p).
Proof.
  rewrite log_interaction_spec.
  assert (Hraise : forall e : exn,
    ticks (snd (@Raise unit e, with_tick s)) = S (ticks s)
    /\ (exists more, stdout (snd (@Raise unit e, with_tick s)) = stdout s ++ more)
    /\ (forall p, p <> log_file self -> p <> desktop_log_file w ->
          files (snd (@Raise unit e, with_tick s)) !! p = files s !! p)).
  { intros e. split; [done|]. split; [exists []; cbn; by rewrite app_nil_r|done]. }
  destruct (logs_before _ _ _) as [logs|e]; [|apply Hraise].
  destruct (py_append _ _) as [logs'|e]; [|apply Hraise].
  cbn [snd]. destruct (save_logs_frame w self logs' (with_tick s)) as (Ht & Ho & Hf).
  split; [by rewrite Ht|]. split; [exact Ho|exact Hf].
Qed.

Lemma send_message_frame (w : world) (self : DifyClient)
    (m u : pystr) (c : option pystr) (s : state) :
  ticks (snd (send_message w self m u c s))
  = match failure (server w (length (posted s)) (chat_request self m u c)) with
    | Some _ => ticks s
    | None => S (ticks s)
    end
  /\ (exists more, stdout (snd (send_message w self m u c s)) = stdout s ++ more)
  /\ (forall p, p <> log_file self -> p <> desktop_log_file w ->
        files (snd (send_message w self m u c s)) !! p = files s !! p).
Proof.
  destruct (failure _) as [e|] eqn:Hf.
  - destruct (is_RequestException e) eqn:He.
    + rewrite (send_message_failed _ _ _ _ _ _ _ Hf He). cbn. split; [done|]. split; eauto.
    + rewrite (send_message_crashed _ _ _ _ _ _ _ Hf He). cbn. split; [done|].
      split; [exists []; by rewrite app_nil_r|done].
  - destruct (no_failure_usable _ Hf) as [v Hv].
    rewrite (send_message_usable _ _ _ _ _ _ _ Hv).
    destruct (log_interaction_frame w self m v (with_posted s (chat_request self m u c)))
      as (Ht & [more Ho] & Hfiles).
    destruct (_log_interaction _ _ _ _ _) as [[[]|e] s2]; cbn [snd] in *.
    + split; [done|]. split; [eauto|done].
    + destruct (is_RequestException e); cbn [snd].
      * split; [done|]. split; [|done]. cbn. rewrite Ho. cbn. rewrite <- app_assoc. eauto.
      * split; [done|]. split; [eauto|done].
Qed.

Lemma get_answer_frame (w : world) (self : DifyClient) (q : pystr) (s : state) :
  forall p, p <> log_file self -> p <> desktop_log_file w ->
    files (snd (get_answer w self q s)) !! p = files s !! p.
Proof.
  rewrite get_answer_pick.
  destruct (send_message_frame w self q (lit "user") None s) as (_ & _ & Hf).
  by destruct (send_message w self q (lit "user") None s) as [[r|e] s'].
Qed.

(** A call of [send_message] posts one request; it reads the clock once
    when the exchange does not fail and not at all when it fails; it only
    adds to what is printed; and the only files it can change are the log
    beside the client and the log on the desktop. *)
Theorem send_message_touches_only_the_log (w : world) (self : DifyClient)
    (m u : pystr) (c : option pystr) (s : state) :
  let s' := snd (send_message w self m u c s) in
  posted s' = posted s ++ [chat_request self m u c]
  /\ ticks s'
     = match failure (server w (length (posted s)) (chat_request self m u c)) with
       | Some _ => ticks s
       | None => S (ticks s)
       end
  /\ (exists more, stdout s' = stdout s ++ more)
  /\ (forall p, p <> log_file self -> p <> desktop_log_file w ->
        files s' !! p = files s !! p).
Proof. cbv zeta. split; [apply send_message_posts|apply send_message_frame]. Qed.

(** When the log file holds a JSON document that is not a list (an
    object, a string, a number, [null]), a call whose exchange does not
    fail raises [AttributeError] from [logs.append]: [get_answer] passes it
    on, the response received is lost, and the log file stays as it was. *)
Theorem get_answer_raises_on_a_log_that_is_no_list (w : world) (self : DifyClient)
    (q : pystr) (s : state) (v logs : json) :
  usable_reply (server w (length (posted s)) (question_request self q)) = Some v ->
  files s !! log_file self = Some (JsonDoc logs) ->
  read_error w (log_file self) = None ->
  is_list logs = false ->
  get_answer w self q s
  = (Raise (Exn AttributeError
              (lit "'" ++ type_name logs ++ lit "' object has no attribute 'append'")),
     State (files s) (stdout s) (posted s ++ [question_request self q]) (S (ticks s))).
Proof.
  intros Hu Hc Hr Hl. unfold question_request in *.
  rewrite get_answer_pick, (send_message_usable _ _ _ _ _ _ _ Hu), log_interaction_spec.
  unfold logs_before, json_load. cbn [with_posted files]. rewrite Hc, Hr.
  by destruct logs.
Qed.

(** A log that holds an empty object, through the theorem. *)
Lemma get_answer_raises_on_a_log_that_is_no_list_example :
  get_answer (replying (ok_reply hi_response)) client0 (lit "Hello")
    (State {[log0 := JsonDoc (JObj [])]} [] [] 0)
  = (Raise (Exn AttributeError (lit "'dict' object has no attribute 'append'")),
     State {[log0 := JsonDoc (JObj [])]} []
       [question_request client0 (lit "Hello")] 1).
Proof.
  rewrite (get_answer_raises_on_a_log_that_is_no_list (replying (ok_reply hi_response))
             client0 (lit "Hello") (State {[log0 := JsonDoc (JObj [])]} [] [] 0)
             hi_response (JObj []));
    vm_compute; reflexivity.
Defined.

(** Saving the log when the log beside the client cannot be opened for
    want of permission and the desktop log can. *)
Lemma save_logs_denied (w : world) (self : DifyClient) (logs : json) (s : state)
    (e : exn) :
  write_error w (log_file self) = Some e ->
  is_PermissionError e = true ->
  write_error w (desktop_log_file w) = None ->
  exists more,
    save_logs w self logs s
    = State (<[desktop_log_file w := dumped w logs]> (files s)) (stdout s ++ more)
        (posted s) (ticks s).
Proof.
  intros Hw Hperm Hd. unfold save_logs. cbv zeta. unfold write_failure, attempted.
  rewrite Hw, Hperm, Hd.
  destruct (dump_error w logs); eexists;
    unfold with_printed, with_files; cbn [files stdout posted ticks];
    by rewrite <- app_assoc.
Qed.

(** The desktop log does not accumulate.  With no log beside the client
    and the permission to open one for writing denied, a desktop log that
    can be opened for writing, and calls none of which raises, a sequence
    of calls never creates the log beside the client, and leaves on the
    desktop what [json.dump] writes of a list of one entry, that of the
    last call whose exchange did not fail (the desktop file as it was, when
    every call failed): each fallback write replaces the file by what was
    read from the log beside the client, followed by the new entry. *)
Theorem desktop_log_keeps_the_last_entry_only (w : world) (self : DifyClient)
    (calls : list call) (s : state) (e : exn) :
  files s !! log_file self = None ->
  log_file self <> desktop_log_file w ->
  write_error w (log_file self) = Some e ->
  is_PermissionError e = true ->
  write_error w (desktop_log_file w) = None ->
  all_caught w self (length (posted s)) calls = true ->
  exists results s',
    send_all w self calls s = (Return results, s')
    /\ files s' !! log_file self = None
    /\ files s' !! desktop_log_file w
       = match last (exchanges w self (length (posted s)) (ticks s) calls) with
         | Some x =>
             Some match dump_error w (JArr [entry_of x]) with
                  | None => JsonDoc (JArr [entry_of x])
                  | Some _ => Truncated (JArr [entry_of x])
                  end
         | None => files s !! desktop_log_file w
         end.
Proof.
  intros Hnone Hne Hw Hperm Hd. revert s Hnone.
  induction calls as [|c calls IH]; intros s Hnone Hcaught.
  - exists [], s. done.
  - cbn [send_all exchanges all_caught] in *. rewrite bind_eq.
    apply andb_prop in Hcaught as [Hc Hrest].
    destruct (usable_reply _) as [v|] eqn:Hu.
    + rewrite (send_message_usable _ _ _ _ _ _ _ Hu), log_interaction_spec.
      unfold logs_before. cbn [with_posted files]. rewrite Hnone. cbn [py_append app].
      match goal with |- context [save_logs w self ?logs ?s0] =>
        destruct (save_logs_denied w self logs s0 e Hw Hperm Hd) as [more ->] end.
      cbv beta iota zeta. rewrite bind_eq.
      match goal with |- context [send_all w self calls ?s1] =>
        destruct (IH s1) as (rs & s' & Hall & Hlog & Hdesk) end.
      { cbn. by rewrite lookup_insert_ne. }
      { cbn [with_tick with_posted posted files stdout ticks].
        by rewrite length_app, Nat.add_1_r. }
      rewrite Hall. eexists (_ :: rs), s'. split; [reflexivity|].
      split; [exact Hlog|]. rewrite Hdesk, last_cons.
      cbn [with_printed with_files with_tick with_posted files stdout posted ticks].
      rewrite length_app, Nat.add_1_r. cbn [length].
      destruct (last (exchanges w self (S (length (posted s))) (S (ticks s)) calls))
        as [x|]; [reflexivity|].
      by rewrite lookup_insert_eq.
    + destruct (failure (server w (length (posted s))
                  (chat_request self (message c) (user_id c) (conversation_id c))))
        as [e'|] eqn:Hf.
      * rewrite (send_message_failed _ _ _ _ _ _ _ Hf Hc). cbv beta iota. rewrite bind_eq.
        match goal with |- context [send_all w self calls ?s1] =>
          destruct (IH s1) as (rs & s' & Hall & Hlog & Hdesk) end.
        { done. }
        { cbn [with_printed with_posted posted]. by rewrite length_app, Nat.add_1_r. }
        rewrite Hall. eexists (_ :: rs), s'. split; [reflexivity|].
        split; [exact Hlog|]. rewrite Hdesk.
        cbn [with_printed with_posted files stdout posted ticks].
        by rewrite length_app, Nat.add_1_r.
      * destruct (no_failure_usable _ Hf) as [v Hv]. congruence.
Qed.

(** Three answered calls, through the theorem: only the third is on the
    desktop. *)
Lemma desktop_log_keeps_the_last_entry_only_example :
  exists results s',
    send_all primary_denied client0 three_calls fresh = (Return results, s')
    /\ files s' !! log0 = None
    /\ files s' !! desktop0
       = Some (JsonDoc (JArr [log_entry (Datetime 2024 1 1 0 0 0 2) (lit "three")
                                 hi_response])).
Proof.
  destruct (desktop_log_keeps_the_last_entry_only primary_denied client0 three_calls fresh
              (denied log0))
    as (results & s' & Hall & Hlog & Hdesk);
    [vm_compute; reflexivity | vm_compute; congruence | vm_compute; reflexivity
    | vm_compute; reflexivity | vm_compute; reflexivity | vm_compute; reflexivity |].
  exists results, s'. split; [exact Hall|]. split; [exact Hlog|].
  etransitivity; [exact Hdesk|]. vm_compute; reflexivity.
Defined.

(** *** Saving the answers, in every world *)

(** [save_answers_only] never raises.  It posts nothing and reads the clock
    once.  The file beside the script, when it can be opened for writing,
    takes the header and the rows up to the first row that the writer
    cannot encode, which is all of them when there is none.  When that
    attempt ends in a [PermissionError], the same is tried once with the
    file on the desktop; a failure of another kind is not followed by a
    second attempt.  No other file changes. *)
Theorem save_answers_only_never_raises (w : world) (answers : list row) (s : state) :
  let filename := strftime_YmdHMS (clock w (ticks s)) ++ lit "_dify_answers_only.csv" in
  let filepath := path_join (batch_dir w) filename in
  let desktop_filepath := path_join (path_join (home_dir w) (lit "Desktop")) filename in
  let table := header :: map cells answers in
  let written := CsvDoc (lit "utf-8") (rows_written w table) in
  let first_try :=
    match write_error w filepath with
    | Some _ => files s
    | None => <[filepath := written]> (files s)
    end in
  let first_failure :=
    match write_error w filepath with
    | Some e => Some e
    | None => rows_failure w table
    end in
  (rows_failure w table = None -> rows_written w table = table)
  /\ exists s',
    save_answers_only w answers s = (Return tt, s')
    /\ posted s' = posted s
    /\ ticks s' = S (ticks s)
    /\ files s'
       = match first_failure with
         | None => first_try
         | Some e =>
             if is_PermissionError e then
               match write_error w desktop_filepath with
               | None => <[desktop_filepath := written]> first_try
               | Some _ => first_try
               end
             else first_try
         end.
Proof.
  cbv zeta. split; [apply rows_written_all|].
  rewrite save_answers_only_eq. eexists. split; [reflexivity|].
  unfold saved_answers. cbv zeta. unfold csv_failure, csv_attempted.
  destruct (write_error w (path_join (batch_dir w) _)) as [e|].
  - destruct (is_PermissionError e); [|done].
    destruct (write_error w (path_join (path_join (home_dir w) _) _)); [done|].
    by destruct (rows_failure w (header :: map cells answers)).
  - destruct (rows_failure w (header :: map cells answers)) as [e|]; [|done].
    destruct (is_PermissionError e); [|done].
    by destruct (write_error w (path_join (path_join (home_dir w) _) _)).
Qed.

(** *** Showing the log *)

(** The encoder at work. *)
Example json_dumps_example :
  json_dumps (JObj [(lit "a", JArr [JInt 1; JInt (-2)]); (lit "b", JObj []);
                       (lit "c", JStr ([0x22] ++ lit "x"))])
  = lit "{" ++ newline ++ lit "  " ++ [0x22] ++ lit "a" ++ [0x22] ++ lit ": [" ++ newline
    ++ lit "    1," ++ newline ++ lit "    -2" ++ newline ++ lit "  ]," ++ newline
    ++ lit "  " ++ [0x22] ++ lit "b" ++ [0x22] ++ lit ": {}," ++ newline
    ++ lit "  " ++ [0x22] ++ lit "c" ++ [0x22] ++ lit ": " ++ [0x22; 0x5C; 0x22] ++ lit "x"
    ++ [0x22] ++ newline ++ lit "}".
Proof. vm_compute. reflexivity. Qed.

(** What only prints: the steps, and their compositions. *)
Lemma only_prints_ret {A} (a : A) : only_prints (ret a).
Proof. done. Qed.

Lemma only_prints_lift {A} (o : outcome A) : only_prints (lift o).
Proof. done. Qed.

Lemma only_prints_print (line : pystr) : only_prints (print line).
Proof. done. Qed.

Lemma only_prints_bind {A B} (m : py A) (k : A -> py B) :
  only_prints m -> (forall a, only_prints (k a)) -> only_prints (bind m k).
Proof.
  intros Hm Hk s. rewrite bind_eq. specialize (Hm s).
  destruct (m s) as [[a|e] s1]; cbn [snd] in Hm; [|exact Hm].
  destruct (Hk a s1) as (Hf & Hp & Ht), Hm as (Hf1 & Hp1 & Ht1).
  by rewrite Hf, Hp, Ht.
Qed.

Lemma only_prints_try_except {A} (body : py A) (c : exn -> bool) (h : exn -> py A) :
  only_prints body -> (forall e, only_prints (h e)) -> only_prints (try_except body [(c, h)]).
Proof.
  intros Hm Hh s. rewrite try_except_eq. specialize (Hm s).
  destruct (body s) as [[a|e] s1]; cbn [snd] in Hm; [exact Hm|].
  cbn [handle]. destruct (c e); [|exact Hm].
  destruct (Hh e s1) as (Hf & Hp & Ht), Hm as (Hf1 & Hp1 & Ht1).
  by rewrite Hf, Hp, Ht.
Qed.

Lemma only_prints_path_exists (p : pystr) : only_prints (path_exists p).
Proof. done. Qed.

Lemma only_prints_json_load (w : world) (p : pystr) : only_prints (json_load w p).
Proof.
  intros s. unfold json_load.
  destruct (read_error w p); [done|]. by destruct (files s !! p) as [[| | |]|].
Qed.

Create HintDb only_prints.
#[local] Hint Resolve only_prints_ret only_prints_lift only_prints_print
  only_prints_path_exists only_prints_json_load : only_prints.
#[local] Hint Extern 2 (only_prints (bind _ _)) =>
  apply only_prints_bind; [|intros ?] : only_prints.
#[local] Hint Extern 2 (only_prints (try_except _ _)) =>
  apply only_prints_try_except; [|intros ?] : only_prints.
#[local] Hint Extern 3 (only_prints (if ?b then _ else _)) => destruct b : only_prints.

Lemma only_prints_print_entries (w : world) (logs : list json) :
  forall i, only_prints (print_entries w i logs).
Proof.
  induction logs as [|log logs IH]; intros i; cbn [print_entries];
    auto 20 with only_prints.
Qed.

Lemma only_prints_print_logs (w : world) (self : DifyClient) :
  only_prints (print_logs w self).
Proof.
  unfold print_logs.
  pose proof (only_prints_print_entries w) as Hentries.
  auto 20 with only_prints.
Qed.

(** [print_logs] never raises. *)
Lemma print_logs_returns (w : world) (self : DifyClient) (s : state) :
  fst (print_logs w self s) = Return tt.
Proof.
  unfold print_logs. rewrite bind_eq. unfold path_exists.
  destruct (bool_decide _); cbn [negb]; [|done].
  rewrite try_except_eq.
  match goal with |- context [bind ?m ?k s] => destruct (bind m k s) as [[[]|e] s1] end;
    done.
Qed.

(** The members of an entry the client has logged. *)
Lemma entry_timestamp (t : datetime) (q : pystr) (r : json) :
  py_getitem (log_entry t q r) (lit "timestamp") = Return (JStr (isoformat t)).
Proof. unfold log_entry, py_getitem. cbn [assoc]. by rewrite str_eqb_refl. Qed.

Lemma entry_question (t : datetime) (q : pystr) (r : json) :
  py_getitem (log_entry t q r) (lit "question") = Return (JStr q).
Proof.
  unfold log_entry, py_getitem. cbn [assoc].
  assert (str_eqb (lit "question") (lit "timestamp") = false) as -> by (vm_compute; reflexivity).
  by rewrite str_eqb_refl.
Qed.

Lemma entry_response (t : datetime) (q : pystr) (r : json) :
  py_getitem (log_entry t q r) (lit "response") = Return r.
Proof.
  unfold log_entry, py_getitem. cbn [assoc].
  assert (str_eqb (lit "response") (lit "timestamp") = false) as -> by (vm_compute; reflexivity).
  assert (str_eqb (lit "response") (lit "question") = false) as -> by (vm_compute; reflexivity).
  by rewrite str_eqb_refl.
Qed.

(** The lines of one entry the client has logged, when its response is an
    object. *)
Lemma print_entries_cons (w : world) (i : nat) (x : datetime * pystr * json)
    (rest : list json) (s : state) :
  is_object (x.2) = true ->
  print_entries w i (entry_of x :: rest) s
  = print_entries w (S i) rest (with_printed s (shown_entry w i x)).
Proof.
  destruct x as [[t q] r]. unfold entry_of. cbn [fst snd]. intros Hobj.
  destruct r as [| | | | | |m]; try done.
  cbn [print_entries].
  rewrite entry_timestamp, bind_lift, bind_print.
  rewrite entry_question, bind_lift, bind_print.
  rewrite entry_response, bind_lift, py_in_obj, bind_lift, bind_eq.
  unfold shown_entry. cbn [fst snd py_str].
  destruct (assoc (lit "answer") m) as [a|] eqn:Ha.
  - rewrite bind_lift, (py_getitem_obj _ _ _ Ha), bind_lift, print_eq, bind_print.
    by rewrite !with_printed_app.
  - rewrite bind_lift, print_eq, bind_print. by rewrite !with_printed_app.
Qed.

Lemma print_entries_shown (w : world) (xs : list (datetime * pystr * json)) :
  forall (i : nat) (rest : list json) (s : state),
    forallb (fun x => is_object (x.2)) xs = true ->
    print_entries w i (map entry_of xs ++ rest) s
    = print_entries w (i + length xs) rest (with_printed s (shown_entries w i xs)).
Proof.
  induction xs as [|x xs IH]; intros i rest s Hobj.
  - cbn. rewrite Nat.add_0_r. unfold with_printed. rewrite app_nil_r. by destruct s.
  - cbn [forallb] in Hobj. apply andb_true_iff in Hobj as [Hx Hxs].
    cbn [map app shown_entries length]. rewrite (print_entries_cons _ _ _ _ _ Hx).
    rewrite IH by done. rewrite with_printed_app. f_equal. lia.
Qed.

(** What the client logs, [print_logs] shows.  When the log file holds the
    entries of exchanges whose responses are objects, as [_log_interaction]
    writes them, [print_logs] prints the heading with their number and then,
    for each entry in its order, its number from 1 and its time stamp, the
    question, the answer (the [answer] member of the response, or the
    whole response as indented JSON when it has none) and a rule of fifty
    dashes; it raises nothing and prints nothing else. *)
Theorem print_logs_shows_the_entries (w : world) (self : DifyClient) (s : state)
    (xs : list (datetime * pystr * json)) :
  files s !! log_file self = Some (JsonDoc (JArr (map entry_of xs))) ->
  read_error w (log_file self) = None ->
  forallb (fun x => is_object (x.2)) xs = true ->
  print_logs w self s
  = (Return tt,
     with_printed s (chat_logs_heading (length xs) :: shown_entries w 1 xs)).
Proof.
  intros Hfile Hread Hobj. unfold print_logs.
  rewrite bind_eq. unfold path_exists. rewrite bool_decide_true by (rewrite Hfile; eauto).
  cbn [negb]. rewrite try_except_eq, bind_eq. unfold json_load. rewrite Hread, Hfile.
  cbn [py_len py_iter]. rewrite bind_lift, bind_print, bind_lift, length_map.
  rewrite <- (app_nil_r (map entry_of xs)), print_entries_shown by done.
  cbn [print_entries]. unfold ret. by rewrite with_printed_app.
Qed.

(** A log of two entries, the second without an [answer], through the
    theorem. *)
Lemma print_logs_shows_the_entries_example :
  print_logs (replying refused) client0
    (State {[log0 := JsonDoc (JArr [log_entry (Datetime 2024 1 1 0 0 0 0) (lit "Hello")
                                      hi_response;
                                    log_entry (Datetime 2024 1 1 0 0 0 1) (lit "Hi")
                                      (JObj [(lit "data", JObj [])])])]} [] [] 2)
  = (Return tt,
     State {[log0 := JsonDoc (JArr [log_entry (Datetime 2024 1 1 0 0 0 0) (lit "Hello")
                                      hi_response;
                                    log_entry (Datetime 2024 1 1 0 0 0 1) (lit "Hi")
                                      (JObj [(lit "data", JObj [])])])]}
       [newline ++ lit "=== Chat Logs (2 entries) ===";
        newline ++ lit "[1] 2024-01-01T00:00:00";
        lit "Q: Hello";
        lit "A: hi";
        lit "--------------------------------------------------";
        newline ++ lit "[2] 2024-01-01T00:00:00.000001";
        lit "Q: Hi";
        lit "Response: {" ++ newline ++ lit "  " ++ [0x22] ++ lit "data" ++ [0x22]
        ++ lit ": {}" ++ newline ++ lit "}";
        lit "--------------------------------------------------"]
       [] 2).
Proof.
  rewrite (print_logs_shows_the_entries (replying refused) client0 _
             [(Datetime 2024 1 1 0 0 0 0, lit "Hello", hi_response);
              (Datetime 2024 1 1 0 0 0 1, lit "Hi", JObj [(lit "data", JObj [])])]);
    vm_compute; reflexivity.
Defined.

(** An entry whose response is no container ([null], a number, a
    boolean: what a server can send as a JSON body) ends the listing.  The
    heading counts every entry and the entries before it are shown; of the
    entry itself the time stamp and the question are printed, then the
    test for [answer] raises [TypeError], and the message of the error is
    the last line: the entries after it are not shown. *)
Theorem print_logs_stops_at_a_response_that_is_no_container (w : world)
    (self : DifyClient) (s : state) (xs : list (datetime * pystr * json))
    (t : datetime) (q : pystr) (r : json) (later : list json) :
  files s !! log_file self
  = Some (JsonDoc (JArr (map entry_of xs ++ log_entry t q r :: later))) ->
  read_error w (log_file self) = None ->
  forallb (fun x => is_object (x.2)) xs = true ->
  is_container r = false ->
  print_logs w self s
  = (Return tt,
     with_printed s
       (chat_logs_heading (length xs + S (length later))
        :: shown_entries w 1 xs
        ++ [newline ++ lit "[" ++ dec (N.of_nat (S (length xs))) ++ lit "] " ++ isoformat t;
            lit "Q: " ++ q;
            lit "Error reading logs: " ++ lit "argument of type '" ++ type_name r
            ++ lit "' is not iterable"])).
Proof.
  intros Hfile Hread Hobj Hr. unfold print_logs.
  rewrite bind_eq. unfold path_exists. rewrite bool_decide_true by (rewrite Hfile; eauto).
  cbn [negb]. rewrite try_except_eq, bind_eq. unfold json_load. rewrite Hread, Hfile.
  cbn [py_len py_iter]. rewrite bind_lift, bind_print, bind_lift.
  rewrite length_app, length_map. cbn [length].
  rewrite print_entries_shown by done.
  cbn [print_entries].
  rewrite entry_timestamp, bind_lift, bind_print.
  rewrite entry_question, bind_lift, bind_print.
  rewrite entry_response, bind_lift, bind_lift.
  destruct r; try done; cbn [py_in handle is_Exception];
    rewrite print_eq, !with_printed_app; reflexivity.
Qed.

(** A log whose second entry has the response [null], through the
    theorem. *)
Lemma print_logs_stops_example :
  print_logs (replying refused) client0
    (State {[log0 := JsonDoc (JArr [log_entry (Datetime 2024 1 1 0 0 0 0) (lit "Hello")
                                      hi_response;
                                    log_entry (Datetime 2024 1 1 0 0 0 1) (lit "Hi") JNull;
                                    log_entry (Datetime 2024 1 1 0 0 0 2) (lit "Hey")
                                      hi_response])]} [] [] 3)
  = (Return tt,
     State {[log0 := JsonDoc (JArr [log_entry (Datetime 2024 1 1 0 0 0 0) (lit "Hello")
                                      hi_response;
                                    log_entry (Datetime 2024 1 1 0 0 0 1) (lit "Hi") JNull;
                                    log_entry (Datetime 2024 1 1 0 0 0 2) (lit "Hey")
                                      hi_response])]}
       [newline ++ lit "=== Chat Logs (3 entries) ===";
        newline ++ lit "[1] 2024-01-01T00:00:00";
        lit "Q: Hello";
        lit "A: hi";
        lit "--------------------------------------------------";
        newline ++ lit "[2] 2024-01-01T00:00:00.000001";
        lit "Q: Hi";
        lit "Error reading logs: argument of type 'NoneType' is not iterable"]
       [] 3).
Proof.
  rewrite (print_logs_stops_at_a_response_that_is_no_container (replying refused) client0 _
             [(Datetime 2024 1 1 0 0 0 0, lit "Hello", hi_response)]
             (Datetime 2024 1 1 0 0 0 1) (lit "Hi") JNull
             [log_entry (Datetime 2024 1 1 0 0 0 2) (lit "Hey") hi_response]);
    vm_compute; reflexivity.
Defined.

(** [print_logs] never raises, whatever the log file holds, and it only
    prints: the files, the requests posted and the clock stay as they are.
    Without a log file it prints [No logs found.] and nothing else; for a
    log file that cannot be opened, read or decoded, the text of the
    exception that [open] or [json.load] raises, after
    [Error reading logs: ], and nothing else. *)
Theorem print_logs_never_raises (w : world) (self : DifyClient) (s : state) :
  exists s',
    print_logs w self s = (Return tt, s')
    /\ files s' = files s /\ posted s' = posted s /\ ticks s' = ticks s
    /\ (files s !! log_file self = None -> stdout s' = stdout s ++ [lit "No logs found."])
    /\ (forall c e, files s !! log_file self = Some c ->
          fst (json_load w (log_file self) s) = Raise e ->
          stdout s' = stdout s ++ [lit "Error reading logs: " ++ exn_str e]).
Proof.
  pose proof (print_logs_returns w self s) as Hret.
  destruct (only_prints_print_logs w self s) as (Hf & Hp & Ht).
  destruct (print_logs w self s) as [o s'] eqn:Hrun. cbn [fst snd] in *. subst o.
  exists s'. split; [done|]. split; [done|]. split; [done|]. split; [done|].
  unfold print_logs in Hrun. rewrite bind_eq in Hrun. unfold path_exists in Hrun.
  split.
  - intros Hnone. rewrite Hnone in Hrun.
    rewrite bool_decide_false in Hrun by (intros [? ?]; done).
    cbn [negb] in Hrun. rewrite print_eq in Hrun. by injection Hrun as <-.
  - intros c e Hc Hload. rewrite Hc in Hrun.
    rewrite bool_decide_true in Hrun by eauto.
    cbn [negb] in Hrun. rewrite try_except_eq, bind_eq in Hrun.
    rewrite json_load_eq, Hload in Hrun. cbn [handle is_Exception] in Hrun.
    rewrite print_eq in Hrun. by injection Hrun as <-.
Qed.

(** A log file that is no JSON document, and one that is not UTF-8. *)
Lemma print_logs_never_raises_examples :
  print_logs (replying refused) client0 (State {[log0 := Garbled (lit "not json")]} [] [] 0)
  = (Return tt,
     State {[log0 := Garbled (lit "not json")]}
       [lit "Error reading logs: Expecting value: line 1 column 1 (char 0)"] [] 0)
  /\ print_logs (replying refused) client0 (State {[log0 := Garbled [0xFF; 0xFE]]} [] [] 0)
     = (Return tt,
        State {[log0 := Garbled [0xFF; 0xFE]]}
          [lit "Error reading logs: 'utf-8' codec can't decode byte 0xff in position 0: invalid start byte"]
          [] 0).
Proof. split; vm_compute; reflexivity. Qed.

(** *** The chat *)

Lemma blank_strip (text : pystr) : blank text = true <-> strip text = [].
Proof. unfold blank. symmetry. apply strip_nil. Qed.

Lemma ends_chat_asks (ev : event) : ends_chat ev = true -> asks ev = None.
Proof.
  destruct ev as [text| |]; cbn; [|done|done].
  intros ->. by rewrite orb_true_r.
Qed.

(** One turn never raises; it tells whether the loop goes on, posts the
    request of the question it asks, if any, and can change no file but
    the two logs. *)
Lemma chat_turn_spec (w : world) (client : DifyClient) (ev : event) (s : state) :
  exists s',
    chat_turn w client ev s = (Return (negb (ends_chat ev)), s')
    /\ posted s'
       = posted s ++ match asks ev with
                     | Some q => [question_request client q]
                     | None => []
                     end
    /\ (forall p, p <> log_file client -> p <> desktop_log_file w ->
          files s' !! p = files s !! p).
Proof.
  destruct ev as [text| |]; cbn [chat_turn ends_chat asks].
  - rewrite try_except_eq. cbv zeta.
    destruct (strip text) as [|c q] eqn:Hq.
    { apply blank_strip in Hq. rewrite Hq. cbn [orb].
      exists s. unfold ret. split; [done|]. split; [by rewrite app_nil_r|done]. }
    assert (blank text = false) as ->.
    { destruct (blank text) eqn:Hb; [|done]. apply blank_strip in Hb. congruence. }
    cbn [orb].
    destruct (str_eqb (c :: q) (lit "/quit")); cbn [orb negb].
    { exists s. unfold ret. split; [done|]. split; [by rewrite app_nil_r|done]. }
    destruct (str_eqb (c :: q) (lit "/logs")); cbn [orb].
    { rewrite bind_eq.
      pose proof (print_logs_returns w client s) as Hret.
      destruct (only_prints_print_logs w client s) as (Hf & Hp & _).
      destruct (print_logs w client s) as [o s1]. cbn [fst snd] in *. subst o.
      exists s1. unfold ret. split; [done|].
      split; [by rewrite Hp, app_nil_r|]. intros p _ _. by rewrite Hf. }
    destruct (str_eqb (c :: q) (lit "/help")); cbn [orb].
    { rewrite !bind_print. eexists. unfold ret. split; [reflexivity|].
      split; [cbn; by rewrite app_nil_r|done]. }
    rewrite bind_print, bind_eq.
    pose proof (get_answer_posts w client (c :: q) (with_printed s [lit "Bot: "])) as Hp.
    pose proof (get_answer_frame w client (c :: q) (with_printed s [lit "Bot: "])) as Hf.
    destruct (get_answer w client (c :: q) (with_printed s [lit "Bot: "])) as [[a|e] s1];
      cbn [fst snd handle is_Exception] in *.
    + rewrite bind_print. unfold ret. eexists. split; [reflexivity|]. done.
    + rewrite bind_print. unfold ret. eexists. split; [reflexivity|]. done.
  - rewrite bind_print. unfold ret. eexists. split; [reflexivity|].
    split; [cbn; by rewrite app_nil_r|done].
  - rewrite bind_print. unfold ret. eexists. split; [reflexivity|].
    split; [cbn; by rewrite app_nil_r|done].
Qed.

Lemma chat_loop_spec (w : world) (client : DifyClient) (events : list event) :
  forall s,
  exists s',
    chat_loop w client events s
    = (Return (match unread_after events with
               | Some rest => Ended rest
               | None => Waiting
               end), s')
    /\ posted s' = posted s ++ map (question_request client) (asked events)
    /\ (forall p, p <> log_file client -> p <> desktop_log_file w ->
          files s' !! p = files s !! p).
Proof.
  induction events as [|ev events IH]; intros s; cbn [chat_loop unread_after asked].
  - rewrite bind_print. unfold ret. eexists. split; [reflexivity|].
    split; [cbn; by rewrite app_nil_r|done].
  - rewrite bind_print, bind_eq.
    destruct (chat_turn_spec w client ev (with_printed s [newline ++ lit "You: "]))
      as (s1 & -> & Hp1 & Hf1).
    destruct (ends_chat ev) eqn:He; cbn [negb].
    + unfold ret. exists s1. split; [done|].
      split; [|exact Hf1]. by rewrite Hp1, (ends_chat_asks _ He).
    + destruct (IH s1) as (s' & -> & Hp & Hf). exists s'. split; [done|].
      split.
      * rewrite Hp, Hp1. cbn [with_printed posted].
        destruct (asks ev); cbn [map]; by rewrite <- app_assoc.
      * intros p H1 H2. by rewrite Hf, Hf1.
Qed.

(** A chat, from the line given as the key on: it raises nothing.  It ends
    at the first [/quit] or interrupt, leaving what follows unread, and
    waits for more input when there is none.  Until it ends, every line
    that is not blank and not a command is asked, stripped, in one
    request of its own, in the order of the lines; blank lines, [/logs],
    [/help] and the end of the input post nothing, and a question whose
    [get_answer] raises does not stop the loop.  No file changes but the
    two logs. *)
Theorem chat_main_asks_each_question_once (w : world) (key_line : pystr)
    (events : list event) (s : state) :
  exists s',
    dify_client.main w (Line key_line :: events) s
    = (Return (match unread_after events with
               | Some rest => Ended rest
               | None => Waiting
               end), s')
    /\ posted s'
       = posted s ++ map (question_request (chat_client w key_line)) (asked events)
    /\ (forall p, p <> log_file (chat_client w key_line) -> p <> desktop_log_file w ->
          files s' !! p = files s !! p).
Proof.
  unfold dify_client.main. rewrite !bind_print. fold (chat_client w key_line).
  match goal with |- context [chat_loop w _ events ?s0] =>
    destruct (chat_loop_spec w (chat_client w key_line) events s0) as (s' & H & Hp & Hf) end.
  exists s'. split; [|done].
  rewrite <- H. unfold chat_client. by destruct (strip key_line).
Qed.

(** A chat over a few lines: the key is left to the environment, a
    question is asked, the log is shown, and the line after [/quit] is not
    read. *)
Example chat_example :
  dify_client.main batch_world
    [Line []; Line (lit "  Hello "); Line (lit "/logs"); Line (lit "/quit");
     Line (lit "never read")] fresh
  = (Return (Ended [Line (lit "never read")]),
     State {[log0 := JsonDoc (JArr [log_entry (Datetime 2024 1 1 0 0 0 0) (lit "Hello")
                                      hi_response])]}
       [lit "Enter your Dify API key (or press Enter to use environment variable): ";
        lit "=== Dify Chat Client ===";
        lit "Commands:";
        lit "  /logs - Show chat logs";
        lit "  /quit - Exit";
        lit "  /help - Show this help";
        newline ++ lit "Enter your questions below:";
        newline ++ lit "You: ";
        lit "Bot: ";
        lit "hi";
        newline ++ lit "You: ";
        newline ++ lit "=== Chat Logs (1 entries) ===";
        newline ++ lit "[1] 2024-01-01T00:00:00";
        lit "Q: Hello";
        lit "A: hi";
        lit "--------------------------------------------------";
        newline ++ lit "You: "]
       [question_request (init batch_world None None) (lit "Hello")] 1).
Proof. vm_compute. reflexivity. Qed.

(** *** A client without a key *)

(** Without a key, neither as an argument nor in the environment (or with
    empty ones), the client adds no header: every call still posts its
    request, to the same endpoint and with the same body, but without an
    [Authorization] header. *)
Theorem request_without_key_has_no_headers (w : world) (b k : option pystr)
    (m u : pystr) (c : option pystr) (s : state) :
  truthy (py_or k (environ w (lit "DIFY_API_KEY"))) = false ->
  posted (snd (send_message w (init w b k) m u c s))
  = posted s
    ++ [Request (base_url (init w b k) ++ lit "/chat-messages") []
          (JObj [(lit "inputs", JObj []);
                 (lit "query", JStr m);
                 (lit "response_mode", JStr (lit "blocking"));
                 (lit "conversation_id",
                  match c with Some i => JStr i | None => JNull end);
                 (lit "user", JStr u)])].
Proof.
  intros Hkey. rewrite send_message_posts. unfold chat_request. do 3 f_equal.
  unfold init. cbn [headers].
  by destruct (py_or k (environ w (lit "DIFY_API_KEY"))) as [[|c0 key]|].
Qed.

(** An empty key as the argument and none in the environment, through the
    theorem. *)
Lemma request_without_key_example :
  posted (snd (send_message (replying refused) (init (replying refused) None (Some []))
                 (lit "Hello") (lit "user") None fresh))
  = [Request (lit "http://localhost/v1/chat-messages") []
       (JObj [(lit "inputs", JObj []);
              (lit "query", JStr (lit "Hello"));
              (lit "response_mode", JStr (lit "blocking"));
              (lit "conversation_id", JNull);
              (lit "user", JStr (lit "user"))])].
Proof.
  rewrite (request_without_key_has_no_headers (replying refused) None (Some [])
             (lit "Hello") (lit "user") None fresh);
    vm_compute; reflexivity.
Defined.

(** *** The time stamps of the rows *)

(** [get_answer] does not set the count of clock readings back. *)
Lemma get_answer_ticks (w : world) (self : DifyClient) (q : pystr) (s : state) :
  (ticks s <= ticks (snd (get_answer w self q s)))%nat.
Proof.
  rewrite get_answer_pick.
  destruct (send_message_frame w self q (lit "user") None s) as (Ht & _ & _).
  destruct (send_message w self q (lit "user") None s) as [[r|e] s']; cbn [snd] in *;
    rewrite Ht; destruct (failure _); lia.
Qed.

(** The readings the rows are stamped with. *)
Lemma batch_loop_stamps (w : world) (client : DifyClient) (qs : list pystr) :
  forall (i : nat) (acc : list row) (s : state),
  exists new s' ts,
    batch_loop w client i qs acc s = (Return (acc ++ new), s')
    /\ map timestamp new = map (fun t => isoformat (clock w t)) ts
    /\ length ts = length qs
    /\ (ticks s <= ticks s')%nat
    /\ Forall (fun t => (ticks s <= t < ticks s')%nat) ts
    /\ (forall j k a b, (j < k)%nat -> ts !! j = Some a -> ts !! k = Some b -> (a < b)%nat).
Proof.
  induction qs as [|q qs IH]; intros i acc s.
  - exists [], s, []. cbn. rewrite app_nil_r. repeat split; auto. intros j k a b _ Hj. done.
  - cbn [batch_loop]. rewrite bind_eq, batch_step_eq. cbv beta iota zeta.
    pose proof (get_answer_ticks w client q (turn_start s i q)) as Hge.
    set (s2 := snd (get_answer w client q (turn_start s i q))) in *.
    match goal with |- context [batch_loop w client (S i) qs (acc ++ [?r]) ?s1] =>
      destruct (IH (S i) (acc ++ [r]) s1) as (new & s' & ts & Hloop & Hts & Hlen & Hle & Hin & Hord);
      exists (r :: new), s', (ticks s2 :: ts)
    end.
    rewrite Hloop, <- app_assoc. cbn [with_printed with_tick ticks turn_start] in *.
    split; [done|]. split; [cbn; by rewrite Hts|]. split; [cbn; by rewrite Hlen|].
    split; [lia|]. split.
    + constructor; [lia|]. eapply Forall_impl; [exact Hin|]. cbn. intros t Ht. lia.
    + intros j k a b Hjk Hj Hk. destruct k as [|k]; [lia|]. cbn in Hk.
      destruct j as [|j]; cbn in Hj.
      * injection Hj as <-. rewrite Forall_forall in Hin.
        apply list_elem_of_lookup_2 in Hk. specialize (Hin _ Hk). cbn in Hin. lia.
      * apply (Hord j k); [lia|done|done].
Qed.

(** The rows of the loop are stamped in order.  The time stamp of each row
    is the ISO text of a clock reading taken during the loop, after the
    answer of the row was obtained; the reading of a later row is a later
    reading; so with a clock that does not go back, the time stamps of
    the rows follow each other in time. *)
Theorem batch_rows_are_stamped_in_order (w : world) (client : DifyClient)
    (qs : list pystr) (s : state) :
  exists rows s' ts,
    batch_loop w client 1 qs [] s = (Return rows, s')
    /\ map timestamp rows = map (fun t => isoformat (clock w t)) ts
    /\ length ts = length qs
    /\ Forall (fun t => (ticks s <= t < ticks s')%nat) ts
    /\ (forall j k a b, (j < k)%nat -> ts !! j = Some a -> ts !! k = Some b -> (a < b)%nat)
    /\ ((forall a b, (a <= b)%nat -> dt_le (clock w a) (clock w b)) ->
        forall j k a b, (j <= k)%nat -> ts !! j = Some a -> ts !! k = Some b ->
          dt_le (clock w a) (clock w b)).
Proof.
  destruct (batch_loop_stamps w client qs 1 [] s)
    as (rows & s' & ts & Hloop & Hts & Hlen & _ & Hin & Hord).
  exists rows, s', ts. split; [exact Hloop|]. split; [exact Hts|].
  split; [exact Hlen|]. split; [exact Hin|]. split; [exact Hord|].
  intros Hmono j k a b Hjk Hj Hk. apply Hmono.
  destruct (decide (j = k)) as [->|Hne].
  - rewrite Hj in Hk. injection Hk as ->. lia.
  - assert (a < b)%nat by (apply (Hord j k); [lia|done|done]). lia.
Qed.
